(** * Kaspa MCP server: coin selection, fee resolution, session keys,
      amount validation and balance subscriptions

    A shallow embedding of the orchestration code of the Kaspa MCP server
    ([src/index.ts]) and of the SDK it drives
    ([packages/kaspa-wasm-sdk/src/KaspaSDK.ts], [utxo/UtxoManager.ts],
    [utils/index.ts], [utils/network.ts], [config/Configuration.ts],
    [wallet/KaspaWallet.ts]).  JavaScript [bigint] values are [Z]; strings are
    [string]; [Map<string, _>] is [gmap string _]; mutable arrays and objects
    that are shared between closures live in an explicit store. *)

From Stdlib Require Import ZArith QArith Qround List String Ascii Lia Permutation Sorted DecimalString.
From stdpp Require Import base option list gmap strings fin_sets.

Import ListNotations.
Local Open Scope Z_scope.

(* ===================================================================== *)
(** ** UTXO entries and the largest-first selector ([UtxoManager.ts]) *)
(* ===================================================================== *)

Module Utxo.

(** [kaspa.ITransactionOutpoint] *)
Record TransactionOutpoint := {
  transactionId : string;
  index : nat
}.

(** [kaspa.IUtxoEntry]: the entry type [selectUTXOs] receives. *)
Record IUtxoEntry := {
  address : option string;
  outpoint : TransactionOutpoint;
  amount : Z;
  scriptPublicKey : string;
  blockDaaScore : Z;
  isCoinbase : bool
}.

(** Sum of the amounts of a list of entries. *)
Definition sumAmounts (l : list IUtxoEntry) : Z :=
  fold_right (fun u acc => amount u + acc) 0 l.

(** The comparator handed to [sort]: [(a, b) => Number(b.amount - a.amount)].
    [Number] of a [bigint] rounds to the nearest double and keeps zero and the
    sign, and [sort] only looks at the sign of the result, so the difference
    is kept as an integer. *)
Definition compareFn (a b : IUtxoEntry) : Z := amount b - amount a.

(** [Array.prototype.sort] is a stable sort: with a consistent comparator its
    result is the unique ordered arrangement that keeps equal elements in
    their original order.  It is written here as a stable insertion sort:
    [x], which precedes everything in [l] in the input, moves behind [y]
    only when [cmp x y > 0]. *)
Fixpoint sortInsert {A} (cmp : A -> A -> Z) (x : A) (l : list A) : list A :=
  match l with
  | [] => [x]
  | y :: l' => if 0 <? cmp x y then y :: sortInsert cmp x l' else x :: y :: l'
  end.

Definition Array_sort {A} (cmp : A -> A -> Z) (l : list A) : list A :=
  fold_right (sortInsert cmp) [] l.

(** The return value [{ selectedUtxos, totalAmount, change }]. *)
Record Selection := {
  selectedUtxos : list IUtxoEntry;
  totalAmount : Z;
  change : Z
}.

(** [throw new Error(`Insufficient funds. Need ${totalNeeded}, have
    ${totalAmount}`)]: the two numbers the message carries. *)
Inductive SelectError :=
| InsufficientFunds (need have : Z).

(** State of the [for (const utxo of sortedUtxos)] loop. *)
Record LoopState := {
  ls_selected : list IUtxoEntry;
  ls_totalAmount : Z;
  ls_totalNeeded : Z
}.

(** The loop: push, add the amount, add the per-entry fee, and [break] as
    soon as [totalAmount >= totalNeeded]. *)
Fixpoint selectLoop (feePerUtxo : Z) (sortedUtxos : list IUtxoEntry)
    (st : LoopState) : LoopState :=
  match sortedUtxos with
  | [] => st
  | utxo :: rest =>
      let st' := {| ls_selected := ls_selected st ++ [utxo];
                    ls_totalAmount := ls_totalAmount st + amount utxo;
                    ls_totalNeeded := ls_totalNeeded st + feePerUtxo |} in
      if ls_totalNeeded st' <=? ls_totalAmount st' then st'
      else selectLoop feePerUtxo rest st'
  end.

(** The default of the third parameter: [feePerUtxo: bigint = BigInt(1000)]. *)
Definition feePerUtxoOf (arg : option Z) : Z := default 1000 arg.

(** [UtxoManager.selectUTXOs], on values. *)
Definition selectUTXOs (availableUtxos : list IUtxoEntry) (targetAmount : Z)
    (feeArg : option Z) : SelectError + Selection :=
  let feePerUtxo := feePerUtxoOf feeArg in
  let sortedUtxos := Array_sort compareFn availableUtxos in
  let st := selectLoop feePerUtxo sortedUtxos
              {| ls_selected := []; ls_totalAmount := 0;
                 ls_totalNeeded := targetAmount |} in
  if ls_totalAmount st <? ls_totalNeeded st then
    inl (InsufficientFunds (ls_totalNeeded st) (ls_totalAmount st))
  else
    inr {| selectedUtxos := ls_selected st;
           totalAmount := ls_totalAmount st;
           change := ls_totalAmount st - ls_totalNeeded st |}.

(** *** The same function over a store of arrays

    JavaScript arrays are mutable objects: [sort] reorders its receiver in
    place and [push] extends it.  The store maps array references to their
    current contents. *)

Definition loc := nat.

Record Store := { arrays : gmap loc (list IUtxoEntry) }.

Inductive Outcome (A : Type) :=
| Returned (a : A)
| Thrown (e : SelectError)
| TypeError.
Arguments Returned {A} a.
Arguments Thrown {A} e.
Arguments TypeError {A}.

(** Computations over the store. *)
Definition M (A : Type) := Store -> Outcome A * Store.

Definition ret {A} (a : A) : M A := fun s => (Returned a, s).
Definition bind {A B} (m : M A) (k : A -> M B) : M B :=
  fun s => match m s with
           | (Returned a, s') => k a s'
           | (Thrown e, s') => (Thrown e, s')
           | (TypeError, s') => (TypeError, s')
           end.
Definition throw {A} (e : SelectError) : M A := fun s => (Thrown e, s).

#[global] Instance M_ret : MRet M := @ret.
#[global] Instance M_bind : MBind M := fun A B k m => bind m k.

(** Reading the current contents of an array. *)
Definition readArray (r : loc) : M (list IUtxoEntry) :=
  fun s => match arrays s !! r with
           | Some l => (Returned l, s)
           | None => (TypeError, s)
           end.

(** Allocation of a new array object. *)
Definition newArray (l : list IUtxoEntry) : M loc :=
  fun s => let r := fresh (dom (arrays s)) in
           (Returned r, {| arrays := <[r := l]> (arrays s) |}).

(** [[...a]]: a new array with the elements of [a]. *)
Definition spread (a : loc) : M loc :=
  l ← readArray a; newArray l.

(** [a.sort(cmp)]: sorts [a] in place and returns [a] itself. *)
Definition sortInPlace (cmp : IUtxoEntry -> IUtxoEntry -> Z) (a : loc) : M loc :=
  fun s => match arrays s !! a with
           | Some l => (Returned a, {| arrays := <[a := Array_sort cmp l]> (arrays s) |})
           | None => (TypeError, s)
           end.

(** [a.push(x)] *)
Definition push (a : loc) (x : IUtxoEntry) : M unit :=
  fun s => match arrays s !! a with
           | Some l => (Returned tt, {| arrays := <[a := l ++ [x]]> (arrays s) |})
           | None => (TypeError, s)
           end.

(** The loop over the elements of the sorted copy; [selected] is the array
    the entries are pushed onto. *)
Fixpoint selectLoopM (feePerUtxo : Z) (elements : list IUtxoEntry)
    (selected : loc) (totalAmount totalNeeded : Z) : M (Z * Z) :=
  match elements with
  | [] => ret (totalAmount, totalNeeded)
  | utxo :: rest =>
      _ ← push selected utxo;
      let totalAmount := totalAmount + amount utxo in
      let totalNeeded := totalNeeded + feePerUtxo in
      if totalNeeded <=? totalAmount then ret (totalAmount, totalNeeded)
      else selectLoopM feePerUtxo rest selected totalAmount totalNeeded
  end.

(** The returned object, with [selectedUtxos] a reference. *)
Record SelectionRef := {
  r_selectedUtxos : loc;
  r_totalAmount : Z;
  r_change : Z
}.

(** [UtxoManager.selectUTXOs] over the store: [availableUtxos] is the
    caller's array. *)
Definition selectUTXOsM (availableUtxos : loc) (targetAmount : Z)
    (feeArg : option Z) : M SelectionRef :=
  let feePerUtxo := feePerUtxoOf feeArg in
  copy ← spread availableUtxos;
  sortedUtxos ← sortInPlace compareFn copy;
  selected ← newArray [];
  elements ← readArray sortedUtxos;
  '(totalAmount, totalNeeded) ←
     selectLoopM feePerUtxo elements selected 0 targetAmount;
  if totalAmount <? totalNeeded then
    throw (InsufficientFunds totalNeeded totalAmount)
  else
    ret {| r_selectedUtxos := selected;
           r_totalAmount := totalAmount;
           r_change := totalAmount - totalNeeded |}.

End Utxo.

(* ===================================================================== *)
(** ** JavaScript built-ins the handlers rely on *)
(* ===================================================================== *)

Module Js.

Local Open Scope string_scope.

(** White space removed by [String.prototype.trim] and skipped by
    [parseFloat]; strings are sequences of 8-bit characters here, so the
    white-space code points beyond ASCII are not represented. *)
Definition isWhiteSpace (c : ascii) : bool :=
  let n := nat_of_ascii c in
  ((9 <=? n)%nat && (n <=? 13)%nat) || (n =? 32)%nat.

Fixpoint trimStart (s : string) : string :=
  match s with
  | String c s' => if isWhiteSpace c then trimStart s' else s
  | EmptyString => EmptyString
  end.

(** Removes trailing white space: a character is kept when something
    remains after it once the rest has been trimmed, or when it is not
    white space itself. *)
Fixpoint trimEnd (s : string) : string :=
  match s with
  | String c s' =>
      match trimEnd s' with
      | EmptyString => if isWhiteSpace c then EmptyString else String c EmptyString
      | t => String c t
      end
  | EmptyString => EmptyString
  end.

(** [s.trim()] *)
Definition trim (s : string) : string := trimEnd (trimStart s).

(** Truthiness of an optional string: [undefined] and [""] are falsy. *)
Definition truthy (v : option string) : bool :=
  match v with
  | Some s => negb (String.eqb s "")
  | None => false
  end.

(** [s.includes(".")] *)
Fixpoint includesDot (s : string) : bool :=
  match s with
  | String c s' => Ascii.eqb c "." || includesDot s'
  | EmptyString => false
  end.

(** Numbers as far as the handlers inspect them: [NaN], the infinities, and
    finite values.  Finite values are kept as exact rationals; rounding to
    binary64 (which turns magnitudes below about 1e-324 into zero and above
    about 1.8e308 into an infinity) is not modelled. *)
Inductive Number :=
| NaN
| Infinite (negative : bool)
| Finite (q : Q).

Definition isNaN (x : Number) : bool :=
  match x with NaN => true | _ => false end.

(** [x < 0] *)
Definition ltZero (x : Number) : bool :=
  match x with
  | NaN => false
  | Infinite negative => negative
  | Finite q => match Qcompare q 0 with Lt => true | _ => false end
  end.

Definition isDigit (c : ascii) : bool :=
  let n := nat_of_ascii c in (48 <=? n)%nat && (n <=? 57)%nat.

(** The longest prefix of decimal digits, and what follows it. *)
Fixpoint spanDigits (s : string) : list ascii * string :=
  match s with
  | String c s' =>
      if isDigit c then let '(ds, r) := spanDigits s' in (c :: ds, r)
      else ([], s)
  | EmptyString => ([], EmptyString)
  end.

Definition digitsValue (ds : list ascii) : Z :=
  fold_left (fun acc c => 10 * acc + (Z.of_nat (nat_of_ascii c) - 48)) ds 0%Z.

(** An optional sign. *)
Definition spanSign (s : string) : bool * string :=
  match s with
  | String "-" s' => (true, s')
  | String "+" s' => (false, s')
  | _ => (false, s)
  end.

(** The exponent part [e[+-]digits], when a complete one is present. *)
Definition spanExponent (s : string) : Z :=
  match s with
  | String c s' =>
      if Ascii.eqb c "e" || Ascii.eqb c "E" then
        let '(neg, s'') := spanSign s' in
        let '(ds, _) := spanDigits s'' in
        match ds with
        | [] => 0%Z
        | _ => if neg then (- digitsValue ds)%Z else digitsValue ds
        end
      else 0%Z
  | EmptyString => 0%Z
  end.

(** [parseFloat(s)]: leading white space is skipped and the longest prefix
    that is a decimal literal is converted; [NaN] when there is none. *)
Definition parseFloat (s : string) : Number :=
  let '(neg, body) := spanSign (trimStart s) in
  if String.prefix "Infinity" body then Infinite neg
  else
    let '(ip, r1) := spanDigits body in
    let '(fp, r2) :=
      match r1 with
      | String "." r => spanDigits r
      | _ => ([], r1)
      end in
    match (ip ++ fp)%list with
    | [] => NaN
    | ds =>
        let mant := digitsValue ds in
        let e := (spanExponent r2 - Z.of_nat (length fp))%Z in
        let q := if (0 <=? e)%Z then inject_Z (mant * 10 ^ e)
                 else Qmake mant (Z.to_pos (10 ^ (- e))) in
        Finite (if neg then Qopp q else q)
    end.

(** [Number(z)] for a [bigint] [z]: the nearest binary64 value, ties to the
    even significand (53 significant bits).  The result is an integer;
    overflow to an infinity, beyond [2^1024], is not modelled. *)
Definition NumberOfBigInt (z : Z) : Z :=
  let a := Z.abs z in
  let bits := (Z.log2 a + 1)%Z in
  if (bits <=? 53)%Z then z
  else
    let e := (bits - 53)%Z in
    let q := Z.shiftr a e in
    let r := Z.land a (Z.ones e) in
    let half := Z.shiftl 1 (e - 1) in
    let q' := if (half <? r)%Z || ((r =? half)%Z && Z.odd q)
              then (q + 1)%Z else q in
    (Z.sgn z * Z.shiftl q' e)%Z.

(** [BigInt(Math.ceil(x))] for a finite [x]. *)
Definition ceilToBigInt (x : Q) : Z := Qceiling x.

End Js.

(* ===================================================================== *)
(** ** The SDK ([KaspaSDK.ts], [utils/index.ts]) *)
(* ===================================================================== *)

Module Sdk.

Local Open Scope string_scope.

(** A call either returns a value or throws an [Error] with a message. *)
Inductive Result (A : Type) :=
| Ok (a : A)
| Err (message : string).
Arguments Ok {A} a.
Arguments Err {A} message.

(** [kaspa.PrivateKey], opaque to this code. *)
Definition PrivateKey := string.

(** [kaspa.IPaymentOutput] *)
Record PaymentOutput := {
  po_address : string;
  po_amount : Z
}.

(** A transaction as far as this code reads it: its id, the entries it
    spends and the outputs it creates ([output.value]). *)
Record TransactionInput := {
  previousOutpoint : Utxo.TransactionOutpoint;
  utxo : Utxo.IUtxoEntry
}.

Record TransactionOutput := {
  value : Z;
  recipient : string
}.

Record Transaction := {
  id : string;
  inputs : list TransactionInput;
  outputs : list TransactionOutput
}.

(** [kaspa.PendingTransaction]: [pendingTx.transaction] is the transaction,
    signed once [pendingTx.sign] has returned. *)
Record PendingTransaction := {
  transaction : Transaction
}.

(** [types.FeeEstimate] *)
Record FeeEstimate := {
  baseFee : Z;
  massLimit : Z;
  estimatedMass : Z;
  totalFee : Z
}.

(** [types.SendTransactionResult] ([changeAmount] is never set). *)
Record SendTransactionResult := {
  transactionId : string;
  fee : Z;
  mass : Z
}.

(** [types.TransactionConfig] *)
Record TransactionConfig := {
  from : string + PrivateKey;
  to : string;
  amount : Z;
  priorityFee : option Z;
  customTotalFee : option Z;
  payload : option string;
  changeAddress : option string
}.

(** The node's fee estimate: the [feerate] of each bucket. *)
Record FeeEstimateBuckets := {
  priorityBucket : option Q;
  normalBuckets : list Q;
  lowBuckets : list Q
}.

Record FeeEstimateResponse := {
  estimate : option FeeEstimateBuckets
}.

(** [types.BalanceInfo] *)
Record BalanceInfo := {
  bi_address : string;
  balance : Z;
  utxoCount : nat
}.

(** [KaspaWallet], as far as the handlers use it. *)
Record KaspaWallet := {
  getReceivePrivateKey : nat -> Result PrivateKey;
  getReceiveAddress : nat -> Result string
}.

(** The Ledger Engine: the node as reached through the methods of
    [RpcClient] (thin wrappers around the WASM client), the
    [TransactionBuilder] (its source, [transaction/TransactionBuilder.ts], is
    not part of this development) and the WASM library.  Their answers are
    parameters of the model: each is a function of the arguments of the
    call. *)
Record Engine := {
  rpc_getUTXOs : string -> Result (list Utxo.IUtxoEntry);
  rpc_getFeeEstimate : Result FeeEstimateResponse;
  rpc_getBalance : string -> Result BalanceInfo;
  rpc_submitTransaction : Transaction -> Result unit;
  rpc_subscribeToUTXOs : list string -> Result unit;
  rpc_unsubscribeFromUTXOs : list string -> Result unit;
  tb_buildTransaction :
    list Utxo.IUtxoEntry -> list PaymentOutput -> string -> Z ->
    option string -> Result Transaction;
  tb_buildWithGenerator :
    list Utxo.IUtxoEntry -> list PaymentOutput -> string -> Z ->
    option string -> Result (list PendingTransaction);
  tb_calculateMass : Transaction -> Z;
  pt_sign : PendingTransaction -> list PrivateKey -> Result unit;
  pk_toAddress : PrivateKey -> string -> string;
  wasm_kaspaToSompi : string -> option Z
}.

(** The interactions with the Engine, in the order they happen. *)
Inductive EngineCall :=
| CallGetUTXOs (addr : string)
| CallGetFeeEstimate
| CallGetBalance (addr : string)
| CallSubmitTransaction (tx : Transaction)
| CallSubscribeToUTXOs (addrs : list string)
| CallUnsubscribeFromUTXOs (addrs : list string)
| CallBuildTransaction (utxos : list Utxo.IUtxoEntry)
    (outs : list PaymentOutput) (change : string) (priority : Z)
    (payload : option string)
| CallBuildWithGenerator (utxos : list Utxo.IUtxoEntry)
    (outs : list PaymentOutput) (change : string) (priority : Z)
    (payload : option string).

(** Computations that talk to the Engine: they extend the list of calls
    made so far and return or throw. *)
Definition Eng (A : Type) := list EngineCall -> Result A * list EngineCall.

Definition ret {A} (a : A) : Eng A := fun t => (Ok a, t).
Definition throw {A} (message : string) : Eng A := fun t => (Err message, t).
Definition bind {A B} (m : Eng A) (k : A -> Eng B) : Eng B :=
  fun t => match m t with
           | (Ok a, t') => k a t'
           | (Err e, t') => (Err e, t')
           end.
#[global] Instance Eng_ret : MRet Eng := @ret.
#[global] Instance Eng_bind : MBind Eng := fun A B k m => bind m k.

(** A call to the Engine: recorded, then its answer is returned or thrown. *)
Definition call {A} (c : EngineCall) (answer : Result A) : Eng A :=
  fun t => (answer, (t ++ [c])%list).

(** A local computation that may throw. *)
Definition lift {A} (r : Result A) : Eng A := fun t => (r, t).

(** [try { m } catch (error) { throw new Error(wrap(error.message)) }] *)
Definition rethrow {A} (wrap : string -> string) (m : Eng A) : Eng A :=
  fun t => match m t with
           | (Ok a, t') => (Ok a, t')
           | (Err e, t') => (Err (wrap e), t')
           end.

(** [utils.kasToSompi], for a string argument (the handlers always pass
    strings). *)
Definition kasToSompi (eng : Engine) (kas : string) : Result Z :=
  let kasStr := Js.trim kas in
  let kasNum := Js.parseFloat kasStr in
  if Js.isNaN kasNum || Js.ltZero kasNum then
    Err ("Invalid KAS amount: " ++ kas ++ ". Must be a valid positive number.")
  else
    let kasStr := if Js.includesDot kasStr then kasStr else kasStr ++ ".0" in
    match wasm_kaspaToSompi eng kasStr with
    | None => Err ("Failed to convert KAS to sompi: " ++ kasStr
                   ++ ". WASM conversion returned null.")
    | Some result => Ok result
    end.

(** A registered event handler.  The only handlers this server registers
    are the closures [(data) => this.handleBalanceChangeEvent(sessionId,
    data, subscriptionInfo)]; such a closure is determined by the session id
    and the subscription object it captured. *)
Record Listener := {
  capturedSession : string;
  capturedSubscription : nat
}.

#[global] Instance Listener_eq_dec : EqDecision Listener.
Proof. solve_decision. Defined.

(** A JavaScript [Set]: insertion order, no duplicates. *)
Definition setAdd `{EqDecision A} (x : A) (xs : list A) : list A :=
  if decide (x ∈ xs) then xs else (xs ++ [x])%list.

Definition setDelete `{EqDecision A} (x : A) (xs : list A) : list A :=
  filter (fun y => y <> x) xs.

Definition setHas `{EqDecision A} (x : A) (xs : list A) : bool :=
  bool_decide (x ∈ xs).

(** [new Set(xs)] *)
Definition setOfList `{EqDecision A} (xs : list A) : list A :=
  fold_left (fun acc x => setAdd x acc) xs [].

(** A [KaspaSDK] object: the fields the handlers depend on. *)
Record KaspaSDK := {
  networkType : string;
  rpcClient : bool;
  wallet : option KaspaWallet;
  eventListeners : gmap string (list Listener)
}.

Definition withListeners (sdk : KaspaSDK) (m : gmap string (list Listener)) :
    KaspaSDK :=
  {| networkType := networkType sdk; rpcClient := rpcClient sdk;
     wallet := wallet sdk; eventListeners := m |}.

(** [sdk.on(event, handler)] *)
Definition on (event : string) (handler : Listener) (sdk : KaspaSDK) : KaspaSDK :=
  withListeners sdk
    (<[event := setAdd handler (default [] (eventListeners sdk !! event))]>
       (eventListeners sdk)).

(** [sdk.off(event, handler)] *)
Definition off (event : string) (handler : Listener) (sdk : KaspaSDK) : KaspaSDK :=
  match eventListeners sdk !! event with
  | Some handlers =>
      withListeners sdk (<[event := setDelete handler handlers]> (eventListeners sdk))
  | None => sdk
  end.

(** The handlers [emit(event, data)] calls, in order. *)
Definition handlersFor (event : string) (sdk : KaspaSDK) : list Listener :=
  default [] (eventListeners sdk !! event).

Definition notInitialized : string :=
  "SDK not initialized. Call initialize() first.".

(** [sdk.subscribeToAddresses(addresses)]: the subscription at the node.
    The address tracking and the listeners it also installs on the RPC
    client feed [emit] and are not part of this model. *)
Definition subscribeToAddresses (eng : Engine) (sdk : KaspaSDK)
    (addresses : list string) : Eng unit :=
  if negb (rpcClient sdk) then throw notInitialized
  else call (CallSubscribeToUTXOs addresses) (rpc_subscribeToUTXOs eng addresses).

(** [sdk.unsubscribeFromAddresses(addresses)] *)
Definition unsubscribeFromAddresses (eng : Engine) (sdk : KaspaSDK)
    (addresses : list string) : Eng unit :=
  if negb (rpcClient sdk) then throw notInitialized
  else call (CallUnsubscribeFromUTXOs addresses)
         (rpc_unsubscribeFromUTXOs eng addresses).

(** [sdk.getBalance(address)] *)
Definition getBalance (eng : Engine) (sdk : KaspaSDK) (address : string) :
    Eng BalanceInfo :=
  if negb (rpcClient sdk) then throw notInitialized
  else call (CallGetBalance address) (rpc_getBalance eng address).

(** A feerate is used when it is truthy: present and not zero. *)
Definition truthyRate (q : Q) : bool := negb (Qeq_bool q 0).

(** The feerate of a bucket, when there is one and it is truthy. *)
Definition usableRate (bucket : option Q) : option Q :=
  match bucket with
  | Some q => if truthyRate q then Some q else None
  | None => None
  end.

(** The feerate [estimateFee] takes from the node's answer: the priority
    bucket, else the first normal bucket, else the first low bucket, and
    [1] when none is usable. *)
Definition pickFeerate (resp : FeeEstimateResponse) : Q :=
  let feerate :=
    match estimate resp with
    | Some est =>
        match usableRate (priorityBucket est) with
        | Some q => q
        | None =>
            match usableRate (head (normalBuckets est)) with
            | Some q => q
            | None =>
                match usableRate (head (lowBuckets est)) with
                | Some q => q
                | None => 0%Q
                end
            end
        end
    | None => 0%Q
    end in
  if truthyRate feerate then feerate else 1%Q.

(** [sdk.estimateFee(from, to, amount)].  The product of the feerate and
    the mass is taken exactly. *)
Definition estimateFee (eng : Engine) (sdk : KaspaSDK) (from to : string)
    (amount : Z) : Eng FeeEstimate :=
  if negb (rpcClient sdk) then throw notInitialized
  else
    utxos ← call (CallGetUTXOs from) (rpc_getUTXOs eng from);
    if (length utxos =? 0)%nat then throw "No UTXOs available for estimation"
    else
      feeEstimateResponse ← call CallGetFeeEstimate (rpc_getFeeEstimate eng);
      let feerate := pickFeerate feeEstimateResponse in
      let outputs := [ {| po_address := to; po_amount := amount |} ] in
      transaction ← call (CallBuildTransaction utxos outputs from 0 None)
                      (tb_buildTransaction eng utxos outputs from 0 None);
      let mass := tb_calculateMass eng transaction in
      let baseFee :=
        Js.ceilToBigInt (feerate * inject_Z (Js.NumberOfBigInt mass)) in
      mret {| baseFee := baseFee; totalFee := baseFee;
              estimatedMass := mass; massLimit := 100000 |}.

(** The sender's key: [config.from] when it is a key, else the wallet's
    first receive key. *)
Definition senderKeyOf (sdk : KaspaSDK) (config : TransactionConfig) :
    Eng PrivateKey :=
  match from config with
  | inl _ =>
      match wallet sdk with
      | None => throw "No wallet available. Create or import a wallet first."
      | Some w => lift (getReceivePrivateKey w 0)
      end
  | inr key => mret key
  end.

(** The payload handed to the builder: [config.payload] when it is truthy. *)
Definition payloadOf (config : TransactionConfig) : option string :=
  if Js.truthy (payload config) then payload config else None.

(** [xs.reduce((sum, x) => sum + f(x), BigInt(0))] *)
Definition reduceSum {A} (f : A -> Z) (xs : list A) : Z :=
  fold_left (fun sum x => sum + f x) xs 0.

(** The priority fee [sendTransactionWithCustomFee] hands to the generator
    for a requested total fee. *)
Definition customPriorityFee (customTotalFee baseFee : Z) : Z :=
  (if customTotalFee >? baseFee then customTotalFee - baseFee else 0)%Z.

(** Signing the first pending transaction, submitting it, and computing the
    fee from the fetched entries and the outputs of the signed transaction:
    the tail shared by both send paths. *)
Definition signSubmitAndReport (eng : Engine)
    (utxos : list Utxo.IUtxoEntry) (senderPrivateKey : PrivateKey)
    (pendingTransactions : list PendingTransaction) :
    Eng SendTransactionResult :=
  match pendingTransactions with
  | [] => throw "Failed to create transaction"
  | pendingTx :: _ =>
      _ ← lift (pt_sign eng pendingTx [senderPrivateKey]);
      let signedTx := transaction pendingTx in
      let txId := id signedTx in
      _ ← call (CallSubmitTransaction signedTx)
            (rpc_submitTransaction eng signedTx);
      let mass := tb_calculateMass eng signedTx in
      let totalInputAmount := reduceSum Utxo.amount utxos in
      let actualOutputAmount := reduceSum value (outputs signedTx) in
      let fee := totalInputAmount - actualOutputAmount in
      mret {| transactionId := txId; fee := fee; mass := mass |}
  end.

(** [sdk.sendTransactionWithCustomFee(config, customTotalFee)] *)
Definition sendTransactionWithCustomFee (eng : Engine) (sdk : KaspaSDK)
    (config : TransactionConfig) (customTotalFee : Z) :
    Eng SendTransactionResult :=
  if negb (rpcClient sdk) then throw notInitialized
  else
    senderPrivateKey ← senderKeyOf sdk config;
    let senderAddress := pk_toAddress eng senderPrivateKey (networkType sdk) in
    utxos ← call (CallGetUTXOs senderAddress) (rpc_getUTXOs eng senderAddress);
    if (length utxos =? 0)%nat then throw "No UTXOs available for spending"
    else
      let recipientAddress := to config in
      let changeAddress := default senderAddress (changeAddress config) in
      let outputs :=
        [ {| po_address := recipientAddress; po_amount := amount config |} ] in
      baseFeeEstimate ←
        estimateFee eng sdk senderAddress recipientAddress (amount config);
      let priorityFee :=
        customPriorityFee customTotalFee (baseFee baseFeeEstimate) in
      pendingTransactions ←
        call (CallBuildWithGenerator utxos outputs changeAddress priorityFee
                (payloadOf config))
             (tb_buildWithGenerator eng utxos outputs changeAddress priorityFee
                (payloadOf config));
      signSubmitAndReport eng utxos senderPrivateKey pendingTransactions.

(** [config.priorityFee || BigInt(0)] *)
Definition priorityFeeOrZero (p : option Z) : Z := default 0 p.

(** [sdk.sendTransaction(config)] *)
Definition sendTransaction (eng : Engine) (sdk : KaspaSDK)
    (config : TransactionConfig) : Eng SendTransactionResult :=
  match customTotalFee config with
  | Some customTotalFee =>
      sendTransactionWithCustomFee eng sdk config customTotalFee
  | None =>
      if negb (rpcClient sdk) then throw notInitialized
      else
        senderPrivateKey ← senderKeyOf sdk config;
        let senderAddress :=
          pk_toAddress eng senderPrivateKey (networkType sdk) in
        utxos ← call (CallGetUTXOs senderAddress)
                  (rpc_getUTXOs eng senderAddress);
        if (length utxos =? 0)%nat then throw "No UTXOs available for spending"
        else
          let recipientAddress := to config in
          let changeAddress := default senderAddress (changeAddress config) in
          let outputs :=
            [ {| po_address := recipientAddress;
                 po_amount := amount config |} ] in
          let priority := priorityFeeOrZero (priorityFee config) in
          pendingTransactions ←
            call (CallBuildWithGenerator utxos outputs changeAddress priority
                    (payloadOf config))
                 (tb_buildWithGenerator eng utxos outputs changeAddress
                    priority (payloadOf config));
          signSubmitAndReport eng utxos senderPrivateKey pendingTransactions
  end.

End Sdk.

(* ===================================================================== *)
(** ** The MCP server ([src/index.ts]) *)
(* ===================================================================== *)

Module Server.

Local Open Scope string_scope.

(** [ErrorCode] of the MCP SDK, as far as the handlers use it. *)
Inductive ErrorCode := InvalidRequest | InternalError.

(** What a tool handler does: it returns, or it throws an [McpError]. *)
Inductive Outcome (A : Type) :=
| Returned (a : A)
| McpError (code : ErrorCode) (message : string).
Arguments Returned {A} a.
Arguments McpError {A} code message.

(** [SubscriptionInfo].  [addresses] is a [Set<string>] and [lastBalances]
    a [Map<string, bigint>]. *)
Record SubscriptionInfo := {
  addresses : list string;
  includeTransactions : bool;
  lastBalances : gmap string Z;
  eventListener : option Sdk.Listener
}.

(** One balance-change notification written to the error stream: the
    session, address and event lines, the transaction line when it is
    printed, and the amount when the event carries one.  The timestamp line
    is left out. *)
Record Notification := {
  n_session : string;
  n_address : string;
  n_event : string;
  n_transaction : option string;
  n_amount : option Z
}.

(** The process-wide maps [sdkInstances], [walletInstances] and
    [subscriptionInstances].  [SubscriptionInfo] objects are shared between
    [subscriptionInstances] and the event-listener closures that captured
    them, so they live in a store of their own and the map holds
    references.  [console] collects the notifications printed so far. *)
Record ServerState := {
  sdkInstances : gmap string Sdk.KaspaSDK;
  walletInstances : gmap string Sdk.KaspaWallet;
  subscriptionInstances : gmap string nat;
  subscriptionObjects : gmap nat SubscriptionInfo;
  console : list Notification
}.

(** [normalizeSessionId(sessionId?)]:
    [sessionId && sessionId.trim() ? sessionId.trim() : 'default'] *)
Definition normalizeSessionId (sessionId : option string) : string :=
  match sessionId with
  | Some s =>
      if Js.truthy (Some s) && Js.truthy (Some (Js.trim s)) then Js.trim s
      else "default"
  | None => "default"
  end.

(** The destructuring default [const { sessionId = 'default' } = args]. *)
Definition sessionIdOrDefault (sessionId : option string) : string :=
  default "default" sessionId.

(** The tools that take a [sessionId]. *)
Inductive Tool :=
| Connect | CreateWallet | GetBalance | SendTransaction | EstimateFee
| GetFeeRecommendations | GetWalletInfo | SendFromWallet | SubscribeBalance
| UnsubscribeBalance | GetSubscriptionStatus | GetTransactionDetails
| SetupPreconfiguredWallet.

(** The key under which each handler looks the session up (or stores it),
    as computed in the first lines of the handler. *)
Definition sessionKey (tool : Tool) (sessionId : option string) : string :=
  match tool with
  | CreateWallet | SendTransaction | GetWalletInfo | SendFromWallet
  | SetupPreconfiguredWallet => normalizeSessionId sessionId
  | Connect | GetBalance | EstimateFee | GetFeeRecommendations
  | SubscribeBalance | UnsubscribeBalance | GetSubscriptionStatus
  | GetTransactionDetails => sessionIdOrDefault sessionId
  end.

(** A handler that only reads the maps and talks to the Engine. *)
Definition Handler (A : Type) :=
  list Sdk.EngineCall -> Outcome A * list Sdk.EngineCall.

(** [try { body } catch (error) { throw new McpError(InternalError,
    prefix + error.message) }] *)
Definition catchInternal {A} (prefix : string) (body : Sdk.Eng A) : Handler A :=
  fun t => match body t with
           | (Sdk.Ok a, t') => (Returned a, t')
           | (Sdk.Err e, t') => (McpError InternalError (prefix ++ e), t')
           end.

Definition failWith {A} (code : ErrorCode) (message : string) : Handler A :=
  fun t => (McpError code message, t).

(** The double-quote character, for the messages that quote their input. *)
Definition dq : string := String (ascii_of_nat 34) EmptyString.

(** The amount checks at the head of both send handlers, up to the
    conversion to sompi. *)
Definition amountToSompi (eng : Sdk.Engine) (convertPrefix : string)
    (amount : option string) : Sdk.Eng Z :=
  if negb (Js.truthy amount) || bool_decide (amount = Some "0") then
    Sdk.throw "Invalid amount: must be greater than 0"
  else
    let amountStr := Js.trim (default "" amount) in
    if Js.isNaN (Js.parseFloat amountStr) then
      Sdk.throw ("Invalid amount format: " ++ dq ++ amountStr ++ dq
                 ++ ". Please provide a numeric value.")
    else
      Sdk.rethrow
        (fun m => convertPrefix ++ m ++ ". Input amount was: "
                  ++ dq ++ amountStr ++ dq)
        (Sdk.lift (Sdk.kasToSompi eng amountStr)).

(** The [customFee] branch of both send handlers. *)
Definition customFeeToSompi (eng : Sdk.Engine) (customFee : string) : Sdk.Eng Z :=
  let customFeeStr := Js.trim customFee in
  if Js.isNaN (Js.parseFloat customFeeStr)
     || Js.ltZero (Js.parseFloat customFeeStr) then
    Sdk.throw ("Invalid custom fee: " ++ dq ++ customFeeStr ++ dq
               ++ ". Must be a non-negative number.")
  else
    Sdk.rethrow (fun m => "Failed to convert custom fee: " ++ m)
      (Sdk.lift (Sdk.kasToSompi eng customFeeStr)).

(** The [switch (feePriority)] of both send handlers. *)
Definition feeMultiplierOf (feePriority : string) : Q :=
  if String.eqb feePriority "low" then 1 # 2
  else if String.eqb feePriority "normal" then 1
  else if String.eqb feePriority "high" then 2
  else 1.

(** [BigInt(Math.ceil(Number(feeEstimate.baseFee) * feeMultiplier))] *)
Definition tierPriorityFee (feePriority : string) (baseFee : Z) : Z :=
  Js.ceilToBigInt
    (inject_Z (Js.NumberOfBigInt baseFee) * feeMultiplierOf feePriority).

(** The arguments of [kaspa_send_transaction].  The tool's input schema
    declares them as strings; an argument that is absent is [None]. *)
Record SendArgs := {
  sessionId : option string;
  from : option string;
  to : string;
  amount : option string;
  feePriority : option string;
  customFee : option string;
  priorityFee : option string;
  payload : option string
}.

(** What the reply of a send handler is assembled from. *)
Record SendReply := {
  result : Sdk.SendTransactionResult;
  feeUsed : string
}.

(** The loop [for (let i = 0; i < 10; i++)] that looks for the key of the
    [from] address; a failing derivation ends it. *)
Fixpoint findSenderKey (eng : Sdk.Engine) (sdk : Sdk.KaspaSDK)
    (wallet : Sdk.KaspaWallet) (from : string) (indices : list nat) :
    option Sdk.PrivateKey :=
  match indices with
  | [] => None
  | i :: rest =>
      match Sdk.getReceivePrivateKey wallet i with
      | Sdk.Ok privKey =>
          if String.eqb (Sdk.pk_toAddress eng privKey (Sdk.networkType sdk)) from
          then Some privKey
          else findSenderKey eng sdk wallet from rest
      | Sdk.Err _ => None
      end
  end.

(** The fee handed to [sdk.sendTransaction] by [handleSendTransaction]:
    the custom fee, the deprecated [priorityFee], or the tier fee computed
    from a fresh estimate. *)
Definition resolveSendFee (eng : Sdk.Engine) (sdk : Sdk.KaspaSDK)
    (wallet : Sdk.KaspaWallet) (args : SendArgs) (amountSompi : Z) : Sdk.Eng Z :=
  let feePriority := default "normal" (feePriority args) in
  let priorityFee := default "0" (priorityFee args) in
  if Js.truthy (customFee args) then
    customFeeToSompi eng (default "" (customFee args))
  else if Js.truthy (Some priorityFee) && negb (String.eqb priorityFee "0") then
    Sdk.rethrow (fun m => "Failed to convert priority fee: " ++ m)
      (Sdk.lift (Sdk.kasToSompi eng (Js.trim priorityFee)))
  else
    senderAddress ←
      (if Js.truthy (from args) then mret (default "" (from args))
       else
         privKey ← Sdk.lift (Sdk.getReceivePrivateKey wallet 0);
         mret (Sdk.pk_toAddress eng privKey (Sdk.networkType sdk)));
    feeEstimate ← Sdk.estimateFee eng sdk senderAddress (to args) amountSompi;
    mret (tierPriorityFee feePriority (Sdk.baseFee feeEstimate)).

(** [handleSendTransaction(args)] *)
Definition handleSendTransaction (eng : Sdk.Engine) (st : ServerState)
    (args : SendArgs) : Handler SendReply :=
  let feePriority := default "normal" (feePriority args) in
  let priorityFee := default "0" (priorityFee args) in
  let sessionId := normalizeSessionId (sessionId args) in
  match sdkInstances st !! sessionId with
  | None => failWith InvalidRequest "No active connection. Please connect first."
  | Some sdk =>
  match walletInstances st !! sessionId with
  | None => failWith InvalidRequest
              "No wallet available. Please create or import a wallet first."
  | Some wallet =>
    catchInternal "Failed to send transaction: " (
      amountSompi ←
        amountToSompi eng "Failed to convert KAS to sompi: " (amount args);
      priorityFeeSompi ← resolveSendFee eng sdk wallet args amountSompi;
      senderPrivateKey ←
        (if Js.truthy (from args) then
           match findSenderKey eng sdk wallet (default "" (from args))
                   (seq 0 10) with
           | Some privKey => mret privKey
           | None =>
               Sdk.throw ("Address " ++ default "" (from args)
                 ++ " not found in wallet. Please use an address from this wallet.")
           end
         else Sdk.lift (Sdk.getReceivePrivateKey wallet 0));
      result ←
        Sdk.sendTransaction eng sdk
          {| Sdk.from := inr senderPrivateKey;
             Sdk.to := to args;
             Sdk.amount := amountSompi;
             Sdk.customTotalFee :=
               if Js.truthy (customFee args) then Some priorityFeeSompi else None;
             Sdk.priorityFee :=
               if Js.truthy (customFee args) then None else Some priorityFeeSompi;
             Sdk.payload := payload args;
             Sdk.changeAddress := None |};
      let feeUsed :=
        if Js.truthy (customFee args) then "custom"
        else if Js.truthy (Some priorityFee) && negb (String.eqb priorityFee "0")
             then "legacy" else feePriority in
      mret {| result := result; feeUsed := feeUsed |})
  end end.

(** The arguments of [kaspa_send_from_wallet]. *)
Record SendFromWalletArgs := {
  w_sessionId : option string;
  w_to : string;
  w_amount : option string;
  w_addressIndex : option nat;
  w_feePriority : option string;
  w_customFee : option string;
  w_payload : option string
}.

(** [handleSendFromWallet(args)].  [sompiToKas] stands for
    [KaspaSDK.sompiToKas], the formatting of an amount by the WASM library,
    which the message of the balance check uses. *)
Definition handleSendFromWallet (eng : Sdk.Engine) (sompiToKas : Z -> string)
    (st : ServerState) (args : SendFromWalletArgs) : Handler SendReply :=
  let addressIndex := default 0%nat (w_addressIndex args) in
  let feePriority := default "normal" (w_feePriority args) in
  let sessionId := normalizeSessionId (w_sessionId args) in
  match sdkInstances st !! sessionId with
  | None => failWith InvalidRequest "No active connection. Please connect first."
  | Some sdk =>
  match walletInstances st !! sessionId with
  | None => failWith InvalidRequest
              "No wallet available. Please create or import a wallet first."
  | Some wallet =>
    catchInternal "Failed to send from wallet: " (
      amountSompi ← amountToSompi eng "Failed to convert amount: " (w_amount args);
      senderPrivateKey ← Sdk.lift (Sdk.getReceivePrivateKey wallet addressIndex);
      let senderAddress :=
        Sdk.pk_toAddress eng senderPrivateKey (Sdk.networkType sdk) in
      priorityFeeSompi ←
        (if Js.truthy (w_customFee args) then
           customFeeToSompi eng (default "" (w_customFee args))
         else
           feeEstimate ←
             Sdk.estimateFee eng sdk senderAddress (w_to args) amountSompi;
           mret (tierPriorityFee feePriority (Sdk.baseFee feeEstimate)));
      let totalRequired := (amountSompi + priorityFeeSompi)%Z in
      balance ← Sdk.getBalance eng sdk senderAddress;
      if (Sdk.balance balance <? totalRequired)%Z then
        Sdk.throw ("Insufficient balance. Available: "
                   ++ sompiToKas (Sdk.balance balance) ++ " KAS, Required: "
                   ++ sompiToKas totalRequired ++ " KAS (amount + fee)")
      else
        result ←
          Sdk.sendTransaction eng sdk
            {| Sdk.from := inr senderPrivateKey;
               Sdk.to := w_to args;
               Sdk.amount := amountSompi;
               Sdk.customTotalFee :=
                 if Js.truthy (w_customFee args) then Some priorityFeeSompi
                 else None;
               Sdk.priorityFee :=
                 if Js.truthy (w_customFee args) then None
                 else Some priorityFeeSompi;
               Sdk.payload := w_payload args;
               Sdk.changeAddress := None |};
        mret {| result := result;
                feeUsed := if Js.truthy (w_customFee args) then "custom"
                           else feePriority |})
  end end.

(** *** Balance subscriptions *)

(** Handlers that also change the server's maps and objects.  A throw
    leaves in place whatever was written before it. *)
Definition Srv (A : Type) :=
  ServerState -> list Sdk.EngineCall ->
  Sdk.Result A * ServerState * list Sdk.EngineCall.

Definition sret {A} (a : A) : Srv A := fun st t => (Sdk.Ok a, st, t).
Definition sthrow {A} (message : string) : Srv A :=
  fun st t => (Sdk.Err message, st, t).
Definition sbind {A B} (m : Srv A) (k : A -> Srv B) : Srv B :=
  fun st t => match m st t with
              | (Sdk.Ok a, st', t') => k a st' t'
              | (Sdk.Err e, st', t') => (Sdk.Err e, st', t')
              end.
#[global] Instance Srv_ret : MRet Srv := @sret.
#[global] Instance Srv_bind : MBind Srv := fun A B k m => sbind m k.

(** An Engine computation inside a handler. *)
Definition engine {A} (m : Sdk.Eng A) : Srv A :=
  fun st t => let '(r, t') := m t in (r, st, t').

(** A write to the server state. *)
Definition update (f : ServerState -> ServerState) : Srv unit :=
  fun st t => (Sdk.Ok tt, f st, t).

Definition setSdk (sessionId : string) (sdk : Sdk.KaspaSDK) (st : ServerState) :
    ServerState :=
  {| sdkInstances := <[sessionId := sdk]> (sdkInstances st);
     walletInstances := walletInstances st;
     subscriptionInstances := subscriptionInstances st;
     subscriptionObjects := subscriptionObjects st;
     console := console st |}.

Definition setSubscriptionInstances (m : gmap string nat) (st : ServerState) :
    ServerState :=
  {| sdkInstances := sdkInstances st;
     walletInstances := walletInstances st;
     subscriptionInstances := m;
     subscriptionObjects := subscriptionObjects st;
     console := console st |}.

Definition setSubscriptionObject (ref : nat) (sub : SubscriptionInfo)
    (st : ServerState) : ServerState :=
  {| sdkInstances := sdkInstances st;
     walletInstances := walletInstances st;
     subscriptionInstances := subscriptionInstances st;
     subscriptionObjects := <[ref := sub]> (subscriptionObjects st);
     console := console st |}.

Definition print (ns : list Notification) (st : ServerState) : ServerState :=
  {| sdkInstances := sdkInstances st;
     walletInstances := walletInstances st;
     subscriptionInstances := subscriptionInstances st;
     subscriptionObjects := subscriptionObjects st;
     console := (console st ++ ns)%list |}.

(** The raw event the SDK hands to its listeners: the fields the handler
    reads. *)
Record BalanceEvent := {
  ev_address : option string;
  ev_type : option string;
  ev_transactionId : option string;
  ev_amount : option Z
}.

(** [handleBalanceChangeEvent(sessionId, data, subscription)]: what it
    prints.  It writes nothing else. *)
Definition handleBalanceChangeEvent (sessionId : string) (data : BalanceEvent)
    (subscription : SubscriptionInfo) : list Notification :=
  if negb (Js.truthy (ev_address data))
     || negb (Sdk.setHas (default "" (ev_address data)) (addresses subscription))
  then []
  else
    [ {| n_session := sessionId;
         n_address := default "" (ev_address data);
         n_event := if Js.truthy (ev_type data) then default "" (ev_type data)
                    else "unknown";
         n_transaction :=
           if Js.truthy (ev_transactionId data) && includeTransactions subscription
           then ev_transactionId data else None;
         n_amount := ev_amount data |} ].

(** Calling a registered listener: the closure reads the subscription
    object it captured as that object is now. *)
Definition invoke (h : Sdk.Listener) (data : BalanceEvent) (st : ServerState) :
    ServerState :=
  match subscriptionObjects st !! Sdk.capturedSubscription h with
  | Some subscription =>
      print (handleBalanceChangeEvent (Sdk.capturedSession h) data subscription) st
  | None => st
  end.

(** [sdk.emit(event, data)] on the SDK object of a session: every handler
    registered for [event] is called, in registration order. *)
Definition emit (session : string) (event : string) (data : BalanceEvent)
    (st : ServerState) : ServerState :=
  match sdkInstances st !! session with
  | Some sdk => fold_left (fun st h => invoke h data st) (Sdk.handlersFor event sdk) st
  | None => st
  end.

(** The three events a subscription listens to. *)
Definition balanceEvents : list string :=
  ["transaction:incoming"; "transaction:spent"; "balance:changed"].

Record SubscribeArgs := {
  s_sessionId : option string;
  s_addresses : option (list string);
  s_includeTransactions : option bool
}.

(** The wallet's first receive addresses, up to the first failing index. *)
Fixpoint probeAddresses (wallet : Sdk.KaspaWallet) (indices : list nat) :
    list string :=
  match indices with
  | [] => []
  | i :: rest =>
      match Sdk.getReceiveAddress wallet i with
      | Sdk.Ok addr => addr :: probeAddresses wallet rest
      | Sdk.Err _ => []
      end
  end.

(** The initial balances: one query per address, zero when it fails. *)
Fixpoint initialBalances (eng : Sdk.Engine) (sdk : Sdk.KaspaSDK) (ref : nat)
    (addrs : list string) : Srv unit :=
  match addrs with
  | [] => mret tt
  | address :: rest =>
      _ ← (fun st t =>
             let '(r, t') := Sdk.getBalance eng sdk address t in
             let bal := match r with
                        | Sdk.Ok b => Sdk.balance b
                        | Sdk.Err _ => 0%Z
                        end in
             match subscriptionObjects st !! ref with
             | Some sub =>
                 (Sdk.Ok tt,
                  setSubscriptionObject ref
                    {| addresses := addresses sub;
                       includeTransactions := includeTransactions sub;
                       lastBalances := <[address := bal]> (lastBalances sub);
                       eventListener := eventListener sub |} st, t')
             | None => (Sdk.Ok tt, st, t')
             end);
      initialBalances eng sdk ref rest
  end.

(** What a handler does around its [try] block. *)
Definition catchInternalSrv {A} (prefix : string) (body : Srv A) :
    ServerState -> list Sdk.EngineCall ->
    Outcome A * ServerState * list Sdk.EngineCall :=
  fun st t => match body st t with
              | (Sdk.Ok a, st', t') => (Returned a, st', t')
              | (Sdk.Err e, st', t') =>
                  (McpError InternalError (prefix ++ e), st', t')
              end.

(** [handleSubscribeBalance(args)]; it returns the addresses monitored. *)
Definition handleSubscribeBalance (eng : Sdk.Engine) (args : SubscribeArgs) :
    ServerState -> list Sdk.EngineCall ->
    Outcome (list string) * ServerState * list Sdk.EngineCall :=
  fun st t =>
  let sessionId := sessionIdOrDefault (s_sessionId args) in
  let includeTransactions := default true (s_includeTransactions args) in
  match sdkInstances st !! sessionId with
  | None =>
      (McpError InvalidRequest "No active connection. Please connect first.",
       st, t)
  | Some sdk =>
    catchInternalSrv "Failed to subscribe to balance changes: " (
      addressesToMonitor ←
        match s_addresses args with
        | Some (a :: rest) => mret (a :: rest)
        | _ =>
            match walletInstances st !! sessionId with
            | Some wallet => mret (probeAddresses wallet (seq 0 5))
            | None => sthrow "No addresses specified and no wallet available"
            end
        end;
      ref ← (fun st t =>
               let ref := fresh (dom (subscriptionObjects st)) in
               (Sdk.Ok ref,
                setSubscriptionObject ref
                  {| addresses := Sdk.setOfList addressesToMonitor;
                     includeTransactions := includeTransactions;
                     lastBalances := ∅;
                     eventListener := None |} st, t));
      _ ← initialBalances eng sdk ref addressesToMonitor;
      let eventListener :=
        {| Sdk.capturedSession := sessionId; Sdk.capturedSubscription := ref |} in
      _ ← engine (Sdk.subscribeToAddresses eng sdk addressesToMonitor);
      _ ← update (fun st =>
             match sdkInstances st !! sessionId with
             | Some sdk =>
                 setSdk sessionId
                   (Sdk.on "balance:changed" eventListener
                      (Sdk.on "transaction:spent" eventListener
                         (Sdk.on "transaction:incoming" eventListener sdk))) st
             | None => st
             end);
      _ ← update (fun st =>
             match subscriptionObjects st !! ref with
             | Some sub =>
                 setSubscriptionObject ref
                   {| addresses := addresses sub;
                      includeTransactions := Server.includeTransactions sub;
                      lastBalances := lastBalances sub;
                      eventListener := Some eventListener |} st
             | None => st
             end);
      _ ← update (fun st =>
             setSubscriptionInstances
               (<[sessionId := ref]> (subscriptionInstances st)) st);
      mret addressesToMonitor) st t
  end.

Record UnsubscribeArgs := {
  u_sessionId : option string;
  u_addresses : option (list string)
}.

(** The three replies of [handleUnsubscribeBalance]. *)
Inductive UnsubscribeReply :=
| NoActiveSubscription
| NoMatchingAddresses
| UnsubscribedFrom (addrs : list string) (stillMonitoring : nat).

(** [subscription.addresses.delete(address);
    subscription.lastBalances.delete(address)] for every address. *)
Definition removeAddresses (addrs : list string) (sub : SubscriptionInfo) :
    SubscriptionInfo :=
  fold_left
    (fun sub address =>
       {| addresses := Sdk.setDelete address (addresses sub);
          includeTransactions := includeTransactions sub;
          lastBalances := delete address (lastBalances sub);
          eventListener := eventListener sub |})
    addrs sub.

(** [handleUnsubscribeBalance(args)] *)
Definition handleUnsubscribeBalance (eng : Sdk.Engine) (args : UnsubscribeArgs) :
    ServerState -> list Sdk.EngineCall ->
    Outcome UnsubscribeReply * ServerState * list Sdk.EngineCall :=
  fun st t =>
  let sessionId := sessionIdOrDefault (u_sessionId args) in
  match sdkInstances st !! sessionId with
  | None =>
      (McpError InvalidRequest "No active connection. Please connect first.",
       st, t)
  | Some sdk =>
  match subscriptionInstances st !! sessionId with
  | None => (Returned NoActiveSubscription, st, t)
  | Some ref =>
    catchInternalSrv "Failed to unsubscribe: " (
      subscription ←
        (fun st t => match subscriptionObjects st !! ref with
                     | Some sub => (Sdk.Ok sub, st, t)
                     | None => (Sdk.Err "Cannot read properties of undefined", st, t)
                     end);
      let addressesToUnsubscribe :=
        match u_addresses args with
        | Some (a :: rest) =>
            filter (fun addr => Sdk.setHas addr (addresses subscription) = true)
              (a :: rest)
        | _ => addresses subscription
        end in
      if (length addressesToUnsubscribe =? 0)%nat then mret NoMatchingAddresses
      else
        let remaining := removeAddresses addressesToUnsubscribe subscription in
        _ ← update (setSubscriptionObject ref remaining);
        _ ← engine (Sdk.unsubscribeFromAddresses eng sdk addressesToUnsubscribe);
        _ ← (if (length (addresses remaining) =? 0)%nat then
               _ ← match eventListener remaining with
                   | Some h =>
                       update (fun st =>
                         match sdkInstances st !! sessionId with
                         | Some sdk =>
                             setSdk sessionId
                               (Sdk.off "balance:changed" h
                                  (Sdk.off "transaction:spent" h
                                     (Sdk.off "transaction:incoming" h sdk))) st
                         | None => st
                         end)
                   | None => mret tt
                   end;
               update (fun st =>
                 setSubscriptionInstances
                   (delete sessionId (subscriptionInstances st)) st)
             else mret tt);
        mret (UnsubscribedFrom addressesToUnsubscribe
                (length (addresses remaining)))
    ) st t
  end end.

End Server.

(* ===================================================================== *)
(** ** Observations on runs, and a concrete Engine *)
(* ===================================================================== *)

Module Spec.

(** Entries in non-increasing order of amount. *)
Definition amountDesc (a b : Utxo.IUtxoEntry) : Prop :=
  Utxo.amount b <= Utxo.amount a.

(** A string that does not begin with white space. *)
Definition startsClean (s : string) : Prop :=
  match s with
  | String c _ => Js.isWhiteSpace c = false
  | EmptyString => True
  end.

(** A computation only adds calls to the trace. *)
Definition Extends {A} (m : Sdk.Eng A) : Prop :=
  forall t, exists ext, snd (m t) = t ++ ext.

(** The priority fees handed to the Engine's generator in a run. *)
Definition generatorPriorityFees (t : list Sdk.EngineCall) : list Z :=
  flat_map (fun c => match c with
                     | Sdk.CallBuildWithGenerator _ _ _ priority _ => [priority]
                     | _ => []
                     end) t.

(** The amounts a transaction spends and creates. *)
Definition inputTotal (tx : Sdk.Transaction) : Z :=
  Sdk.reduceSum (fun i => Utxo.amount (Sdk.utxo i)) (Sdk.inputs tx).

Definition outputTotal (tx : Sdk.Transaction) : Z :=
  Sdk.reduceSum Sdk.value (Sdk.outputs tx).

(** A session in the state Subscribed: its SDK object exists, the registry
    holds a reference to a subscription object with a non-empty monitored
    set, and the listener stored in that object, which captured the session
    and that same object, is the one handler registered for each of the
    three events. *)
Definition Subscribed (st : Server.ServerState) (session : string) (ref : nat)
    (sub : Server.SubscriptionInfo) (h : Sdk.Listener) : Prop :=
  exists sdk,
    Server.sdkInstances st !! session = Some sdk /\
    Server.subscriptionInstances st !! session = Some ref /\
    Server.subscriptionObjects st !! ref = Some sub /\
    Server.eventListener sub = Some h /\
    h = {| Sdk.capturedSession := session; Sdk.capturedSubscription := ref |} /\
    Forall (fun ev => Sdk.handlersFor ev sdk = [h]) Server.balanceEvents /\
    Server.addresses sub <> [].

(** The addresses an unsubscribe request removes from a subscription: the
    requested ones that are monitored, or all of them when none is named. *)
Definition unsubscribeTargets (args : Server.UnsubscribeArgs)
    (sub : Server.SubscriptionInfo) : list string :=
  match Server.u_addresses args with
  | Some (a :: rest) =>
      filter (fun addr => Sdk.setHas addr (Server.addresses sub) = true)
        (a :: rest)
  | _ => Server.addresses sub
  end.

(** The SDK object once a handler has been taken off the three events. *)
Definition withoutHandler (h : Sdk.Listener) (sdk : Sdk.KaspaSDK) : Sdk.KaspaSDK :=
  Sdk.off "balance:changed" h
    (Sdk.off "transaction:spent" h (Sdk.off "transaction:incoming" h sdk)).

(** A session in the state Unsubscribed: no subscription in the registry
    and no handler registered for the three events. *)
Definition Unsubscribed (st : Server.ServerState) (session : string) : Prop :=
  exists sdk,
    Server.sdkInstances st !! session = Some sdk /\
    Server.subscriptionInstances st !! session = None /\
    Forall (fun ev => Sdk.handlersFor ev sdk = []) Server.balanceEvents.

End Spec.

Module Examples.

Local Open Scope string_scope.

Definition entry (txid : string) (amt : Z) : Utxo.IUtxoEntry :=
  {| Utxo.address := Some "kaspatest:sender";
     Utxo.outpoint := {| Utxo.transactionId := txid; Utxo.index := 0 |};
     Utxo.amount := amt;
     Utxo.scriptPublicKey := "";
     Utxo.blockDaaScore := 0;
     Utxo.isCoinbase := false |}.

(** A decimal converter with the documented behaviour of the WASM
    [kaspaToSompi]: digits, a point and at most eight decimals;
    1 KAS = 100,000,000 sompi. *)
Definition decimalToSompi (s : string) : option Z :=
  let '(ip, r) := Js.spanDigits s in
  match ip, r with
  | _ :: _, String "." f =>
      let '(fp, rest) := Js.spanDigits f in
      match rest with
      | EmptyString =>
          if (length fp <=? 8)%nat then
            Some (Js.digitsValue ip * 100000000
                  + Js.digitsValue fp * 10 ^ (8 - Z.of_nat (length fp)))%Z
          else None
      | _ => None
      end
  | _, _ => None
  end.

(** A generator that, as the Engine's does, takes entries in the order
    given until they cover the payment and the fee, and returns the rest of
    the consumed value as change.  The fee is [2000] plus the priority
    fee. *)
Fixpoint consume (need : Z) (utxos : list Utxo.IUtxoEntry) :
    list Utxo.IUtxoEntry :=
  match utxos with
  | [] => []
  | u :: rest =>
      if (need <=? Utxo.amount u)%Z then [u]
      else u :: consume (need - Utxo.amount u) rest
  end.

Definition generator (utxos : list Utxo.IUtxoEntry)
    (outs : list Sdk.PaymentOutput) (change : string) (priority : Z)
    (payload : option string) : Sdk.Result (list Sdk.PendingTransaction) :=
  let payment := Sdk.reduceSum Sdk.po_amount outs in
  let need := (payment + 2000 + priority)%Z in
  let used := consume need utxos in
  if (Utxo.sumAmounts used <? need)%Z then Sdk.Err "Insufficient funds"
  else
    Sdk.Ok
      [ {| Sdk.transaction :=
             {| Sdk.id := "tx1";
                Sdk.inputs :=
                  map (fun u => {| Sdk.previousOutpoint := Utxo.outpoint u;
                                   Sdk.utxo := u |}) used;
                Sdk.outputs :=
                  (map (fun o => {| Sdk.value := Sdk.po_amount o;
                                    Sdk.recipient := Sdk.po_address o |}) outs
                   ++ [ {| Sdk.value := Utxo.sumAmounts used - need;
                           Sdk.recipient := change |} ])%list |} |} ].

Definition engine : Sdk.Engine :=
  {| Sdk.rpc_getUTXOs := fun _ => Sdk.Ok [entry "a" 500000; entry "b" 300000];
     Sdk.rpc_getFeeEstimate :=
       Sdk.Ok {| Sdk.estimate :=
                   Some {| Sdk.priorityBucket := Some 1%Q;
                           Sdk.normalBuckets := [];
                           Sdk.lowBuckets := [] |} |};
     Sdk.rpc_getBalance := fun a =>
       Sdk.Ok {| Sdk.bi_address := a; Sdk.balance := 800000;
                 Sdk.utxoCount := 2 |};
     Sdk.rpc_submitTransaction := fun _ => Sdk.Ok tt;
     Sdk.rpc_subscribeToUTXOs := fun _ => Sdk.Ok tt;
     Sdk.rpc_unsubscribeFromUTXOs := fun _ => Sdk.Ok tt;
     Sdk.tb_buildTransaction := fun utxos outs change priority payload =>
       Sdk.Ok {| Sdk.id := "estimate"; Sdk.inputs := []; Sdk.outputs := [] |};
     Sdk.tb_buildWithGenerator := generator;
     Sdk.tb_calculateMass := fun _ => 2000%Z;
     Sdk.pt_sign := fun _ _ => Sdk.Ok tt;
     Sdk.pk_toAddress := fun _ _ => "kaspatest:sender";
     Sdk.wasm_kaspaToSompi := decimalToSompi |}.

Definition wallet : Sdk.KaspaWallet :=
  {| Sdk.getReceivePrivateKey := fun i =>
       if (i =? 0)%nat then Sdk.Ok "key0" else Sdk.Err "index out of range";
     Sdk.getReceiveAddress := fun i =>
       if (i =? 0)%nat then Sdk.Ok "kaspatest:sender"
       else Sdk.Err "index out of range" |}.

Definition sdk : Sdk.KaspaSDK :=
  {| Sdk.networkType := "testnet-10"; Sdk.rpcClient := true;
     Sdk.wallet := Some wallet; Sdk.eventListeners := ∅ |}.

(** A server with one connected session that has a wallet. *)
Definition connected (session : string) : Server.ServerState :=
  {| Server.sdkInstances := {[ session := sdk ]};
     Server.walletInstances := {[ session := wallet ]};
     Server.subscriptionInstances := ∅;
     Server.subscriptionObjects := ∅;
     Server.console := [] |}.

Definition sendConfig (custom : option Z) : Sdk.TransactionConfig :=
  {| Sdk.from := inr "key0"; Sdk.to := "kaspatest:recipient";
     Sdk.amount := 100000; Sdk.priorityFee := None;
     Sdk.customTotalFee := custom; Sdk.payload := None;
     Sdk.changeAddress := None |}.

Definition sendArgs (session amount : option string) : Server.SendArgs :=
  {| Server.sessionId := session; Server.from := None;
     Server.to := "kaspatest:recipient"; Server.amount := amount;
     Server.feePriority := None; Server.customFee := None;
     Server.priorityFee := None; Server.payload := None |}.

(** Three available entries, and the selection for a target of 5 with an
    allowance of 4 per entry. *)
Definition available : list Utxo.IUtxoEntry :=
  [entry "a" 5; entry "b" 10; entry "c" 1].

Definition selection : Utxo.Selection :=
  {| Utxo.selectedUtxos := [entry "b" 10];
     Utxo.totalAmount := 10;
     Utxo.change := 1 |}.

Definition smallFunds : list Utxo.IUtxoEntry := [entry "a" 3; entry "b" 2].

(** A store in which the caller's array is the only array. *)
Definition callerStore : Utxo.Store := {| Utxo.arrays := {[ 0%nat := available ]} |}.

(** The scenario of the subscription engine: a session subscribed to
    [addrA] and [addrB]. *)
Definition subscribeArgs : Server.SubscribeArgs :=
  {| Server.s_sessionId := None;
     Server.s_addresses := Some ["addrA"; "addrB"];
     Server.s_includeTransactions := None |}.

Definition subscribed : Server.ServerState :=
  snd (fst (Server.handleSubscribeBalance engine subscribeArgs
              (connected "default") [])).

Definition listener : Sdk.Listener :=
  {| Sdk.capturedSession := "default"; Sdk.capturedSubscription := 0 |}.

Definition subscription : Server.SubscriptionInfo :=
  {| Server.addresses := ["addrA"; "addrB"];
     Server.includeTransactions := true;
     Server.lastBalances := <["addrB" := 800000%Z]> {[ "addrA" := 800000%Z ]};
     Server.eventListener := Some listener |}.

Definition incoming (addr : string) : Server.BalanceEvent :=
  {| Server.ev_address := Some addr;
     Server.ev_type := None;
     Server.ev_transactionId := Some "tx9";
     Server.ev_amount := Some 100%Z |}.

Definition unsubscribeAll : Server.UnsubscribeArgs :=
  {| Server.u_sessionId := None; Server.u_addresses := None |}.

End Examples.

Module Hex.

Local Open Scope string_scope.

(** A [Uint8Array]: its elements are bytes. *)
Definition Uint8Array := list Byte.byte.

(** The digit of [Number.prototype.toString(16)] for a value below 16. *)
Definition hexDigit (d : N) : ascii :=
  match d with
  | 0%N => "0" | 1%N => "1" | 2%N => "2" | 3%N => "3" | 4%N => "4"
  | 5%N => "5" | 6%N => "6" | 7%N => "7" | 8%N => "8" | 9%N => "9"
  | 10%N => "a" | 11%N => "b" | 12%N => "c" | 13%N => "d" | 14%N => "e"
  | _ => "f"
  end%char.

(** [n.toString(16)] for a non-negative integer: the digits, most
    significant first, with no leading zero. *)
Fixpoint digits16 (fuel : nat) (n : N) (acc : string) : string :=
  match fuel with
  | O => acc
  | S fuel' =>
      let acc' := String (hexDigit (n mod 16)) acc in
      if (n / 16 =? 0)%N then acc' else digits16 fuel' (n / 16)%N acc'
  end.

Definition toString16 (n : N) : string :=
  digits16 (S (N.to_nat (N.log2 n))) n "".

(** [s.padStart(targetLength, pad)] for a one-character [pad]. *)
Definition padStart (targetLength : nat) (pad : ascii) (s : string) : string :=
  string_of_list_ascii (repeat pad (targetLength - String.length s))%nat ++ s.

(** [b => b.toString(16).padStart(2, '0')] *)
Definition byteToHex (b : Byte.byte) : string :=
  padStart 2 "0" (toString16 (Byte.to_N b)).

(** [bytesToHex(bytes)] *)
Definition bytesToHex (bytes : Uint8Array) : string :=
  String.concat "" (map byteToHex bytes).

(** The value of a digit in radix 16, either case. *)
Definition hexValue (c : ascii) : option Z :=
  let n := nat_of_ascii c in
  if ((48 <=? n) && (n <=? 57))%nat then Some (Z.of_nat n - 48)%Z
  else if ((97 <=? n) && (n <=? 102))%nat then Some (Z.of_nat n - 87)%Z
  else if ((65 <=? n) && (n <=? 70))%nat then Some (Z.of_nat n - 55)%Z
  else None.

(** The value of the longest prefix of radix-16 digits; [None] when it is
    empty. *)
Fixpoint parseDigits16 (s : string) (acc : option Z) : option Z :=
  match s with
  | String c s' =>
      match hexValue c with
      | Some d => parseDigits16 s' (Some (16 * default 0%Z acc + d)%Z)
      | None => acc
      end
  | EmptyString => acc
  end.

(** [parseInt(s, 16)]: leading white space is skipped, then a sign, then
    [0x] or [0X]; [None] is [NaN]. *)
Definition parseInt16 (s : string) : option Z :=
  let '(neg, body) := Js.spanSign (Js.trimStart s) in
  let body :=
    if String.prefix "0x" body || String.prefix "0X" body
    then String.substring 2 (String.length body - 2) body else body in
  match parseDigits16 body None with
  | Some v => Some (if neg then (- v)%Z else v)
  | None => None
  end.

(** The element stored by [bytes[i] = v]: [NaN] becomes [0], an integer is
    taken modulo 256. *)
Definition toUint8 (v : option Z) : Byte.byte :=
  match v with
  | Some z => default Byte.x00 (Byte.of_N (Z.to_N (z mod 256)))
  | None => Byte.x00
  end.

(** The loop of [hexToBytes]: element [i] is read from the two characters
    at [2 i]. *)
Definition decodePairs (hex : string) : Uint8Array :=
  map (fun i => toUint8 (parseInt16 (String.substring (i * 2) 2 hex)))
    (seq 0 (String.length hex / 2)).

(** [hexToBytes(hex)] *)
Definition hexToBytes (hex : string) : Uint8Array :=
  let hex :=
    if String.prefix "0x" hex
    then String.substring 2 (String.length hex - 2) hex else hex in
  decodePairs hex.

(** Strings made of pairs of lower-case radix-16 digits. *)
Definition isLowerHex (c : ascii) : bool :=
  let n := nat_of_ascii c in
  ((48 <=? n) && (n <=? 57))%nat || ((97 <=? n) && (n <=? 102))%nat.

Fixpoint lowerHexPairs (s : string) : bool :=
  match s with
  | EmptyString => true
  | String c1 (String c2 rest) =>
      isLowerHex c1 && isLowerHex c2 && lowerHexPairs rest
  | String _ EmptyString => false
  end.

End Hex.


(* ===================================================================== *)
(** ** Network names ([utils/network.ts], [utils/index.ts]) *)
(* ===================================================================== *)

Module Network.

Local Open Scope string_scope.

(** [kaspa.NetworkType], the enumeration of the WASM library. *)
Inductive WasmNetworkType := Mainnet | Testnet | Devnet | Simnet.

(** [getWasmNetworkType(networkType)] *)
Definition getWasmNetworkType (networkType : string) :
    Sdk.Result WasmNetworkType :=
  if String.eqb networkType "mainnet" then Sdk.Ok Mainnet
  else if String.eqb networkType "testnet-10" then Sdk.Ok Testnet
  else if String.eqb networkType "devnet" then Sdk.Ok Devnet
  else if String.eqb networkType "simnet" then Sdk.Ok Simnet
  else Sdk.Err ("Unknown network type: " ++ networkType).

(** [getStringNetworkType(wasmNetworkType)]; the [default] branch is not
    reached by a value of the enumeration. *)
Definition getStringNetworkType (wasmNetworkType : WasmNetworkType) : string :=
  match wasmNetworkType with
  | Mainnet => "mainnet"
  | Testnet => "testnet-10"
  | Devnet => "devnet"
  | Simnet => "simnet"
  end.

(** [getWasmNetworkId(networkType)] *)
Definition getWasmNetworkId (networkType : string) : Sdk.Result string :=
  if String.eqb networkType "mainnet" then Sdk.Ok "mainnet"
  else if String.eqb networkType "testnet-10" then Sdk.Ok "testnet-10"
  else if String.eqb networkType "devnet" then Sdk.Ok "devnet"
  else if String.eqb networkType "simnet" then Sdk.Ok "simnet"
  else Sdk.Err ("Unknown network type: " ++ networkType).

(** [getAddressPrefix(network)] *)
Definition getAddressPrefix (network : string) : string :=
  if String.eqb network "mainnet" then "kaspa"
  else if String.eqb network "testnet-10" then "kaspatest"
  else if String.eqb network "devnet" then "kaspadev"
  else if String.eqb network "simnet" then "kaspasim"
  else "kaspa".

(** [validateAddress(address, network?)].  [Address] stands for the
    constructor [new kaspa.Address(address)] of the WASM library: it throws
    on a string that is not an address and gives the [prefix] of the
    address otherwise. *)
Definition validateAddress (Address : string -> Sdk.Result string)
    (address : string) (network : option string) : bool :=
  match Address address with
  | Sdk.Ok prefix =>
      if Js.truthy network then
        String.eqb prefix (getAddressPrefix (default "" network))
      else true
  | Sdk.Err _ => false
  end.

End Network.

(* ===================================================================== *)
(** ** The configuration singleton ([config/Configuration.ts]) *)
(* ===================================================================== *)

Module Config.

Local Open Scope string_scope.

(** [kaspa.Encoding] *)
Inductive Encoding := Borsh | SerdeJson.

(** [NetworkConfig]; [encoding] is optional. *)
Record NetworkConfig := {
  rpcUrl : string;
  encoding : option Encoding
}.

(** [WalletCredentials] *)
Record WalletCredentials := {
  mnemonic : option string;
  privateKey : option string
}.

(** [SDKConfig].  The object [networks] is indexed by network name. *)
Record SDKConfig := {
  networks : gmap string NetworkConfig;
  defaultNetwork : option string;
  logLevel : option string;
  autoConnect : option bool;
  walletCredentials : option WalletCredentials
}.

(** [Partial<SDKConfig>]: every property may be absent. *)
Record PartialSDKConfig := {
  p_networks : option (gmap string NetworkConfig);
  p_defaultNetwork : option string;
  p_logLevel : option string;
  p_autoConnect : option bool;
  p_walletCredentials : option WalletCredentials
}.

(** [DEFAULT_RPC_URLS[network]]: [undefined] for any other name. *)
Definition DEFAULT_RPC_URLS (network : string) : option string :=
  if String.eqb network "mainnet" then Some "ws://seeder2.kaspad.net:17110"
  else if String.eqb network "testnet-10"
       then Some "wss://photon-10.kaspa.red/kaspa/testnet-10/wrpc/borsh"
  else if String.eqb network "devnet" then Some "ws://127.0.0.1:16610"
  else if String.eqb network "simnet" then Some "ws://127.0.0.1:16510"
  else None.

Definition defaultNetworkConfig (url : string) : NetworkConfig :=
  {| rpcUrl := url; encoding := Some Borsh |}.

(** The configuration the constructor builds; it is also what [reset]
    installs. *)
Definition initial : SDKConfig :=
  {| networks :=
       <["mainnet" := defaultNetworkConfig "ws://seeder2.kaspad.net:17110"]>
         (<["testnet-10" := defaultNetworkConfig
              "wss://photon-10.kaspa.red/kaspa/testnet-10/wrpc/borsh"]>
         (<["devnet" := defaultNetworkConfig "ws://127.0.0.1:16610"]>
         (<["simnet" := defaultNetworkConfig "ws://127.0.0.1:16510"]> ∅)));
     defaultNetwork := Some "mainnet";
     logLevel := Some "info";
     autoConnect := Some true;
     walletCredentials := None |}.

(** [Configuration.reset()] *)
Definition reset (c : SDKConfig) : SDKConfig := initial.

Definition withNetworks (c : SDKConfig) (m : gmap string NetworkConfig) :
    SDKConfig :=
  {| networks := m; defaultNetwork := defaultNetwork c;
     logLevel := logLevel c; autoConnect := autoConnect c;
     walletCredentials := walletCredentials c |}.

(** [Configuration.setNetworkRpcUrl(network, rpcUrl, encoding?)] *)
Definition setNetworkRpcUrl (network rpcUrl : string)
    (encoding : option Encoding) (c : SDKConfig) : SDKConfig :=
  let entry :=
    match networks c !! network with
    | None => {| rpcUrl := rpcUrl; encoding := None |}
    | Some nc => {| rpcUrl := rpcUrl; encoding := Config.encoding nc |}
    end in
  let entry :=
    match encoding with
    | Some e => {| rpcUrl := Config.rpcUrl entry; encoding := Some e |}
    | None => entry
    end in
  withNetworks c (<[network := entry]> (networks c)).

(** [Configuration.getNetworkRpcUrl(network)]:
    [networks[network]?.rpcUrl || DEFAULT_RPC_URLS[network]] *)
Definition getNetworkRpcUrl (c : SDKConfig) (network : string) : option string :=
  match networks c !! network with
  | Some nc =>
      if Js.truthy (Some (rpcUrl nc)) then Some (rpcUrl nc)
      else DEFAULT_RPC_URLS network
  | None => DEFAULT_RPC_URLS network
  end.

(** [Configuration.getNetworkConfig(network)]; the [rpcUrl] of the fallback
    is [undefined] for an unknown name. *)
Definition getNetworkConfig (c : SDKConfig) (network : string) :
    option string * option Encoding :=
  match networks c !! network with
  | Some nc => (Some (rpcUrl nc), encoding nc)
  | None => (DEFAULT_RPC_URLS network, Some Borsh)
  end.

(** [Configuration.getDefaultNetwork()]:
    [config.defaultNetwork || 'mainnet'] *)
Definition getDefaultNetwork (c : SDKConfig) : string :=
  if Js.truthy (defaultNetwork c) then default "" (defaultNetwork c)
  else "mainnet".

(** [{ ...old, ...new }] on network entries: a property of [new] replaces
    that of [old] when it is present. *)
Definition spreadNetwork (old : option NetworkConfig) (new : NetworkConfig) :
    NetworkConfig :=
  {| rpcUrl := rpcUrl new;
     encoding := match encoding new with
                 | Some e => Some e
                 | None => old ≫= encoding
                 end |}.

(** [mergeConfig(config)].  The call [kaspa.setLogLevel] it makes when a
    log level is given goes to the WASM library and is not represented. *)
Definition mergeConfig (config : PartialSDKConfig) (c : SDKConfig) :
    SDKConfig :=
  let merged :=
    match p_networks config with
    | Some given =>
        map_fold (fun network nc acc =>
                    <[network := spreadNetwork (acc !! network) nc]> acc)
          (networks c) given
    | None => networks c
    end in
  {| networks := merged;
     defaultNetwork :=
       match p_defaultNetwork config with
       | Some n => Some n
       | None => defaultNetwork c
       end;
     logLevel :=
       match p_logLevel config with Some l => Some l | None => logLevel c end;
     autoConnect :=
       match p_autoConnect config with
       | Some a => Some a
       | None => autoConnect c
       end;
     walletCredentials :=
       match p_walletCredentials config with
       | Some w => Some w
       | None => walletCredentials c
       end |}.

(** [process.env]: a variable is used when it is set and not empty. *)
Definition Env := gmap string string.

Definition envVar (env : Env) (name : string) : option string :=
  if Js.truthy (env !! name) then env !! name else None.

(** The partial configuration [loadFromEnv] assembles from the
    environment. *)
Definition configFromEnv (env : Env) : PartialSDKConfig :=
  let add (name network : string) (m : gmap string NetworkConfig) :=
    match envVar env name with
    | Some url => <[network := {| rpcUrl := url; encoding := Some Borsh |}]> m
    | None => m
    end in
  {| p_networks :=
       Some (add "KASPA_DEVNET_RPC_URL" "devnet"
              (add "KASPA_TESTNET_RPC_URL" "testnet-10"
                 (add "KASPA_MAINNET_RPC_URL" "mainnet" ∅)));
     p_defaultNetwork := envVar env "KASPA_DEFAULT_NETWORK";
     p_logLevel := envVar env "KASPA_LOG_LEVEL";
     p_autoConnect := None;
     p_walletCredentials :=
       if Js.truthy (env !! "KASPA_WALLET_MNEMONIC")
          || Js.truthy (env !! "KASPA_WALLET_PRIVATE_KEY")
       then Some {| mnemonic := envVar env "KASPA_WALLET_MNEMONIC";
                    privateKey := envVar env "KASPA_WALLET_PRIVATE_KEY" |}
       else None |}.

(** [Configuration.loadFromEnv()] *)
Definition loadFromEnv (env : Env) (c : SDKConfig) : SDKConfig :=
  mergeConfig (configFromEnv env) c.

(** [sdk.hasPreconfiguredWallet()] *)
Definition hasPreconfiguredWallet (c : SDKConfig) : bool :=
  match walletCredentials c with
  | Some credentials =>
      Js.truthy (mnemonic credentials) || Js.truthy (privateKey credentials)
  | None => false
  end.

End Config.

(* ===================================================================== *)
(** ** The wallet ([wallet/KaspaWallet.ts]) *)
(* ===================================================================== *)

Module Wallet.

Local Open Scope string_scope.

(** [kaspa.PrivateKeyGenerator]: the keys it derives, or the error the
    derivation throws. *)
Record PrivateKeyGenerator := {
  receiveKey : nat -> Sdk.Result Sdk.PrivateKey;
  changeKey : nat -> Sdk.Result Sdk.PrivateKey
}.

(** The functions of the WASM library the wallet is built from.
    [randomMnemonic] is the phrase [kaspa.Mnemonic.random(12)] draws;
    [newKeyGenerator phrase password accountIndex] is the chain
    [new Mnemonic(phrase)], [toSeed(password)], [new XPrv(seed)],
    [new PrivateKeyGenerator(xprv, false, accountIndex)]. *)
Record Wasm := {
  validateMnemonic : string -> bool;
  randomMnemonic : string;
  newKeyGenerator :
    string -> option string -> Z -> Sdk.Result PrivateKeyGenerator;
  newPrivateKey : string -> Sdk.Result Sdk.PrivateKey
}.

(** [types.WalletConfig] *)
Record WalletConfig := {
  wc_mnemonic : option string;
  wc_privateKey : option string;
  wc_password : option string;
  wc_accountIndex : option Z;
  wc_networkType : string
}.

(** A [KaspaWallet] object.  [mnemonic] is the phrase of [this.mnemonic]. *)
Record KaspaWallet := {
  mnemonic : option string;
  keyGenerator : option PrivateKeyGenerator;
  privateKey : option Sdk.PrivateKey;
  networkType : string;
  accountIndex : Z
}.

(** [initFromMnemonic] and [generateNew] after the phrase is known. *)
Definition fromPhrase (wasm : Wasm) (config : WalletConfig) (phrase : string) :
    Sdk.Result KaspaWallet :=
  let accountIndex := default 0%Z (wc_accountIndex config) in
  match newKeyGenerator wasm phrase (wc_password config) accountIndex with
  | Sdk.Ok generator =>
      Sdk.Ok {| mnemonic := Some phrase; keyGenerator := Some generator;
                privateKey := None; networkType := wc_networkType config;
                accountIndex := accountIndex |}
  | Sdk.Err e => Sdk.Err e
  end.

(** [new KaspaWallet(config)] *)
Definition new (wasm : Wasm) (config : WalletConfig) : Sdk.Result KaspaWallet :=
  if Js.truthy (wc_mnemonic config) then
    let mnemonicPhrase := default "" (wc_mnemonic config) in
    if negb (validateMnemonic wasm mnemonicPhrase) then
      Sdk.Err "Invalid mnemonic phrase"
    else fromPhrase wasm config mnemonicPhrase
  else if Js.truthy (wc_privateKey config) then
    match newPrivateKey wasm (default "" (wc_privateKey config)) with
    | Sdk.Ok key =>
        Sdk.Ok {| mnemonic := None; keyGenerator := None;
                  privateKey := Some key;
                  networkType := wc_networkType config;
                  accountIndex := default 0%Z (wc_accountIndex config) |}
    | Sdk.Err e => Sdk.Err e
    end
  else fromPhrase wasm config (randomMnemonic wasm).

(** [wallet.getMnemonic()] *)
Definition getMnemonic (w : KaspaWallet) : option string := mnemonic w.

(** The address of a derived key, or of the wallet's single key. *)
Definition addressAt (eng : Sdk.Engine) (w : KaspaWallet)
    (derive : PrivateKeyGenerator -> nat -> Sdk.Result Sdk.PrivateKey)
    (index : nat) : Sdk.Result string :=
  match keyGenerator w with
  | Some generator =>
      match derive generator index with
      | Sdk.Ok key => Sdk.Ok (Sdk.pk_toAddress eng key (networkType w))
      | Sdk.Err e => Sdk.Err e
      end
  | None =>
      match privateKey w with
      | Some key => Sdk.Ok (Sdk.pk_toAddress eng key (networkType w))
      | None => Sdk.Err "Wallet not initialized"
      end
  end.

(** [wallet.getReceiveAddress(index)] *)
Definition getReceiveAddress (eng : Sdk.Engine) (w : KaspaWallet)
    (index : nat) : Sdk.Result string :=
  addressAt eng w receiveKey index.

(** [wallet.getChangeAddress(index)] *)
Definition getChangeAddress (eng : Sdk.Engine) (w : KaspaWallet)
    (index : nat) : Sdk.Result string :=
  addressAt eng w changeKey index.

(** [String(index)] for an array index. *)
Definition indexToString (index : nat) : string :=
  NilEmpty.string_of_uint (Nat.to_uint index).

(** The key of a derived address, or the wallet's single key at index 0. *)
Definition keyAt (w : KaspaWallet)
    (derive : PrivateKeyGenerator -> nat -> Sdk.Result Sdk.PrivateKey)
    (index : nat) : Sdk.Result Sdk.PrivateKey :=
  match keyGenerator w with
  | Some generator => derive generator index
  | None =>
      match privateKey w with
      | Some key =>
          if (index =? 0)%nat then Sdk.Ok key
          else Sdk.Err ("Cannot get private key at index " ++ indexToString index)
      | None =>
          Sdk.Err ("Cannot get private key at index " ++ indexToString index)
      end
  end.

(** [wallet.getReceivePrivateKey(index)] *)
Definition getReceivePrivateKey (w : KaspaWallet) (index : nat) :
    Sdk.Result Sdk.PrivateKey :=
  keyAt w receiveKey index.

(** [wallet.getChangePrivateKey(index)] *)
Definition getChangePrivateKey (w : KaspaWallet) (index : nat) :
    Sdk.Result Sdk.PrivateKey :=
  keyAt w changeKey index.

(** The loop of [deriveAddresses]. *)
Fixpoint deriveLoop (eng : Sdk.Engine) (network : string)
    (derive : nat -> Sdk.Result Sdk.PrivateKey) (indices : list nat) :
    Sdk.Result (list string) :=
  match indices with
  | [] => Sdk.Ok []
  | i :: rest =>
      match derive i with
      | Sdk.Ok key =>
          match deriveLoop eng network derive rest with
          | Sdk.Ok addresses =>
              Sdk.Ok (Sdk.pk_toAddress eng key network :: addresses)
          | Sdk.Err e => Sdk.Err e
          end
      | Sdk.Err e => Sdk.Err e
      end
  end.

(** [wallet.deriveAddresses(startIndex, count, change)] *)
Definition deriveAddresses (eng : Sdk.Engine) (w : KaspaWallet)
    (startIndex count : nat) (change : bool) : Sdk.Result (list string) :=
  match keyGenerator w with
  | None => Sdk.Err "HD wallet not available"
  | Some generator =>
      deriveLoop eng (networkType w)
        (if change then changeKey generator else receiveKey generator)
        (seq startIndex count)
  end.

(** [wallet.export()] *)
Definition export (w : KaspaWallet) : option string * option string :=
  (mnemonic w, privateKey w).

(** The wallet as the handlers of the server use it. *)
Definition view (eng : Sdk.Engine) (w : KaspaWallet) : Sdk.KaspaWallet :=
  {| Sdk.getReceivePrivateKey := getReceivePrivateKey w;
     Sdk.getReceiveAddress := getReceiveAddress eng w |}.

End Wallet.

(* ===================================================================== *)
(** ** Address tracking in the UTXO manager ([utxo/UtxoManager.ts]) *)
(* ===================================================================== *)

Module Tracking.

Local Open Scope string_scope.

(** [kaspa.UtxoContext] as the manager uses it: the answers of
    [trackAddresses] and [unregisterAddresses], and the entries
    [getMatureRange(0, matureLength)] and [getPending()] return. *)
Record UtxoContext := {
  ctx_trackAddresses : list string -> Sdk.Result unit;
  ctx_unregisterAddresses : list string -> Sdk.Result unit;
  matureEntries : list Utxo.IUtxoEntry;
  pendingEntries : list Utxo.IUtxoEntry
}.

(** A [UtxoManager] object: its context, once initialized, and the
    [Set<string>] of tracked addresses. *)
Record UtxoManager := {
  context : option UtxoContext;
  trackedAddresses : list string
}.

(** Computations on the manager: they return or throw, and leave the
    manager as it is at that point. *)
Definition Mgr (A : Type) := UtxoManager -> Sdk.Result A * UtxoManager.

Definition notInitialized : string := "UTXO manager not initialized".

(** [addresses.map(addr => new kaspa.Address(addr))]: the first string the
    constructor rejects throws. *)
Fixpoint addressObjects (Address : string -> Sdk.Result string)
    (addresses : list string) : Sdk.Result unit :=
  match addresses with
  | [] => Sdk.Ok tt
  | addr :: rest =>
      match Address addr with
      | Sdk.Ok _ => addressObjects Address rest
      | Sdk.Err e => Sdk.Err e
      end
  end.

Definition withTracked (mgr : UtxoManager) (tracked : list string) :
    UtxoManager :=
  {| context := context mgr; trackedAddresses := tracked |}.

(** [manager.trackAddresses(addresses)] *)
Definition trackAddresses (Address : string -> Sdk.Result string)
    (addresses : list string) : Mgr unit :=
  fun mgr =>
    match context mgr with
    | None => (Sdk.Err notInitialized, mgr)
    | Some ctx =>
        match addressObjects Address addresses with
        | Sdk.Err e => (Sdk.Err e, mgr)
        | Sdk.Ok _ =>
            match ctx_trackAddresses ctx addresses with
            | Sdk.Err e => (Sdk.Err e, mgr)
            | Sdk.Ok _ =>
                (Sdk.Ok tt,
                 withTracked mgr
                   (fold_left (fun tracked addr => Sdk.setAdd addr tracked)
                      addresses (trackedAddresses mgr)))
            end
        end
    end.

(** [manager.untrackAddresses(addresses)] *)
Definition untrackAddresses (Address : string -> Sdk.Result string)
    (addresses : list string) : Mgr unit :=
  fun mgr =>
    match context mgr with
    | None => (Sdk.Err notInitialized, mgr)
    | Some ctx =>
        match addressObjects Address addresses with
        | Sdk.Err e => (Sdk.Err e, mgr)
        | Sdk.Ok _ =>
            match ctx_unregisterAddresses ctx addresses with
            | Sdk.Err e => (Sdk.Err e, mgr)
            | Sdk.Ok _ =>
                (Sdk.Ok tt,
                 withTracked mgr
                   (fold_left (fun tracked addr => Sdk.setDelete addr tracked)
                      addresses (trackedAddresses mgr)))
            end
        end
    end.

(** [manager.refresh()] *)
Definition refresh (Address : string -> Sdk.Result string) : Mgr unit :=
  fun mgr =>
    match context mgr with
    | None => (Sdk.Err notInitialized, mgr)
    | Some _ =>
        let addresses := trackedAddresses mgr in
        if (0 <? length addresses)%nat then
          match untrackAddresses Address addresses mgr with
          | (Sdk.Ok _, mgr') => trackAddresses Address addresses mgr'
          | (Sdk.Err e, mgr') => (Sdk.Err e, mgr')
          end
        else (Sdk.Ok tt, mgr)
    end.

(** [manager.getAllUTXOs()]: the mature entries, then the pending ones. *)
Definition getAllUTXOs (mgr : UtxoManager) : Sdk.Result (list Utxo.IUtxoEntry) :=
  match context mgr with
  | None => Sdk.Err notInitialized
  | Some ctx => Sdk.Ok (matureEntries ctx ++ pendingEntries ctx)%list
  end.

(** The second loop of [getUTXOsForAddresses]: an entry is pushed onto the
    array of its address when the address is truthy and a key of the map. *)
Definition pushByAddress (utxoMap : gmap string (list Utxo.IUtxoEntry))
    (utxo : Utxo.IUtxoEntry) : gmap string (list Utxo.IUtxoEntry) :=
  match Utxo.address utxo with
  | Some addr =>
      match utxoMap !! addr with
      | Some entries =>
          if Js.truthy (Some addr) then <[addr := (entries ++ [utxo])%list]> utxoMap
          else utxoMap
      | None => utxoMap
      end
  | None => utxoMap
  end.

(** [manager.getUTXOsForAddresses(addresses)] *)
Definition getUTXOsForAddresses (mgr : UtxoManager) (addresses : list string) :
    Sdk.Result (gmap string (list Utxo.IUtxoEntry)) :=
  match getAllUTXOs mgr with
  | Sdk.Err e => Sdk.Err e
  | Sdk.Ok allUtxos =>
      let utxoMap :=
        fold_left (fun m address => <[address := []]> m) addresses ∅ in
      Sdk.Ok (fold_left pushByAddress allUtxos utxoMap)
  end.

(** The entries of a list that belong to a non-empty address. *)
Definition entriesOf (address : string) (utxos : list Utxo.IUtxoEntry) :
    list Utxo.IUtxoEntry :=
  filter (fun u => Utxo.address u = Some address /\ address <> "") utxos.

End Tracking.

(* ===================================================================== *)
(** ** The query handlers of the server ([src/index.ts]) *)
(* ===================================================================== *)

Module Queries.

Import Server.
Local Open Scope string_scope.

(** The arguments of [kaspa_estimate_fee] and
    [kaspa_get_fee_recommendations]. *)
Record EstimateArgs := {
  e_sessionId : option string;
  e_from : string;
  e_to : string;
  e_amount : option string
}.


(** The fees [handleGetFeeRecommendations] prints, with the mass and the
    mass limit of the estimate. *)
Record FeeRecommendations := {
  lowFee : Z;
  normalFee : Z;
  highFee : Z;
  minimumFee : Z;
  transactionMass : Z;
  massLimit : Z
}.

(** The four fees computed from the estimate. *)
Definition recommend (baseFeeEstimate : Sdk.FeeEstimate) : FeeRecommendations :=
  let baseFee := Sdk.baseFee baseFeeEstimate in
  {| lowFee :=
       Js.ceilToBigInt (inject_Z (Js.NumberOfBigInt baseFee) * (1 # 2));
     normalFee := baseFee;
     highFee := Js.ceilToBigInt (inject_Z (Js.NumberOfBigInt baseFee) * 2);
     minimumFee :=
       Z.max 1
         (Js.ceilToBigInt
            (inject_Z (Js.NumberOfBigInt (Sdk.estimatedMass baseFeeEstimate))
             * 1));
     transactionMass := Sdk.estimatedMass baseFeeEstimate;
     massLimit := Sdk.massLimit baseFeeEstimate |}.

(** [handleGetFeeRecommendations(args)] *)
Definition handleGetFeeRecommendations (eng : Sdk.Engine) (st : ServerState)
    (args : EstimateArgs) : Handler FeeRecommendations :=
  let sessionId := sessionIdOrDefault (e_sessionId args) in
  match sdkInstances st !! sessionId with
  | None => failWith InvalidRequest "No active connection. Please connect first."
  | Some sdk =>
      catchInternal "Failed to get fee recommendations: " (
        amountSompi ←
          amountToSompi eng "Failed to convert KAS amount: " (e_amount args);
        baseFeeEstimate ←
          Sdk.estimateFee eng sdk (e_from args) (e_to args) amountSompi;
        mret (recommend baseFeeEstimate))
  end.

(** [handleGetBalance(args)] *)
Definition handleGetBalance (eng : Sdk.Engine) (st : ServerState)
    (sessionId : option string) (address : string) : Handler Sdk.BalanceInfo :=
  match sdkInstances st !! sessionIdOrDefault sessionId with
  | None => failWith InvalidRequest "No active connection. Please connect first."
  | Some sdk =>
      catchInternal "Failed to get balance: " (Sdk.getBalance eng sdk address)
  end.

(** One line of the current balances in the status reply: the balance and
    its difference to the last known balance when that is not zero, or the
    error marker. *)
Inductive BalanceLine :=
| CurrentBalance (address : string) (balance : Z) (change : option Z)
| BalanceError (address : string).

Definition lineAddress (line : BalanceLine) : string :=
  match line with
  | CurrentBalance address _ _ => address
  | BalanceError address => address
  end.

(** The reply of [kaspa_get_subscription_status]. *)
Inductive StatusReply :=
| NoActiveSubscriptions
| Status (monitoring : nat) (includeTransactions : bool)
    (addresses : list string) (balances : option (list BalanceLine)).

(** The loop over [subscription.addresses]: one balance query per address;
    a failing query gives the error line and the loop goes on. *)
Fixpoint currentBalances (eng : Sdk.Engine) (sdk : Sdk.KaspaSDK)
    (subscription : SubscriptionInfo) (addrs : list string) :
    Sdk.Eng (list BalanceLine) :=
  match addrs with
  | [] => mret []
  | address :: rest =>
      fun t =>
        let '(r, t1) := Sdk.getBalance eng sdk address t in
        let line :=
          match r with
          | Sdk.Ok balance =>
              let lastBalance :=
                default 0%Z (lastBalances subscription !! address) in
              let change := (Sdk.balance balance - lastBalance)%Z in
              CurrentBalance address (Sdk.balance balance)
                (if (change =? 0)%Z then None else Some change)
          | Sdk.Err _ => BalanceError address
          end in
        match currentBalances eng sdk subscription rest t1 with
        | (Sdk.Ok lines, t2) => (Sdk.Ok (line :: lines), t2)
        | (Sdk.Err e, t2) => (Sdk.Err e, t2)
        end
  end.

(** [handleGetSubscriptionStatus(args)].  It reads the maps and writes
    nothing. *)
Definition handleGetSubscriptionStatus (eng : Sdk.Engine) (st : ServerState)
    (sessionId : option string) : Handler StatusReply :=
  let sessionId := sessionIdOrDefault sessionId in
  match subscriptionInstances st !! sessionId ≫= (subscriptionObjects st !!.) with
  | None => fun t => (Returned NoActiveSubscriptions, t)
  | Some subscription =>
      if (length (addresses subscription) =? 0)%nat then
        fun t => (Returned NoActiveSubscriptions, t)
      else
        catchInternal "Failed to get subscription status: " (
          balanceInfo ←
            match sdkInstances st !! sessionId with
            | Some sdk =>
                lines ← currentBalances eng sdk subscription
                          (addresses subscription);
                mret (Some lines)
            | None => mret None
            end;
          mret (Status (length (addresses subscription))
                  (includeTransactions subscription)
                  (addresses subscription) balanceInfo))
  end.

End Queries.

(* ===================================================================== *)
(** ** Connections and wallets of a session ([src/index.ts],
       [KaspaSDK.ts]) *)
(* ===================================================================== *)

Module Lifecycle.

Local Open Scope string_scope.

(** The process: the maps of the server, here with the wallet objects
    themselves, and the configuration singleton of the SDK. *)
Record Process := {
  sdks : gmap string Sdk.KaspaSDK;
  wallets : gmap string Wallet.KaspaWallet;
  subscriptions : gmap string nat;
  objects : gmap nat Server.SubscriptionInfo;
  output : list Server.Notification;
  configuration : Config.SDKConfig
}.

(** The maps as the other handlers see them: a wallet is used through its
    methods. *)
Definition serverState (eng : Sdk.Engine) (p : Process) : Server.ServerState :=
  {| Server.sdkInstances := sdks p;
     Server.walletInstances := Wallet.view eng <$> wallets p;
     Server.subscriptionInstances := subscriptions p;
     Server.subscriptionObjects := objects p;
     Server.console := output p |}.

(** The node behind [rpcClient.connect()]: [node_connect network url] is
    the outcome of opening the connection to [url] for [network] and of the
    start of the UTXO processors that [initialize] awaits after it. *)
Record Node := {
  node_connect : string -> option string -> Sdk.Result unit
}.

(** [new KaspaSDK(networkType)]: the network is the argument when it is
    truthy and the configured default otherwise; the constructor of the
    [TransactionBuilder] rejects a name that is not a network. *)
Definition newKaspaSDK (cfg : Config.SDKConfig) (networkType : option string) :
    Sdk.Result Sdk.KaspaSDK :=
  let networkType :=
    if Js.truthy networkType then default "" networkType
    else Config.getDefaultNetwork cfg in
  match Network.getWasmNetworkType networkType with
  | Sdk.Err e => Sdk.Err e
  | Sdk.Ok _ =>
      match Network.getWasmNetworkId networkType with
      | Sdk.Err e => Sdk.Err e
      | Sdk.Ok _ =>
          Sdk.Ok {| Sdk.networkType := networkType; Sdk.rpcClient := false;
                    Sdk.wallet := None; Sdk.eventListeners := ∅ |}
      end
  end.

(** The address the RPC client connects to: [url || networkConfig.rpcUrl]. *)
Definition connectUrl (cfg : Config.SDKConfig) (networkType : string)
    (rpcUrl : option string) : option string :=
  if Js.truthy rpcUrl then rpcUrl
  else fst (Config.getNetworkConfig cfg networkType).

(** [sdk.initialize(rpcUrl)] *)
Definition initialize (node : Node) (cfg : Config.SDKConfig)
    (rpcUrl : option string) (sdk : Sdk.KaspaSDK) : Sdk.Result Sdk.KaspaSDK :=
  if Sdk.rpcClient sdk then Sdk.Ok sdk
  else
    match Network.getWasmNetworkType (Sdk.networkType sdk) with
    | Sdk.Err e => Sdk.Err e
    | Sdk.Ok _ =>
        match node_connect node (Sdk.networkType sdk)
                (connectUrl cfg (Sdk.networkType sdk) rpcUrl) with
        | Sdk.Err e => Sdk.Err e
        | Sdk.Ok _ =>
            Sdk.Ok {| Sdk.networkType := Sdk.networkType sdk;
                      Sdk.rpcClient := true;
                      Sdk.wallet := Sdk.wallet sdk;
                      Sdk.eventListeners := Sdk.eventListeners sdk |}
        end
    end.

(** [sdk.createWallet({ mnemonic, privateKey })]: the SDK object keeps the
    new wallet in [this.wallet]. *)
Definition createWallet (wasm : Wallet.Wasm) (eng : Sdk.Engine)
    (sdk : Sdk.KaspaSDK) (mnemonic privateKey : option string) :
    Sdk.Result (Sdk.KaspaSDK * Wallet.KaspaWallet) :=
  match Wallet.new wasm
          {| Wallet.wc_mnemonic := mnemonic;
             Wallet.wc_privateKey := privateKey;
             Wallet.wc_password := None;
             Wallet.wc_accountIndex := None;
             Wallet.wc_networkType := Sdk.networkType sdk |} with
  | Sdk.Ok wallet =>
      Sdk.Ok ({| Sdk.networkType := Sdk.networkType sdk;
                 Sdk.rpcClient := Sdk.rpcClient sdk;
                 Sdk.wallet := Some (Wallet.view eng wallet);
                 Sdk.eventListeners := Sdk.eventListeners sdk |}, wallet)
  | Sdk.Err e => Sdk.Err e
  end.

Definition setSdks (m : gmap string Sdk.KaspaSDK) (p : Process) : Process :=
  {| sdks := m; wallets := wallets p; subscriptions := subscriptions p;
     objects := objects p; output := output p;
     configuration := configuration p |}.

Definition setWallets (m : gmap string Wallet.KaspaWallet) (p : Process) :
    Process :=
  {| sdks := sdks p; wallets := m; subscriptions := subscriptions p;
     objects := objects p; output := output p;
     configuration := configuration p |}.

Definition setConfiguration (c : Config.SDKConfig) (p : Process) : Process :=
  {| sdks := sdks p; wallets := wallets p; subscriptions := subscriptions p;
     objects := objects p; output := output p; configuration := c |}.

(** The arguments of [kaspa_connect]. *)
Record ConnectArgs := {
  c_network : option string;
  c_rpcUrl : option string;
  c_sessionId : option string
}.

(** The two replies of [handleConnect].  [customRpc] is the RPC address the
    text names, when one was given; [walletNote] is the address of the
    recreated wallet or the warning that it could not be recreated, when
    the session had a wallet. *)
Inductive ConnectReply :=
| AlreadyConnected (network : string)
| Connected (network : string) (customRpc : option string)
    (walletNote : option (Sdk.Result string)).

(** [handleConnect(args)].  Disposing the previous SDK and wallet frees
    objects of the WASM library; a failure there is caught and changes
    nothing else, and reading the mnemonic of a wallet whose objects are
    still allocated does not throw. *)
Definition handleConnect (wasm : Wallet.Wasm) (eng : Sdk.Engine) (node : Node)
    (env : Config.Env) (args : ConnectArgs) (p : Process) :
    Server.Outcome ConnectReply * Process :=
  let network := default "mainnet" (c_network args) in
  let rpcUrl := c_rpcUrl args in
  let sessionId := Server.sessionIdOrDefault (c_sessionId args) in
  let existingSdk := sdks p !! sessionId in
  if match existingSdk with
     | Some sdk => String.eqb (Sdk.networkType sdk) network
     | None => false
     end
  then (Server.Returned (AlreadyConnected network), p)
  else
    let existingWallet := Wallet.getMnemonic <$> (wallets p !! sessionId) in
    let p := setSdks (delete sessionId (sdks p)) p in
    let p := setWallets (delete sessionId (wallets p)) p in
    let p := setConfiguration (Config.loadFromEnv env (configuration p)) p in
    let failed e :=
      (Server.McpError Server.InternalError
         ("Failed to connect to Kaspa network: " ++ e), p) in
    match newKaspaSDK (configuration p) (Some network) with
    | Sdk.Err e => failed e
    | Sdk.Ok sdk =>
        match initialize node (configuration p) rpcUrl sdk with
        | Sdk.Err e => failed e
        | Sdk.Ok sdk =>
            let p := setSdks (<[sessionId := sdk]> (sdks p)) p in
            let customRpc := if Js.truthy rpcUrl then rpcUrl else None in
            match existingWallet with
            | Some mnemonic =>
                match createWallet wasm eng sdk mnemonic None with
                | Sdk.Ok (sdk, newWallet) =>
                    let p := setSdks (<[sessionId := sdk]> (sdks p)) p in
                    let p :=
                      setWallets (<[sessionId := newWallet]> (wallets p)) p in
                    (Server.Returned
                       (Connected network customRpc
                          (Some (Wallet.getReceiveAddress eng newWallet 0))),
                     p)
                | Sdk.Err e =>
                    (Server.Returned
                       (Connected network customRpc (Some (Sdk.Err e))), p)
                end
            | None => (Server.Returned (Connected network customRpc None), p)
            end
        end
    end.

(** The arguments of [kaspa_create_wallet]. *)
Record CreateWalletArgs := {
  cw_sessionId : option string;
  cw_mnemonic : option string;
  cw_privateKey : option string
}.

(** What the reply of [handleCreateWallet] prints: the two addresses, and
    the mnemonic of the wallet when the request gave no credentials. *)
Record CreateWalletReply := {
  receiveAddress : string;
  changeAddress : string;
  shownMnemonic : option (option string)
}.

Definition autoConnectFailed : string :=
  "No active connection and failed to auto-connect. Please connect first using kaspa_connect.".

(** The [try] block of [handleCreateWallet], once the session has an SDK. *)
Definition createAndStore (wasm : Wallet.Wasm) (eng : Sdk.Engine)
    (sessionId : string) (args : CreateWalletArgs) (sdk : Sdk.KaspaSDK)
    (p : Process) : Server.Outcome CreateWalletReply * Process :=
  let p := setWallets (delete sessionId (wallets p)) p in
  let failed e p :=
    (Server.McpError Server.InternalError ("Failed to create wallet: " ++ e), p) in
  match createWallet wasm eng sdk (cw_mnemonic args) (cw_privateKey args) with
  | Sdk.Err e => failed e p
  | Sdk.Ok (sdk, wallet) =>
      let p := setSdks (<[sessionId := sdk]> (sdks p)) p in
      let p := setWallets (<[sessionId := wallet]> (wallets p)) p in
      match Wallet.getReceiveAddress eng wallet 0 with
      | Sdk.Err e => failed e p
      | Sdk.Ok receive =>
          match Wallet.getChangeAddress eng wallet 0 with
          | Sdk.Err e => failed e p
          | Sdk.Ok change =>
              (Server.Returned
                 {| receiveAddress := receive;
                    changeAddress := change;
                    shownMnemonic :=
                      if negb (Js.truthy (cw_mnemonic args))
                         && negb (Js.truthy (cw_privateKey args))
                      then Some (Wallet.getMnemonic wallet) else None |},
               p)
          end
      end
  end.

(** [handleCreateWallet(args)] *)
Definition handleCreateWallet (wasm : Wallet.Wasm) (eng : Sdk.Engine)
    (node : Node) (env : Config.Env) (args : CreateWalletArgs) (p : Process) :
    Server.Outcome CreateWalletReply * Process :=
  let sessionId := Server.normalizeSessionId (cw_sessionId args) in
  match sdks p !! sessionId with
  | Some sdk => createAndStore wasm eng sessionId args sdk p
  | None =>
      match handleConnect wasm eng node env
              {| c_network := Some "testnet-10"; c_rpcUrl := None;
                 c_sessionId := Some sessionId |} p with
      | (Server.Returned _, p) =>
          match sdks p !! sessionId with
          | Some sdk => createAndStore wasm eng sessionId args sdk p
          | None =>
              (Server.McpError Server.InvalidRequest autoConnectFailed, p)
          end
      | (Server.McpError _ _, p) =>
          (Server.McpError Server.InvalidRequest autoConnectFailed, p)
      end
  end.

(** The wallet [handleConnect] creates in place of [old]:
    [sdk.createWallet({ mnemonic: old.getMnemonic() })]. *)
Definition recreate (wasm : Wallet.Wasm) (old : Wallet.KaspaWallet)
    (networkType : string) : Sdk.Result Wallet.KaspaWallet :=
  Wallet.new wasm
    {| Wallet.wc_mnemonic := Wallet.getMnemonic old;
       Wallet.wc_privateKey := None;
       Wallet.wc_password := None;
       Wallet.wc_accountIndex := None;
       Wallet.wc_networkType := networkType |}.

(** [cleanup()]: the two maps are cleared; [subscriptionInstances] is not
    touched. *)
Definition cleanup (p : Process) : Process :=
  setWallets ∅ (setSdks ∅ p).

(** The environment variable [loadFromEnv] reads for a network. *)
Definition rpcUrlVariable (network : string) : option string :=
  if String.eqb network "mainnet" then Some "KASPA_MAINNET_RPC_URL"
  else if String.eqb network "testnet-10" then Some "KASPA_TESTNET_RPC_URL"
  else if String.eqb network "devnet" then Some "KASPA_DEVNET_RPC_URL"
  else None.

End Lifecycle.

(* ===================================================================== *)
(** ** Further observations on runs *)
(* ===================================================================== *)

Module Observations.

(** The transactions submitted to the node in a run. *)
Definition submitted (t : list Sdk.EngineCall) : list Sdk.Transaction :=
  flat_map (fun c => match c with
                     | Sdk.CallSubmitTransaction tx => [tx]
                     | _ => []
                     end) t.

(** The calls of a run that hand entries to the generator. *)
Definition isGeneratorCall (c : Sdk.EngineCall) : bool :=
  match c with
  | Sdk.CallBuildWithGenerator _ _ _ _ _ => true
  | _ => false
  end.

Definition generatorCalls (t : list Sdk.EngineCall) : list Sdk.EngineCall :=
  List.filter isGeneratorCall t.

(** A call that only reads from the node or computes locally: it creates
    no spendable transaction, submits nothing and changes no
    subscription. *)
Definition isQuery (c : Sdk.EngineCall) : bool :=
  match c with
  | Sdk.CallGetUTXOs _ | Sdk.CallGetFeeEstimate | Sdk.CallGetBalance _
  | Sdk.CallBuildTransaction _ _ _ _ _ => true
  | _ => false
  end.


(** The addresses a subscribe request monitors: the ones it names, or the
    wallet's first receive addresses. *)
Definition addressesToMonitor (st : Server.ServerState) (session : string)
    (args : Server.SubscribeArgs) : Sdk.Result (list string) :=
  match Server.s_addresses args with
  | Some (a :: rest) => Sdk.Ok (a :: rest)
  | _ =>
      match Server.walletInstances st !! session with
      | Some wallet => Sdk.Ok (Server.probeAddresses wallet (seq 0 5))
      | None => Sdk.Err "No addresses specified and no wallet available"
      end
  end.


(** The three ways a run of [sdk.sendTransaction] can end, by what
    follows its queries: nothing, when it fails before the generator is
    called; the generator call, when the generator or the signing fails or
    no transaction comes back; or the generator call and the submission of
    the first transaction it returned.  The generator receives the entries
    the node listed for the sender, one output, the change address, and a
    priority fee that is back-solved from the estimate for a custom total
    fee and is the configured priority fee otherwise. *)
Definition sendTail (eng : Sdk.Engine) (sdk : Sdk.KaspaSDK)
    (config : Sdk.TransactionConfig) (t : list Sdk.EngineCall)
    (r : Sdk.Result Sdk.SendTransactionResult) (tail : list Sdk.EngineCall) :
    Prop :=
  (tail = [] /\ exists e, r = Sdk.Err e) \/
  exists key utxos priority,
    fst (Sdk.senderKeyOf sdk config t) = Sdk.Ok key /\
    let sender := Sdk.pk_toAddress eng key (Sdk.networkType sdk) in
    let outs := [ {| Sdk.po_address := Sdk.to config;
                     Sdk.po_amount := Sdk.amount config |} ] in
    let change := default sender (Sdk.changeAddress config) in
    let g := Sdk.CallBuildWithGenerator utxos outs change priority
               (Sdk.payloadOf config) in
    Sdk.rpc_getUTXOs eng sender = Sdk.Ok utxos /\
    match Sdk.customTotalFee config with
    | Some custom =>
        exists est t0,
          fst (Sdk.estimateFee eng sdk sender (Sdk.to config)
                 (Sdk.amount config) t0) = Sdk.Ok est /\
          priority = Sdk.customPriorityFee custom (Sdk.baseFee est)
    | None => priority = Sdk.priorityFeeOrZero (Sdk.priorityFee config)
    end /\
    ((tail = [g] /\ exists e, r = Sdk.Err e) \/
     exists ptx rest,
       Sdk.tb_buildWithGenerator eng utxos outs change priority
         (Sdk.payloadOf config) = Sdk.Ok (ptx :: rest) /\
       tail = [g; Sdk.CallSubmitTransaction (Sdk.transaction ptx)] /\
       match r with
       | Sdk.Ok res => Sdk.transactionId res = Sdk.id (Sdk.transaction ptx)
       | Sdk.Err e =>
           Sdk.rpc_submitTransaction eng (Sdk.transaction ptx) = Sdk.Err e
       end).

End Observations.

(* ===================================================================== *)
(** ** Further scenarios *)
(* ===================================================================== *)

Module Scenarios.

Local Open Scope string_scope.

(** An address constructor that knows the prefixes of two networks. *)
Definition address (s : string) : Sdk.Result string :=
  if String.prefix "kaspatest:" s then Sdk.Ok "kaspatest"
  else if String.prefix "kaspa:" s then Sdk.Ok "kaspa"
  else Sdk.Err "Invalid address".

(** The engine of the examples with other answers to the submission and to
    the two subscription calls. *)
Definition engineWith (submit subscribe unsubscribe : Sdk.Result unit) :
    Sdk.Engine :=
  {| Sdk.rpc_getUTXOs := Sdk.rpc_getUTXOs Examples.engine;
     Sdk.rpc_getFeeEstimate := Sdk.rpc_getFeeEstimate Examples.engine;
     Sdk.rpc_getBalance := Sdk.rpc_getBalance Examples.engine;
     Sdk.rpc_submitTransaction := fun _ => submit;
     Sdk.rpc_subscribeToUTXOs := fun _ => subscribe;
     Sdk.rpc_unsubscribeFromUTXOs := fun _ => unsubscribe;
     Sdk.tb_buildTransaction := Sdk.tb_buildTransaction Examples.engine;
     Sdk.tb_buildWithGenerator := Sdk.tb_buildWithGenerator Examples.engine;
     Sdk.tb_calculateMass := Sdk.tb_calculateMass Examples.engine;
     Sdk.pt_sign := Sdk.pt_sign Examples.engine;
     Sdk.pk_toAddress := Sdk.pk_toAddress Examples.engine;
     Sdk.wasm_kaspaToSompi := Sdk.wasm_kaspaToSompi Examples.engine |}.

Definition phrase : string :=
  "legal winner thank year wave sausage worth useful legal winner thank yellow".

Definition derivation : Wallet.PrivateKeyGenerator :=
  {| Wallet.receiveKey := fun i => Sdk.Ok ("receive" ++ Wallet.indexToString i);
     Wallet.changeKey := fun i => Sdk.Ok ("change" ++ Wallet.indexToString i) |}.

Definition wasm : Wallet.Wasm :=
  {| Wallet.validateMnemonic := fun s => String.eqb s phrase;
     Wallet.randomMnemonic :=
       "letter advice cage absurd amount doctor acoustic avoid letter advice cage above";
     Wallet.newKeyGenerator := fun _ _ _ => Sdk.Ok derivation;
     Wallet.newPrivateKey := fun hex => Sdk.Ok hex |}.

Definition hdWallet : Wallet.KaspaWallet :=
  {| Wallet.mnemonic := Some phrase;
     Wallet.keyGenerator := Some derivation;
     Wallet.privateKey := None;
     Wallet.networkType := "testnet-10";
     Wallet.accountIndex := 0 |}.

Definition keyConfig : Wallet.WalletConfig :=
  {| Wallet.wc_mnemonic := None;
     Wallet.wc_privateKey := Some "b7e151628aed2a6abf7158809cf4f3c7";
     Wallet.wc_password := None;
     Wallet.wc_accountIndex := None;
     Wallet.wc_networkType := "testnet-10" |}.

Definition keyWallet : Wallet.KaspaWallet :=
  {| Wallet.mnemonic := None;
     Wallet.keyGenerator := None;
     Wallet.privateKey := Some "b7e151628aed2a6abf7158809cf4f3c7";
     Wallet.networkType := "testnet-10";
     Wallet.accountIndex := 0 |}.

Definition utxoContext : Tracking.UtxoContext :=
  {| Tracking.ctx_trackAddresses := fun _ => Sdk.Ok tt;
     Tracking.ctx_unregisterAddresses := fun _ => Sdk.Ok tt;
     Tracking.matureEntries := [Examples.entry "a" 5];
     Tracking.pendingEntries := [Examples.entry "b" 10] |}.

Definition manager : Tracking.UtxoManager :=
  {| Tracking.context := Some utxoContext;
     Tracking.trackedAddresses := ["kaspatest:sender"] |}.

Definition walletArgs (amount : option string) : Server.SendFromWalletArgs :=
  {| Server.w_sessionId := None; Server.w_to := "kaspatest:recipient";
     Server.w_amount := amount; Server.w_addressIndex := None;
     Server.w_feePriority := None; Server.w_customFee := None;
     Server.w_payload := None |}.

Definition estimateArgs (amount : option string) : Queries.EstimateArgs :=
  {| Queries.e_sessionId := None; Queries.e_from := "kaspatest:sender";
     Queries.e_to := "kaspatest:recipient"; Queries.e_amount := amount |}.

Definition sompiToKas (sompi : Z) : string :=
  NilEmpty.string_of_int (Z.to_int sompi) ++ " sompi".

(** A node that accepts every connection, and one that only answers at one
    address. *)
Definition node : Lifecycle.Node :=
  {| Lifecycle.node_connect := fun _ _ => Sdk.Ok tt |}.

Definition nodeAt (url : string) : Lifecycle.Node :=
  {| Lifecycle.node_connect := fun _ given =>
       if decide (given = Some url) then Sdk.Ok tt
       else Sdk.Err "connection refused" |}.

(** A process with no session, and one whose default session is connected
    to the test network with a wallet made from a private key. *)
Definition fresh : Lifecycle.Process :=
  {| Lifecycle.sdks := ∅; Lifecycle.wallets := ∅;
     Lifecycle.subscriptions := ∅; Lifecycle.objects := ∅;
     Lifecycle.output := []; Lifecycle.configuration := Config.initial |}.

Definition withKeyWallet : Lifecycle.Process :=
  {| Lifecycle.sdks := {[ "default" := Examples.sdk ]};
     Lifecycle.wallets := {[ "default" := keyWallet ]};
     Lifecycle.subscriptions := ∅; Lifecycle.objects := ∅;
     Lifecycle.output := []; Lifecycle.configuration := Config.initial |}.

Definition connectTo (network : string) : Lifecycle.ConnectArgs :=
  {| Lifecycle.c_network := Some network; Lifecycle.c_rpcUrl := None;
     Lifecycle.c_sessionId := None |}.

Definition createArgs : Lifecycle.CreateWalletArgs :=
  {| Lifecycle.cw_sessionId := Some " alice ";
     Lifecycle.cw_mnemonic := None;
     Lifecycle.cw_privateKey := None |}.

End Scenarios.

(* ===================================================================== *)
(** * Properties *)
(* ===================================================================== *)

Section Evaluation.
Local Open Scope string_scope.

(** The models of the built-ins and of the handlers, run on small inputs. *)

Example trim_examples :
  Js.trim "  abc  " = "abc" /\ Js.trim "   " = "" /\ Js.trim " a b " = "a b".
Proof. repeat split. Qed.

Example parseFloat_examples :
  Js.parseFloat "abc" = Js.NaN /\
  Js.parseFloat "" = Js.NaN /\
  Js.parseFloat "." = Js.NaN /\
  Js.parseFloat "12abc" = Js.Finite (inject_Z 12) /\
  Js.parseFloat "-5" = Js.Finite (- inject_Z 5) /\
  Js.parseFloat "0.0" = Js.Finite (0 # 10) /\
  Js.parseFloat "1.5e2" = Js.Finite (inject_Z 150) /\
  Js.parseFloat "-Infinity" = Js.Infinite true.
Proof. repeat split. Qed.

Example NumberOfBigInt_examples :
  Js.NumberOfBigInt 1000 = 1000 /\
  Js.NumberOfBigInt (2 ^ 53 + 1) = 2 ^ 53 /\
  Js.NumberOfBigInt (2 ^ 53 + 3) = 2 ^ 53 + 4 /\
  Js.NumberOfBigInt (- (2 ^ 54 + 6)) = - (2 ^ 54 + 8).
Proof. repeat split. Qed.

Example Array_sort_example :
  map Utxo.amount (Utxo.Array_sort Utxo.compareFn Examples.available)
  = [10; 5; 1].
Proof. reflexivity. Qed.

Example normalizeSessionId_examples :
  Server.normalizeSessionId None = "default" /\
  Server.normalizeSessionId (Some "") = "default" /\
  Server.normalizeSessionId (Some "   ") = "default" /\
  Server.normalizeSessionId (Some "  abc  ") = "abc" /\
  Server.normalizeSessionId (Some "abc") = "abc".
Proof. repeat split. Qed.

Example tier_fee_examples :
  Server.tierPriorityFee "high" 1000 = 2000 /\
  Server.tierPriorityFee "normal" 1000 = 1000 /\
  Server.tierPriorityFee "low" 1001 = 501 /\
  Server.tierPriorityFee "urgent" 1000 = 1000.
Proof. repeat split. Qed.

Example rejected_amounts :
  Forall
    (fun a =>
       exists e,
         Server.handleSendTransaction Examples.engine
           (Examples.connected "default") (Examples.sendArgs None a) []
         = (Server.McpError Server.InternalError e, []))
    [None; Some ""; Some "0"; Some "abc"; Some "-1"; Some "12abc"].
Proof. repeat constructor; eexists; vm_compute; reflexivity. Qed.

End Evaluation.

Section UtxoSelection.
Import Utxo Spec.

Lemma sumAmounts_app l1 l2 :
  sumAmounts (l1 ++ l2) = sumAmounts l1 + sumAmounts l2.
Proof.
  induction l1 as [|u l1 IH]; simpl; [reflexivity|].
  unfold sumAmounts in *. simpl. rewrite IH. lia.
Qed.

Lemma sumAmounts_nil : sumAmounts [] = 0.
Proof. reflexivity. Qed.

Lemma sumAmounts_cons u l : sumAmounts (u :: l) = amount u + sumAmounts l.
Proof. reflexivity. Qed.

Lemma sumAmounts_perm l1 l2 : Permutation l1 l2 -> sumAmounts l1 = sumAmounts l2.
Proof.
  induction 1; rewrite ?sumAmounts_cons in *; try lia.
Qed.

Lemma sortInsert_perm {A} (cmp : A -> A -> Z) x l :
  Permutation (sortInsert cmp x l) (x :: l).
Proof.
  induction l as [|y l IH]; simpl; [apply Permutation_refl|].
  destruct (0 <? cmp x y).
  - rewrite IH. apply perm_swap.
  - apply Permutation_refl.
Qed.

Lemma Array_sort_perm {A} (cmp : A -> A -> Z) l :
  Permutation (Array_sort cmp l) l.
Proof.
  induction l as [|x l IH]; simpl; [constructor|].
  rewrite sortInsert_perm. now constructor.
Qed.

Lemma Array_sort_length {A} (cmp : A -> A -> Z) l :
  length (Array_sort cmp l) = length l.
Proof. apply Permutation_length, Array_sort_perm. Qed.

Lemma sortInsert_hd x l y :
  HdRel amountDesc y l -> amountDesc y x ->
  HdRel amountDesc y (sortInsert compareFn x l).
Proof.
  intros Hl Hx. destruct l as [|z l]; simpl.
  - now constructor.
  - destruct (0 <? compareFn x z); constructor; trivial.
    now inversion Hl.
Qed.

Lemma sortInsert_sorted x l :
  Sorted amountDesc l -> Sorted amountDesc (sortInsert compareFn x l).
Proof.
  induction 1 as [|y l Hs IH Hhd]; simpl.
  - repeat constructor.
  - destruct (0 <? compareFn x y) eqn:E; unfold compareFn in E.
    + apply Z.ltb_lt in E. constructor; [exact IH|].
      apply sortInsert_hd; [exact Hhd|]. unfold amountDesc. lia.
    + apply Z.ltb_ge in E. constructor; [now constructor|].
      constructor. unfold amountDesc. lia.
Qed.

Lemma Array_sort_sorted l : StronglySorted amountDesc (Array_sort compareFn l).
Proof.
  apply Sorted_StronglySorted.
  - intros a b c. unfold amountDesc. lia.
  - induction l as [|x l IH]; simpl; [constructor|].
    now apply sortInsert_sorted.
Qed.

(** What the loop has done when it stops: it has consumed the first [k]
    entries, the check failed after each of the first [k - 1], and it passed
    after the [k]-th unless the list was exhausted. *)
Lemma selectLoop_spec fee l : forall st,
  exists k : nat,
    (k <= length l)%nat /\
    (l <> [] -> (0 < k)%nat) /\
    ls_selected (selectLoop fee l st) = ls_selected st ++ take k l /\
    ls_totalAmount (selectLoop fee l st)
      = ls_totalAmount st + sumAmounts (take k l) /\
    ls_totalNeeded (selectLoop fee l st)
      = ls_totalNeeded st + Z.of_nat k * fee /\
    (forall j : nat, (0 < j < k)%nat ->
       ls_totalAmount st + sumAmounts (take j l)
         < ls_totalNeeded st + Z.of_nat j * fee) /\
    ((k < length l)%nat ->
       ls_totalNeeded (selectLoop fee l st)
         <= ls_totalAmount (selectLoop fee l st)).
Proof.
  induction l as [|u l IH]; intros st.
  - exists 0%nat. cbn [firstn length selectLoop].
    rewrite app_nil_r, sumAmounts_nil.
    repeat split; try lia; congruence.
  - cbn [selectLoop ls_selected ls_totalAmount ls_totalNeeded].
    destruct (ls_totalNeeded st + fee <=? ls_totalAmount st + amount u) eqn:E.
    + exists 1%nat. apply Z.leb_le in E.
      cbn [take firstn length ls_selected ls_totalAmount ls_totalNeeded].
      rewrite take_0, sumAmounts_cons, sumAmounts_nil.
      repeat split; intros; lia.
    + apply Z.leb_gt in E.
      destruct (IH {| ls_selected := ls_selected st ++ [u];
                      ls_totalAmount := ls_totalAmount st + amount u;
                      ls_totalNeeded := ls_totalNeeded st + fee |})
        as (k & Hk & _ & Hsel & Htot & Hneed & Hshort & Hstop).
      cbn [ls_selected ls_totalAmount ls_totalNeeded] in *.
      exists (S k). cbn [take firstn length]. rewrite sumAmounts_cons.
      repeat split.
      * lia.
      * lia.
      * rewrite Hsel, <- app_assoc. reflexivity.
      * rewrite Htot. lia.
      * rewrite Hneed. lia.
      * intros j Hj. destruct j as [|j]; [lia|].
        cbn [take firstn]. rewrite sumAmounts_cons.
        destruct j as [|j].
        { rewrite take_0, sumAmounts_nil. lia. }
        assert (0 < S j < k)%nat as Hj' by lia.
        specialize (Hshort (S j) Hj'). lia.
      * intros H. apply Hstop. lia.
Qed.

(** The initial loop state of [selectUTXOs]. *)
Lemma selectUTXOs_unfold avail target feeArg :
  exists k : nat,
    let fee := feePerUtxoOf feeArg in
    let sorted := Array_sort compareFn avail in
    let st := selectLoop fee sorted
                {| ls_selected := []; ls_totalAmount := 0;
                   ls_totalNeeded := target |} in
    (k <= length sorted)%nat /\
    (sorted <> [] -> (0 < k)%nat) /\
    ls_selected st = take k sorted /\
    ls_totalAmount st = sumAmounts (take k sorted) /\
    ls_totalNeeded st = target + Z.of_nat k * fee /\
    (forall j : nat, (0 < j < k)%nat ->
       sumAmounts (take j sorted) < target + Z.of_nat j * fee) /\
    ((k < length sorted)%nat -> ls_totalNeeded st <= ls_totalAmount st) /\
    selectUTXOs avail target feeArg =
      if ls_totalAmount st <? ls_totalNeeded st
      then inl (InsufficientFunds (ls_totalNeeded st) (ls_totalAmount st))
      else inr {| selectedUtxos := ls_selected st;
                  totalAmount := ls_totalAmount st;
                  change := ls_totalAmount st - ls_totalNeeded st |}.
Proof.
  destruct (selectLoop_spec (feePerUtxoOf feeArg)
              (Array_sort compareFn avail)
              {| ls_selected := []; ls_totalAmount := 0;
                 ls_totalNeeded := target |})
    as (k & Hk & Hpos & Hsel & Htot & Hneed & Hshort & Hstop).
  cbn [ls_selected ls_totalAmount ls_totalNeeded] in *.
  exists k. cbv zeta. rewrite Z.add_0_l in Htot.
  repeat split; try assumption.
Qed.

(** C1. When [selectUTXOs] succeeds, the entries were sorted by amount,
    largest first, and the selection is a prefix of that order;
    [totalAmount] is the sum of the selected amounts and equals
    [change + targetAmount + selectedCount * feePerUtxo]; [change] is not
    negative; and after every entry consumed before the last one (and, for a
    positive target, before the first one) the running total was still
    below the required total, so nothing is selected once the check
    [totalAmount >= totalNeeded] has passed. *)
Theorem selectUTXOs_success_accounting avail target feeArg sel :
  selectUTXOs avail target feeArg = inr sel ->
  let fee := feePerUtxoOf feeArg in
  let sorted := Array_sort compareFn avail in
  let count := length (selectedUtxos sel) in
  Permutation sorted avail /\
  StronglySorted amountDesc sorted /\
  selectedUtxos sel = take count sorted /\
  totalAmount sel = sumAmounts (selectedUtxos sel) /\
  totalAmount sel = change sel + target + Z.of_nat count * fee /\
  0 <= change sel /\
  (forall k : nat, (k < count)%nat -> (0 < k)%nat \/ 0 < target ->
     sumAmounts (take k sorted) < target + Z.of_nat k * fee).
Proof.
  intros Hsel.
  destruct (selectUTXOs_unfold avail target feeArg)
    as (k & Hk & _ & Hs & Htot & Hneed & Hshort & _ & Heq).
  cbv zeta in *. rewrite Heq in Hsel. clear Heq.
  destruct (_ <? _) eqn:E in Hsel; [discriminate|].
  apply Z.ltb_ge in E. injection Hsel as <-.
  cbn [selectedUtxos totalAmount change].
  assert (length (ls_selected
            (selectLoop (feePerUtxoOf feeArg) (Array_sort compareFn avail)
               {| ls_selected := []; ls_totalAmount := 0;
                  ls_totalNeeded := target |})) = k) as Hlen.
  { rewrite Hs, length_take. lia. }
  rewrite Hlen.
  split; [apply Array_sort_perm|].
  split; [apply Array_sort_sorted|].
  split; [exact Hs|].
  split; [rewrite Htot, Hs; reflexivity|].
  split; [rewrite Hneed; lia|].
  split; [lia|].
  intros j Hj [Hpos|Hpos]; [apply Hshort; lia|].
  destruct j as [|j]; [|apply Hshort; lia].
  rewrite take_0, sumAmounts_nil. lia.
Qed.

(** C9. [selectUTXOs] throws exactly when the loop runs through every
    entry with the running total short of the required total each time, the
    last time included (for an empty list: when the target is positive).
    The error then carries the required total, [targetAmount] plus one
    allowance per available entry, and the total of all available amounts. *)
Theorem selectUTXOs_insufficient_iff avail target feeArg :
  let fee := feePerUtxoOf feeArg in
  let sorted := Array_sort compareFn avail in
  let n := length avail in
  ((sumAmounts avail < target + Z.of_nat n * fee /\
    forall k : nat, (0 < k < n)%nat ->
      sumAmounts (take k sorted) < target + Z.of_nat k * fee)
   <-> exists e, selectUTXOs avail target feeArg = inl e) /\
  (forall e, selectUTXOs avail target feeArg = inl e ->
     e = InsufficientFunds (target + Z.of_nat n * fee) (sumAmounts avail)).
Proof.
  cbv zeta.
  destruct (selectUTXOs_unfold avail target feeArg)
    as (k & Hk & Hpos & Hs & Htot & Hneed & Hshort & Hstop & Heq).
  cbv zeta in *. rewrite Heq. clear Heq.
  rewrite Array_sort_length in Hk, Hstop.
  assert (sumAmounts (take (length avail) (Array_sort compareFn avail))
          = sumAmounts avail) as Hall.
  { rewrite take_ge by (rewrite Array_sort_length; lia).
    apply sumAmounts_perm, Array_sort_perm. }
  assert (Array_sort compareFn avail <> [] -> avail <> []) as Hne.
  { intros H1 ->. apply H1. reflexivity. }
  destruct (_ <? _) eqn:E.
  - apply Z.ltb_lt in E.
    assert (k = length avail) as -> by (destruct (Nat.eq_dec k (length avail)); lia).
    rewrite Htot, Hneed, Hall in *. split.
    + split; [eauto|]. intros _. split; [lia|exact Hshort].
    + intros e [= <-]. reflexivity.
  - apply Z.ltb_ge in E. split.
    + split; [|intros [e He]; discriminate].
      intros [Hlast Hprev]. exfalso.
      rewrite Htot, Hneed in E.
      destruct (Nat.eq_dec k (length avail)) as [->|Hk'].
      * rewrite Hall in E. lia.
      * assert (0 < k)%nat as Hk0.
        { apply Hpos. intros Hnil.
          apply (f_equal (@length _)) in Hnil.
          rewrite Array_sort_length in Hnil. simpl in Hnil. lia. }
        specialize (Hprev k ltac:(lia)). lia.
    + intros e [=].
Qed.

(** The condition under which selection fails is about the run, not about
    the grand total alone: with entries of 10 and 1, a target of 5 and
    an allowance of 4, the first entry suffices and selection succeeds,
    although both entries together are short of the target plus two
    allowances. *)
Remark prefix_suffices_when_all_is_short :
  selectUTXOs [Examples.entry "a" 10; Examples.entry "b" 1] 5 (Some 4)
  = inr {| selectedUtxos := [Examples.entry "a" 10];
           totalAmount := 10; change := 1 |}
  /\ sumAmounts [Examples.entry "a" 10; Examples.entry "b" 1] < 5 + 2 * 4.
Proof. split; reflexivity. Qed.

End UtxoSelection.

Section UtxoStore.
Import Utxo.

(** The monadic loop computes what [selectLoop] computes and only writes
    the array it pushes onto. *)
Lemma selectLoopM_spec fee els sel : forall acc ta tn s,
  arrays s !! sel = Some acc ->
  let st := selectLoop fee els
              {| ls_selected := acc; ls_totalAmount := ta;
                 ls_totalNeeded := tn |} in
  selectLoopM fee els sel ta tn s =
    (Returned (ls_totalAmount st, ls_totalNeeded st),
     {| arrays := <[sel := ls_selected st]> (arrays s) |}).
Proof.
  induction els as [|u els IH]; intros acc ta tn s Hsel; cbv zeta.
  - cbn [selectLoop selectLoopM ls_selected ls_totalAmount ls_totalNeeded].
    unfold mret, M_ret, ret. rewrite insert_id by exact Hsel.
    destruct s; reflexivity.
  - cbn [selectLoop selectLoopM ls_selected ls_totalAmount ls_totalNeeded].
    unfold mbind, M_bind, bind, push. rewrite Hsel.
    destruct (tn + fee <=? ta + amount u) eqn:E.
    + reflexivity.
    + cbv zeta in IH. erewrite IH.
      * cbn [arrays]. rewrite insert_insert_eq. reflexivity.
      * cbn [arrays]. apply lookup_insert_eq.
Qed.

(** [selectUTXOsM] returns what [selectUTXOs] returns on the contents of the
    caller's array, the selection being a new array, and every array that
    existed before the call keeps its contents. *)
Lemma selectUTXOsM_refines s r l target feeArg :
  arrays s !! r = Some l ->
  exists s',
    (forall r' l', arrays s !! r' = Some l' -> arrays s' !! r' = Some l') /\
    match selectUTXOs l target feeArg with
    | inl e => selectUTXOsM r target feeArg s = (Thrown e, s')
    | inr sel =>
        exists a,
          arrays s !! a = None /\
          arrays s' !! a = Some (selectedUtxos sel) /\
          selectUTXOsM r target feeArg s =
            (Returned {| r_selectedUtxos := a;
                         r_totalAmount := totalAmount sel;
                         r_change := change sel |}, s')
    end.
Proof.
  intros Hr.
  set (r1 := fresh (dom (arrays s))).
  set (m2 := <[r1 := Array_sort compareFn l]> (<[r1 := l]> (arrays s))).
  set (r2 := fresh (dom m2)).
  assert (arrays s !! r1 = None) as Hr1.
  { apply not_elem_of_dom. apply is_fresh. }
  assert (m2 !! r2 = None) as Hr2.
  { apply not_elem_of_dom. apply is_fresh. }
  assert (r2 <> r1) as Hne.
  { intros ->. unfold m2 in Hr2. rewrite lookup_insert_eq in Hr2. discriminate. }
  assert (arrays s !! r2 = None) as Hr2s.
  { unfold m2 in Hr2. rewrite !lookup_insert_ne in Hr2 by congruence. exact Hr2. }
  set (st := selectLoop (feePerUtxoOf feeArg) (Array_sort compareFn l)
               {| ls_selected := []; ls_totalAmount := 0;
                  ls_totalNeeded := target |}).
  exists {| arrays := <[r2 := ls_selected st]> (<[r2 := []]> m2) |}.
  split.
  - intros r' l' H'. cbn [arrays].
    assert (r' <> r1) by congruence. assert (r' <> r2) by congruence.
    unfold m2. rewrite !lookup_insert_ne by congruence. exact H'.
  - assert (selectUTXOsM r target feeArg s =
            (if ls_totalAmount st <? ls_totalNeeded st
             then Thrown (InsufficientFunds (ls_totalNeeded st) (ls_totalAmount st))
             else Returned {| r_selectedUtxos := r2;
                              r_totalAmount := ls_totalAmount st;
                              r_change := ls_totalAmount st - ls_totalNeeded st |},
             {| arrays := <[r2 := ls_selected st]> (<[r2 := []]> m2) |})) as Hrun.
    { unfold selectUTXOsM, spread, mbind, M_bind, bind, readArray, newArray,
        sortInPlace. rewrite Hr. cbn [arrays]. fold r1.
      rewrite lookup_insert_eq. cbn [arrays]. fold m2. fold r2.
      rewrite lookup_insert_ne by congruence.
      unfold m2 at 1. rewrite lookup_insert_eq.
      rewrite (selectLoopM_spec _ _ r2 [] 0 target) by
        (cbn [arrays]; apply lookup_insert_eq).
      cbv zeta. fold st. cbn [arrays].
      destruct (ls_totalAmount st <? ls_totalNeeded st); reflexivity. }
    rewrite Hrun. unfold selectUTXOs. fold st.
    destruct (ls_totalAmount st <? ls_totalNeeded st).
    + reflexivity.
    + exists r2. cbn [arrays selectedUtxos totalAmount change].
      split; [exact Hr2s|]. split; [apply lookup_insert_eq|reflexivity].
Qed.

(** C10. [selectUTXOs] does not modify the array it is given: the spread
    makes a copy, [sort] reorders the copy and [push] extends a third array,
    so after the call the caller's array holds the same entries in the same
    order, whether the call returns a selection or throws. *)
Theorem selectUTXOs_input_unchanged s r l target feeArg :
  arrays s !! r = Some l ->
  arrays (snd (selectUTXOsM r target feeArg s)) !! r = Some l /\
  ((exists sel, fst (selectUTXOsM r target feeArg s) = Returned sel) \/
   (exists e, fst (selectUTXOsM r target feeArg s) = Thrown e)).
Proof.
  intros Hr.
  destruct (selectUTXOsM_refines s r l target feeArg Hr) as (s' & Hframe & Hres).
  destruct (selectUTXOs l target feeArg) as [e|sel].
  - rewrite Hres. cbn [fst snd]. split; [now apply Hframe|]. right. eauto.
  - destruct Hres as (a & _ & _ & Hres). rewrite Hres. cbn [fst snd].
    split; [now apply Hframe|]. left. eauto.
Qed.

End UtxoStore.

Section FeeTiers.
Import Server.
Local Open Scope string_scope.

(** Integers of magnitude below [2^53] are binary64 values. *)
Lemma NumberOfBigInt_exact z : Z.abs z < 2 ^ 53 -> Js.NumberOfBigInt z = z.
Proof.
  intros Hz. unfold Js.NumberOfBigInt.
  assert (Z.log2 (Z.abs z) + 1 <= 53) as Hbits.
  { destruct (Z.eq_dec (Z.abs z) 0) as [->|Hnz]; [simpl; lia|].
    assert (Z.log2 (Z.abs z) < 53); [|lia].
    apply Z.log2_lt_pow2; lia. }
  apply Z.leb_le in Hbits. rewrite Hbits. reflexivity.
Qed.

Lemma Qceiling_half b : Qceiling (inject_Z b * (1 # 2)) = (b + 1) / 2.
Proof.
  unfold Qceiling, Qfloor, Qopp, Qmult, inject_Z. cbn [Qnum Qden].
  change (Z.pos (1 * 2)) with 2. rewrite Z.mul_1_r.
  Z.to_euclidean_division_equations. lia.
Qed.

Lemma Qceiling_one b : Qceiling (inject_Z b * 1) = b.
Proof.
  unfold Qceiling, Qfloor, Qopp, Qmult, inject_Z. cbn [Qnum Qden].
  change (Z.pos (1 * 1)) with 1. rewrite Z.mul_1_r, Z.div_1_r. lia.
Qed.

Lemma Qceiling_double b : Qceiling (inject_Z b * 2) = 2 * b.
Proof.
  unfold Qceiling, Qfloor, Qopp, Qmult, inject_Z. cbn [Qnum Qden].
  change (Z.pos (1 * 1)) with 1. rewrite Z.div_1_r. lia.
Qed.


End FeeTiers.

Section EngineRuns.
Import Sdk.

Variable eng : Engine.
Variable sdk : KaspaSDK.

Lemma generatorPriorityFees_app t1 t2 :
  Spec.generatorPriorityFees (t1 ++ t2)
  = Spec.generatorPriorityFees t1 ++ Spec.generatorPriorityFees t2.
Proof. unfold Spec.generatorPriorityFees. apply flat_map_app. Qed.

Lemma senderKeyOf_trace config t r t' :
  senderKeyOf sdk config t = (r, t') -> t' = t.
Proof.
  unfold senderKeyOf. destruct (from config); [destruct (wallet sdk)|];
    unfold lift, throw, mret, Eng_ret, ret; now intros [= _ <-].
Qed.

Lemma senderKeyOf_any_trace config t t0 :
  fst (senderKeyOf sdk config t) = fst (senderKeyOf sdk config t0).
Proof.
  unfold senderKeyOf. destruct (from config); [destruct (wallet sdk)|];
    reflexivity.
Qed.

(** [estimateFee] never calls the generator. *)
Lemma estimateFee_generator from to amount t r t' :
  estimateFee eng sdk from to amount t = (r, t') ->
  Spec.generatorPriorityFees t' = Spec.generatorPriorityFees t.
Proof.
  unfold estimateFee. destruct (rpcClient sdk); cbn [negb].
  2: { unfold throw. now intros [= _ <-]. }
  unfold mbind, Eng_bind, bind, call, throw, mret, Eng_ret, ret.
  destruct (rpc_getUTXOs eng from) as [utxos|e].
  2: { intros [= _ <-]. rewrite generatorPriorityFees_app. simpl.
       now rewrite app_nil_r. }
  destruct (length utxos =? 0)%nat.
  { intros [= _ <-]. rewrite generatorPriorityFees_app. simpl.
    now rewrite app_nil_r. }
  destruct (rpc_getFeeEstimate eng) as [resp|e].
  2: { intros [= _ <-]. rewrite !generatorPriorityFees_app. simpl.
       now rewrite !app_nil_r. }
  destruct (tb_buildTransaction eng utxos _ from 0 None) as [tx|e];
    intros [= _ <-]; rewrite !generatorPriorityFees_app; simpl;
    now rewrite !app_nil_r.
Qed.

(** Neither does the tail that signs and submits. *)
Lemma signSubmitAndReport_generator utxos key pts t r t' :
  signSubmitAndReport eng utxos key pts t = (r, t') ->
  Spec.generatorPriorityFees t' = Spec.generatorPriorityFees t.
Proof.
  unfold signSubmitAndReport. destruct pts as [|ptx pts].
  { unfold throw. now intros [= _ <-]. }
  unfold mbind, Eng_bind, bind, call, lift, mret, Eng_ret, ret.
  destruct (pt_sign eng ptx [key]); [|now intros [= _ <-]].
  destruct (rpc_submitTransaction eng (transaction ptx));
    intros [= _ <-]; rewrite generatorPriorityFees_app; simpl;
    now rewrite app_nil_r.
Qed.

(** The fee reported by a successful send: the total of the fetched
    entries minus the total of the outputs of the signed transaction. *)
Lemma signSubmitAndReport_fee utxos key pts t res t' :
  signSubmitAndReport eng utxos key pts t = (Ok res, t') ->
  exists ptx rest,
    pts = ptx :: rest /\
    transactionId res = id (transaction ptx) /\
    fee res = reduceSum Utxo.amount utxos - Spec.outputTotal (transaction ptx).
Proof.
  unfold signSubmitAndReport. destruct pts as [|ptx pts].
  { unfold throw. intros [=]. }
  unfold mbind, Eng_bind, bind, call, lift, mret, Eng_ret, ret.
  destruct (pt_sign eng ptx [key]); [|intros [=]].
  destruct (rpc_submitTransaction eng (transaction ptx)); intros [= <- _].
  exists ptx, pts. repeat split.
Qed.

(** C2. In a send with a custom total fee, the priority fee handed to
    the generator is the requested total minus the base fee of the estimate
    just obtained when the request is at least the base fee, and zero when
    it is below: [max(0, customTotalFee - baseFee)]. *)
Theorem custom_total_fee_back_solved config customFee res t' :
  customTotalFee config = Some customFee ->
  sendTransaction eng sdk config [] = (res, t') ->
  forall priority, In priority (Spec.generatorPriorityFees t') ->
  exists key est t0 t1,
    fst (senderKeyOf sdk config []) = Ok key /\
    estimateFee eng sdk (pk_toAddress eng key (networkType sdk))
      (to config) (amount config) t0 = (Ok est, t1) /\
    Spec.generatorPriorityFees t' = [priority] /\
    priority = Z.max 0 (customFee - baseFee est) /\
    (baseFee est <= customFee -> priority = customFee - baseFee est) /\
    (customFee < baseFee est -> priority = 0).
Proof.
  intros Hc Hrun priority Hin.
  unfold sendTransaction in Hrun. rewrite Hc in Hrun.
  unfold sendTransactionWithCustomFee in Hrun.
  destruct (rpcClient sdk); cbn [negb] in Hrun.
  2: { unfold throw in Hrun. injection Hrun as _ <-. destruct Hin. }
  unfold mbind, Eng_bind, bind in Hrun.
  destruct (senderKeyOf sdk config []) as [[key|e] t1] eqn:Hkey.
  2: { apply senderKeyOf_trace in Hkey as ->. injection Hrun as _ <-.
       destruct Hin. }
  pose proof (senderKeyOf_trace _ _ _ _ Hkey) as ->.
  unfold call at 1 in Hrun.
  set (sender := pk_toAddress eng key (networkType sdk)) in *.
  destruct (rpc_getUTXOs eng sender) as [utxos|e].
  2: { injection Hrun as _ <-. destruct Hin. }
  destruct (length utxos =? 0)%nat.
  { unfold throw in Hrun. injection Hrun as _ <-. destruct Hin. }
  destruct (estimateFee eng sdk sender (to config) (amount config)
              ([] ++ [CallGetUTXOs sender])) as [[est|e] t2] eqn:Hest.
  2: { injection Hrun as _ <-.
       apply estimateFee_generator in Hest. rewrite Hest in Hin.
       destruct Hin. }
  pose proof (estimateFee_generator _ _ _ _ _ _ Hest) as Hg2.
  unfold call at 1 in Hrun.
  set (pf := customPriorityFee customFee (baseFee est)) in *.
  assert (Spec.generatorPriorityFees t' = [pf]) as Hfees.
  { destruct (tb_buildWithGenerator eng utxos _ _ pf _) as [pts|e].
    - apply signSubmitAndReport_generator in Hrun. rewrite Hrun.
      rewrite generatorPriorityFees_app, Hg2. reflexivity.
    - injection Hrun as _ <-.
      rewrite generatorPriorityFees_app, Hg2. reflexivity. }
  rewrite Hfees in Hin. destruct Hin as [<-|[]].
  exists key, est, ([] ++ [CallGetUTXOs sender]), t2.
  split; [reflexivity|]. split; [exact Hest|]. split; [exact Hfees|].
  unfold pf, customPriorityFee.
  destruct (customFee >? baseFee est) eqn:E.
  - apply Z.gtb_lt in E. repeat split; lia.
  - assert (customFee <= baseFee est) by (rewrite Z.gtb_ltb in E; apply Z.ltb_ge in E; lia).
    repeat split; lia.
Qed.

End EngineRuns.

Section TraceGrowth.
Import Sdk Spec.

Lemma Extends_ret {A} (a : A) : Extends (mret a).
Proof. intros t. exists []. simpl. now rewrite app_nil_r. Qed.

Lemma Extends_throw {A} e : Extends (@throw A e).
Proof. intros t. exists []. simpl. now rewrite app_nil_r. Qed.

Lemma Extends_lift {A} (r : Result A) : Extends (lift r).
Proof. intros t. exists []. simpl. now rewrite app_nil_r. Qed.

Lemma Extends_call {A} c (r : Result A) : Extends (call c r).
Proof. intros t. exists [c]. reflexivity. Qed.

Lemma Extends_bind {A B} (m : Eng A) (k : A -> Eng B) :
  Extends m -> (forall a, Extends (k a)) -> Extends (m ≫= k).
Proof.
  intros Hm Hk t. destruct (Hm t) as [e1 H1].
  unfold mbind, Eng_bind, bind. destruct (m t) as [[a|e] t1]; simpl in H1.
  - destruct (Hk a t1) as [e2 H2]. exists (e1 ++ e2).
    rewrite H2, H1. now rewrite app_assoc.
  - exists e1. exact H1.
Qed.

Lemma Extends_rethrow {A} f (m : Eng A) : Extends m -> Extends (rethrow f m).
Proof.
  intros Hm t. destruct (Hm t) as [e1 H1]. exists e1.
  unfold rethrow. destruct (m t) as [[a|e] t1]; exact H1.
Qed.

Lemma Extends_estimateFee eng sdk from to amount :
  Extends (estimateFee eng sdk from to amount).
Proof.
  unfold estimateFee. destruct (negb (rpcClient sdk)); [apply Extends_throw|].
  apply Extends_bind; [apply Extends_call|]. intros utxos.
  destruct (length utxos =? 0)%nat; [apply Extends_throw|].
  apply Extends_bind; [apply Extends_call|]. intros resp.
  apply Extends_bind; [apply Extends_call|]. intros tx.
  apply Extends_ret.
Qed.

Lemma Extends_senderKeyOf sdk config : Extends (senderKeyOf sdk config).
Proof.
  unfold senderKeyOf. destruct (from config); [destruct (wallet sdk)|].
  - apply Extends_lift.
  - apply Extends_throw.
  - apply Extends_ret.
Qed.

Lemma Extends_signSubmitAndReport eng utxos key pts :
  Extends (signSubmitAndReport eng utxos key pts).
Proof.
  unfold signSubmitAndReport. destruct pts; [apply Extends_throw|].
  apply Extends_bind; [apply Extends_lift|]. intros _.
  apply Extends_bind; [apply Extends_call|]. intros _.
  apply Extends_ret.
Qed.

Lemma Extends_sendTransaction eng sdk config :
  Extends (sendTransaction eng sdk config).
Proof.
  unfold sendTransaction, sendTransactionWithCustomFee.
  destruct (customTotalFee config);
    (destruct (negb (rpcClient sdk)); [apply Extends_throw|]);
    (apply Extends_bind; [apply Extends_senderKeyOf|]); intros key;
    (apply Extends_bind; [apply Extends_call|]); intros utxos;
    (destruct (length utxos =? 0)%nat; [apply Extends_throw|]).
  - apply Extends_bind; [apply Extends_estimateFee|]. intros est.
    apply Extends_bind; [apply Extends_call|]. intros pts.
    apply Extends_signSubmitAndReport.
  - apply Extends_bind; [apply Extends_call|]. intros pts.
    apply Extends_signSubmitAndReport.
Qed.

(** With a connected client, the first thing [estimateFee] does is to
    fetch the sender's entries from the node. *)
Lemma estimateFee_first_call eng sdk from to amount t :
  rpcClient sdk = true ->
  exists ext,
    snd (estimateFee eng sdk from to amount t) = t ++ CallGetUTXOs from :: ext.
Proof.
  intros Hrpc. unfold estimateFee. rewrite Hrpc. cbn [negb].
  unfold mbind, Eng_bind, bind, call at 1.
  destruct (rpc_getUTXOs eng from) as [utxos|e].
  - match goal with |- exists ext, snd (?k (t ++ [?c])) = _ =>
      assert (Extends k) as Hk end.
    { destruct (length utxos =? 0)%nat; [apply Extends_throw|].
      apply Extends_bind; [apply Extends_call|]. intros resp.
      apply Extends_bind; [apply Extends_call|]. intros tx.
      apply Extends_ret. }
    destruct (Hk (t ++ [CallGetUTXOs from])) as [ext Hext].
    exists ext. rewrite Hext, <- app_assoc. reflexivity.
  - exists []. reflexivity.
Qed.

End TraceGrowth.

Section Trimming.
Import Js Spec.
Local Open Scope string_scope.

Lemma trimStart_clean s : startsClean (trimStart s).
Proof.
  induction s as [|c s IH]; simpl; [exact I|].
  destruct (isWhiteSpace c) eqn:E; [exact IH|exact E].
Qed.

Lemma trimStart_id s : startsClean s -> trimStart s = s.
Proof. destruct s as [|c s]; simpl; [reflexivity|]. now intros ->. Qed.

Lemma trimEnd_clean s : startsClean s -> startsClean (trimEnd s).
Proof.
  destruct s as [|c s]; simpl; [exact id|]. intros Hc.
  destruct (trimEnd s); [rewrite Hc|]; exact Hc.
Qed.

Lemma trimEnd_idempotent s : trimEnd (trimEnd s) = trimEnd s.
Proof.
  induction s as [|c s IH]; [reflexivity|]. cbn [trimEnd].
  destruct (trimEnd s) as [|d t] eqn:E.
  - destruct (isWhiteSpace c) eqn:Ec; [reflexivity|].
    cbn [trimEnd]. now rewrite Ec.
  - cbn [trimEnd] in *. cbn [trimEnd]. rewrite IH. reflexivity.
Qed.

(** Trimming a trimmed string changes nothing. *)
Lemma trim_idempotent s : trim (trim s) = trim s.
Proof.
  unfold trim.
  rewrite (trimStart_id (trimEnd (trimStart s))).
  - apply trimEnd_idempotent.
  - apply trimEnd_clean, trimStart_clean.
Qed.

(** A string made of white space only trims to the empty string. *)
Lemma trimStart_blank s :
  Forall (fun c => isWhiteSpace c = true) (list_ascii_of_string s) ->
  trimStart s = "".
Proof.
  induction s as [|c s IH]; simpl; [reflexivity|].
  intros H. inversion H as [|? ? Hc Hs]; subst. rewrite Hc. now apply IH.
Qed.

Lemma trim_blank s :
  Forall (fun c => isWhiteSpace c = true) (list_ascii_of_string s) ->
  trim s = "".
Proof. intros H. unfold trim. now rewrite trimStart_blank. Qed.

End Trimming.

Section SendHandler.
Import Server Spec.
Local Open Scope string_scope.

(** The amount checks talk to nothing: they leave the trace as it is. *)
Lemma amountToSompi_trace eng p amount t r t' :
  amountToSompi eng p amount t = (r, t') -> t' = t.
Proof.
  unfold amountToSompi.
  destruct (negb (Js.truthy amount) || bool_decide (amount = Some "0")).
  { unfold Sdk.throw. now intros [= _ <-]. }
  destruct (Js.isNaN _).
  { unfold Sdk.throw. now intros [= _ <-]. }
  unfold Sdk.rethrow, Sdk.lift.
  destruct (Sdk.kasToSompi eng _); now intros [= _ <-].
Qed.

(** An amount the checks reject makes [handleSendTransaction] fail with
    the checks' message before any call to the Engine. *)
Lemma rejected_amount_no_engine_call eng st args sdk wallet e t t' :
  sdkInstances st !! normalizeSessionId (sessionId args) = Some sdk ->
  walletInstances st !! normalizeSessionId (sessionId args) = Some wallet ->
  amountToSompi eng "Failed to convert KAS to sompi: " (amount args) t
    = (Sdk.Err e, t') ->
  handleSendTransaction eng st args t
    = (McpError InternalError ("Failed to send transaction: " ++ e), t).
Proof.
  intros Hsdk Hw Hamt. unfold handleSendTransaction. rewrite Hsdk, Hw.
  unfold catchInternal, mbind, Sdk.Eng_bind, Sdk.bind.
  pose proof (amountToSompi_trace _ _ _ _ _ _ Hamt) as ->.
  rewrite Hamt. reflexivity.
Qed.


(** With neither a custom fee nor the deprecated priority fee, the fee
    [handleSendTransaction] resolves is the tier fee of the base fee just
    estimated. *)
Lemma resolveSendFee_named_tier eng sdk wallet args amountSompi t fee t' :
  Js.truthy (customFee args) = false ->
  priorityFee args = None \/ priorityFee args = Some "0" ->
  resolveSendFee eng sdk wallet args amountSompi t = (Sdk.Ok fee, t') ->
  exists sender est t0,
    Sdk.estimateFee eng sdk sender (to args) amountSompi t0 = (Sdk.Ok est, t') /\
    fee = tierPriorityFee (default "normal" (feePriority args)) (Sdk.baseFee est).
Proof.
  intros Hcf Hpf. unfold resolveSendFee. rewrite Hcf.
  assert (Js.truthy (Some (default "0" (priorityFee args)))
          && negb (default "0" (priorityFee args) =? "0") = false) as ->.
  { destruct Hpf as [->| ->]; reflexivity. }
  unfold mbind, Sdk.Eng_bind. unfold Sdk.bind at 1.
  match goal with |- context [match ?m t with _ => _ end] =>
    destruct (m t) as [[sender|e] t0] eqn:Hs end; [|intros [=]].
  unfold Sdk.bind.
  destruct (Sdk.estimateFee eng sdk sender (to args) amountSompi t0)
    as [[est|e] t1] eqn:He; [|intros [=]].
  unfold mret, Sdk.Eng_ret, Sdk.ret. intros [= <- <-].
  exists sender, est, t0. split; [exact He|reflexivity].
Qed.

Lemma customFeeToSompi_trace eng customFee t r t' :
  customFeeToSompi eng customFee t = (r, t') -> t' = t.
Proof.
  unfold customFeeToSompi.
  destruct (Js.isNaN _ || Js.ltZero _).
  { unfold Sdk.throw. now intros [= _ <-]. }
  unfold Sdk.rethrow, Sdk.lift.
  destruct (Sdk.kasToSompi eng _); now intros [= _ <-].
Qed.

(** A send with a [customFee] either stops before any call to the Engine,
    or is a run of [sdk.sendTransaction] with the converted fee as
    [customTotalFee] and no [priorityFee]. *)
Lemma handleSendTransaction_custom_request eng st args sdk wallet out t' :
  sdkInstances st !! normalizeSessionId (sessionId args) = Some sdk ->
  walletInstances st !! normalizeSessionId (sessionId args) = Some wallet ->
  Js.truthy (customFee args) = true ->
  handleSendTransaction eng st args [] = (out, t') ->
  t' = [] \/
  exists amountSompi fee key res,
    customFeeToSompi eng (default "" (customFee args)) [] = (Sdk.Ok fee, []) /\
    Sdk.sendTransaction eng sdk
      {| Sdk.from := inr key; Sdk.to := to args; Sdk.amount := amountSompi;
         Sdk.priorityFee := None; Sdk.customTotalFee := Some fee;
         Sdk.payload := payload args; Sdk.changeAddress := None |} []
    = (res, t').
Proof.
  intros Hsdk Hw Hcf. unfold handleSendTransaction. rewrite Hsdk, Hw.
  unfold catchInternal, mbind, Sdk.Eng_bind. unfold Sdk.bind at 1.
  destruct (amountToSompi eng _ (amount args) []) as [[amountSompi|e] t1] eqn:Ha;
    apply amountToSompi_trace in Ha as Ht; subst t1.
  2: { intros [= _ <-]. now left. }
  unfold Sdk.bind at 1. unfold resolveSendFee. rewrite Hcf.
  destruct (customFeeToSompi eng _ []) as [[fee|e] t1] eqn:Hc;
    apply customFeeToSompi_trace in Hc as Ht; subst t1.
  2: { intros [= _ <-]. now left. }
  unfold Sdk.bind at 1.
  match goal with |- context [match ?m [] with _ => _ end] =>
    destruct (m []) as [[key|e] t1] eqn:Hk end.
  2: { assert (t1 = []) as ->.
       { destruct (Js.truthy (from args));
           [destruct (findSenderKey _ _ _ _ _)|];
           unfold Sdk.throw, Sdk.lift, mret, Sdk.Eng_ret, Sdk.ret in Hk;
           now injection Hk as _ <-. }
       intros [= _ <-]. now left. }
  assert (t1 = []) as ->.
  { destruct (Js.truthy (from args));
      [destruct (findSenderKey _ _ _ _ _)|];
      unfold Sdk.throw, Sdk.lift, mret, Sdk.Eng_ret, Sdk.ret in Hk;
      now injection Hk as _ <-. }
  unfold Sdk.bind at 1.
  destruct (Sdk.sendTransaction eng sdk _ []) as [res t2] eqn:Hrun.
  intros Hout. right. exists amountSompi, fee, key, res.
  split; [reflexivity|].
  f_equal.
  destruct res; unfold mret, Sdk.Eng_ret, Sdk.ret in Hout;
    now injection Hout as _ <-.
Qed.

(** C4. An amount of zero written with a decimal point passes the
    amount checks: [handleSendTransaction] with amount [0.0] goes on to the
    fee estimate, whose first step fetches the sender's entries from the
    node.  The request is not rejected before the Engine is involved. *)
Theorem zero_amount_reaches_engine eng st args sdk wallet key :
  sdkInstances st !! normalizeSessionId (sessionId args) = Some sdk ->
  walletInstances st !! normalizeSessionId (sessionId args) = Some wallet ->
  Sdk.rpcClient sdk = true ->
  Sdk.getReceivePrivateKey wallet 0 = Sdk.Ok key ->
  Sdk.wasm_kaspaToSompi eng "0.0" = Some 0 ->
  amount args = Some "0.0" ->
  customFee args = None -> priorityFee args = None -> from args = None ->
  exists rest,
    snd (handleSendTransaction eng st args [])
    = Sdk.CallGetUTXOs (Sdk.pk_toAddress eng key (Sdk.networkType sdk)) :: rest.
Proof.
  intros Hsdk Hw Hrpc Hkey Hconv Hamt Hcf Hpf Hfrom.
  unfold handleSendTransaction. rewrite Hsdk, Hw.
  assert (amountToSompi eng "Failed to convert KAS to sompi: " (amount args) []
          = (Sdk.Ok 0, [])) as Hamount.
  { rewrite Hamt. unfold amountToSompi, Sdk.rethrow, Sdk.lift, Sdk.kasToSompi.
    change (default "" (Some "0.0")) with "0.0".
    change (Js.trim "0.0") with "0.0". change (Js.trim "0.0") with "0.0".
    change (Js.parseFloat "0.0") with (Js.Finite (0 # 10)).
    change (negb (Js.truthy (Some "0.0"))) with false.
    rewrite bool_decide_eq_false_2 by discriminate.
    cbn [orb Js.isNaN Js.ltZero Qcompare Qnum Qden Z.mul Z.compare].
    change (Js.includesDot "0.0") with true. cbv iota.
    rewrite Hconv. reflexivity. }
  set (addr := Sdk.pk_toAddress eng key (Sdk.networkType sdk)).
  destruct (estimateFee_first_call eng sdk addr (to args) 0 [] Hrpc)
    as [ext Hext].
  assert (resolveSendFee eng sdk wallet args 0 []
          = match Sdk.estimateFee eng sdk addr (to args) 0 [] with
            | (Sdk.Ok est, t1) =>
                (Sdk.Ok (tierPriorityFee (default "normal" (feePriority args))
                           (Sdk.baseFee est)), t1)
            | (Sdk.Err e, t1) => (Sdk.Err e, t1)
            end) as Hfee.
  { unfold resolveSendFee. rewrite Hcf, Hpf, Hfrom.
    change (Js.truthy None) with false.
    change (Js.truthy (Some (default "0" None))
            && negb (default "0" None =? "0")) with false. cbv iota.
    unfold mbind, Sdk.Eng_bind, Sdk.bind, Sdk.lift. rewrite Hkey.
    unfold mret, Sdk.Eng_ret, Sdk.ret. fold addr.
    destruct (Sdk.estimateFee eng sdk addr (to args) 0 []) as [[est|e] t1];
      reflexivity. }
  unfold catchInternal, mbind, Sdk.Eng_bind. unfold Sdk.bind at 1.
  rewrite Hamount. unfold Sdk.bind at 1. rewrite Hfee.
  destruct (Sdk.estimateFee eng sdk addr (to args) 0 []) as [[est|e] t1];
    cbn [snd] in Hext; subst t1.
  2: { exists ext. reflexivity. }
  match goal with |- exists rest, snd (let (_, _) := ?k _ in _) = _ =>
    assert (Extends k) as Hk end.
  { apply (Extends_bind (A:=Sdk.PrivateKey)).
    - rewrite Hfrom. apply Extends_lift.
    - intros k. apply (Extends_bind (A:=Sdk.SendTransactionResult));
        [apply Extends_sendTransaction|]. intros r. apply Extends_ret. }
  destruct (Hk ([] ++ Sdk.CallGetUTXOs addr :: ext)%list) as [ext2 Hext2].
  match goal with |- exists rest, snd (let (_, _) := ?m in _) = _ =>
    destruct m as [[r|e] t2] end; cbn [snd] in *; subst t2;
    exists (ext ++ ext2)%list; reflexivity.
Qed.

End SendHandler.

Section SessionKeys.
Import Server.
Local Open Scope string_scope.

(** What [normalizeSessionId] computes: the trimmed identifier, or
    [default] when nothing is left (or nothing was given). *)
Lemma normalizeSessionId_spec s :
  normalizeSessionId (Some s)
  = if String.eqb (Js.trim s) "" then "default" else Js.trim s.
Proof.
  unfold normalizeSessionId, Js.truthy.
  destruct (String.eqb s "") eqn:E.
  - apply String.eqb_eq in E. subst s. reflexivity.
  - cbn [negb andb]. destruct (String.eqb (Js.trim s) ""); reflexivity.
Qed.

(** An identifier and its trimmed form are normalized to the same key. *)
Lemma normalizeSessionId_trim s :
  normalizeSessionId (Some (Js.trim s)) = normalizeSessionId (Some s).
Proof. rewrite !normalizeSessionId_spec, trim_idempotent. reflexivity. Qed.

(** Absent, empty and blank identifiers are normalized to [default]. *)
Lemma normalizeSessionId_blank s :
  Forall (fun c => Js.isWhiteSpace c = true) (list_ascii_of_string s) ->
  normalizeSessionId (Some s) = normalizeSessionId None.
Proof.
  intros H. rewrite normalizeSessionId_spec, (trim_blank s H). reflexivity.
Qed.

(** C5. [handleConnect] does not normalize the session identifier: it
    stores the connection under the identifier as given, so an empty
    identifier is the key [""] and a padded one keeps its padding, while
    [handleSendTransaction] looks the session up under the normalized key.
    A send that names the session exactly as the connect did then finds no
    connection. *)
Theorem connect_keeps_raw_session_id :
  (sessionKey Connect (Some "") = ""
   /\ sessionKey SendTransaction (Some "") = "default") /\
  (sessionKey Connect (Some "  abc  ") = "  abc  "
   /\ sessionKey SendTransaction (Some "  abc  ") = "abc"
   /\ sessionKey Connect (Some "abc") = "abc") /\
  handleSendTransaction Examples.engine
    (Examples.connected (sessionKey Connect (Some "")))
    (Examples.sendArgs (Some "") (Some "1")) []
  = (McpError InvalidRequest "No active connection. Please connect first.", []).
Proof. repeat split. Qed.

End SessionKeys.

Section RealizedFee.
Import Sdk Spec.

Lemma signSubmitAndReport_run eng utxos key pts t res t' :
  signSubmitAndReport eng utxos key pts t = (Ok res, t') ->
  exists ptx rest,
    pts = ptx :: rest /\
    t' = t ++ [CallSubmitTransaction (transaction ptx)] /\
    transactionId res = id (transaction ptx) /\
    fee res = reduceSum Utxo.amount utxos - outputTotal (transaction ptx).
Proof.
  unfold signSubmitAndReport. destruct pts as [|ptx pts].
  { unfold throw. intros [=]. }
  unfold mbind, Eng_bind, bind, call, lift, mret, Eng_ret, ret.
  destruct (pt_sign eng ptx [key]); [|intros [=]].
  destruct (rpc_submitTransaction eng (transaction ptx)); intros [= <- <-].
  exists ptx, pts. repeat split.
Qed.

(** The fee a successful send reports: the total of all the entries
    fetched for the sender, minus the total of the outputs of the
    transaction that was signed and submitted. *)
Lemma sendTransaction_reported_fee eng sdk config t res t' :
  sendTransaction eng sdk config t = (Ok res, t') ->
  exists key utxos tx,
    fst (senderKeyOf sdk config t) = Ok key /\
    rpc_getUTXOs eng (pk_toAddress eng key (networkType sdk)) = Ok utxos /\
    In (CallSubmitTransaction tx) t' /\
    transactionId res = id tx /\
    fee res = reduceSum Utxo.amount utxos - outputTotal tx.
Proof.
  unfold sendTransaction, sendTransactionWithCustomFee.
  destruct (customTotalFee config) as [c|];
    (destruct (rpcClient sdk); cbn [negb]; [|unfold throw; intros [=]]);
    unfold mbind, Eng_bind; unfold bind at 1;
    (destruct (senderKeyOf sdk config t) as [[key|e] t1] eqn:Hkey;
       [|intros [=]]);
    unfold bind at 1; unfold call at 1;
    (destruct (rpc_getUTXOs eng (pk_toAddress eng key (networkType sdk)))
       as [utxos|e] eqn:Hu; [|intros [=]]);
    (destruct (length utxos =? 0)%nat; [unfold throw; intros [=]|]).
  - unfold bind at 1.
    destruct (estimateFee eng sdk _ _ _ _) as [[est|e] t2]; [|intros [=]].
    unfold bind at 1. unfold call at 1.
    destruct (tb_buildWithGenerator eng utxos _ _ _ _) as [pts|e];
      [|intros [=]].
    intros Hrun. apply signSubmitAndReport_run in Hrun
      as (ptx & rest & _ & -> & Hid & Hfee).
    exists key, utxos, (transaction ptx). repeat split; trivial.
    apply in_or_app. right. now left.
  - unfold bind at 1. unfold call at 1.
    destruct (tb_buildWithGenerator eng utxos _ _ _ _) as [pts|e];
      [|intros [=]].
    intros Hrun. apply signSubmitAndReport_run in Hrun
      as (ptx & rest & _ & -> & Hid & Hfee).
    exists key, utxos, (transaction ptx). repeat split; trivial.
    apply in_or_app. right. now left.
Qed.

(** C6. A sender holds two entries, 500000 and 300000; the generator
    spends the first only, paying 100000 and returning 398000 as change, so
    the transaction pays a fee of 2000.  [sendTransaction] reports 302000:
    the unspent entry is counted among the inputs. *)
Theorem reported_fee_counts_unspent_entries :
  exists res t tx,
    sendTransaction Examples.engine Examples.sdk (Examples.sendConfig None) []
      = (Ok res, t) /\
    In (CallSubmitTransaction tx) t /\
    inputTotal tx - outputTotal tx = 2000 /\
    fee res = 302000.
Proof.
  eexists _, _, _. split; [vm_compute; reflexivity|].
  split; [right; right; left; reflexivity|].
  split; reflexivity.
Qed.

End RealizedFee.

Section Subscriptions.
Import Server Spec.
Local Open Scope string_scope.

Lemma print_nil st : print [] st = st.
Proof. destruct st. unfold print. cbn. now rewrite app_nil_r. Qed.

Lemma In_balanceEvents ev (P : string -> Prop) :
  Forall P balanceEvents -> In ev balanceEvents -> P ev.
Proof. intros H Hin. rewrite Forall_forall in H. apply H. now apply list_elem_of_In. Qed.


Lemma setHas_true `{EqDecision A} (x : A) xs : Sdk.setHas x xs = true <-> x ∈ xs.
Proof. unfold Sdk.setHas. apply bool_decide_eq_true. Qed.

Lemma setHas_false `{EqDecision A} (x : A) xs : Sdk.setHas x xs = false <-> x ∉ xs.
Proof. unfold Sdk.setHas. apply bool_decide_eq_false. Qed.

Lemma handleBalanceChangeEvent_outside session data sub :
  (forall a, ev_address data = Some a -> a ∉ addresses sub) ->
  handleBalanceChangeEvent session data sub = [].
Proof.
  intros H. unfold handleBalanceChangeEvent.
  destruct (ev_address data) as [a|]; [|reflexivity].
  apply (setHas_false a) in H; [|reflexivity].
  change (default "" (Some a)) with a. rewrite H.
  now rewrite orb_true_r.
Qed.

Lemma handleBalanceChangeEvent_monitored session data sub a :
  ev_address data = Some a -> a <> "" -> a ∈ addresses sub ->
  exists n,
    handleBalanceChangeEvent session data sub = [n] /\
    n_address n = a /\ n_session n = session.
Proof.
  intros Ha Hne Hin. unfold handleBalanceChangeEvent. rewrite Ha.
  change (default "" (Some a)) with a.
  apply (setHas_true a) in Hin. rewrite Hin.
  assert (Js.truthy (Some a) = true) as ->.
  { unfold Js.truthy. apply negb_true_iff. now apply String.eqb_neq. }
  cbn [negb orb]. eexists. repeat split.
Qed.

(** Deleting from a set removes the element and nothing else. *)
Lemma elem_of_setDelete `{EqDecision A} (x y : A) xs :
  y ∈ Sdk.setDelete x xs <-> y ∈ xs /\ y <> x.
Proof. unfold Sdk.setDelete. rewrite list_elem_of_filter. tauto. Qed.

Lemma removeAddresses_addresses addrs : forall sub a,
  a ∈ addresses (removeAddresses addrs sub) <-> a ∈ addresses sub /\ a ∉ addrs.
Proof.
  induction addrs as [|x addrs IH]; intros sub a; cbn [removeAddresses fold_left].
  - split; [intros H; split; [exact H|apply not_elem_of_nil]|tauto].
  - unfold removeAddresses in IH. rewrite IH. cbn [addresses].
    rewrite elem_of_setDelete, not_elem_of_cons. tauto.
Qed.

Lemma removeAddresses_listener addrs : forall sub,
  eventListener (removeAddresses addrs sub) = eventListener sub.
Proof.
  induction addrs as [|x addrs IH]; intros sub; cbn [removeAddresses fold_left];
    [reflexivity|].
  unfold removeAddresses in IH. now rewrite IH.
Qed.

(** What [handleUnsubscribeBalance] does to a subscribed session. *)
Lemma unsubscribe_run eng args st t session sdk ref sub h :
  sessionIdOrDefault (u_sessionId args) = session ->
  sdkInstances st !! session = Some sdk ->
  subscriptionInstances st !! session = Some ref ->
  subscriptionObjects st !! ref = Some sub ->
  eventListener sub = Some h ->
  let targets := unsubscribeTargets args sub in
  let remaining := removeAddresses targets sub in
  let st1 := setSubscriptionObject ref remaining st in
  handleUnsubscribeBalance eng args st t =
    if (length targets =? 0)%nat then (Returned NoMatchingAddresses, st, t)
    else
      match Sdk.unsubscribeFromAddresses eng sdk targets t with
      | (Sdk.Err e, t1) =>
          (McpError InternalError ("Failed to unsubscribe: " ++ e), st1, t1)
      | (Sdk.Ok _, t1) =>
          if (length (addresses remaining) =? 0)%nat then
            (Returned (UnsubscribedFrom targets (length (addresses remaining))),
             setSubscriptionInstances (delete session (subscriptionInstances st))
               (setSdk session (withoutHandler h sdk) st1), t1)
          else
            (Returned (UnsubscribedFrom targets (length (addresses remaining))),
             st1, t1)
      end.
Proof.
  intros Hsid Hsdk Hreg Hobj Hl. cbv zeta.
  unfold handleUnsubscribeBalance. rewrite Hsid, Hsdk, Hreg.
  unfold catchInternalSrv, mbind, Srv_bind. unfold sbind at 1. rewrite Hobj.
  fold (unsubscribeTargets args sub).
  destruct (length (unsubscribeTargets args sub) =? 0)%nat; [reflexivity|].
  unfold sbind at 1. unfold update at 1.
  unfold sbind at 1. unfold engine at 1.
  destruct (Sdk.unsubscribeFromAddresses eng sdk _ t) as [[[]|e] t1];
    [|reflexivity].
  unfold sbind at 1.
  destruct (length (addresses (removeAddresses _ sub)) =? 0)%nat;
    [|reflexivity].
  rewrite removeAddresses_listener, Hl.
  unfold sbind, update, mret, Srv_ret, sret.
  cbn [sdkInstances setSubscriptionObject]. rewrite Hsdk.
  reflexivity.
Qed.


Lemma handlersFor_Some ev sdk (h : Sdk.Listener) :
  Sdk.handlersFor ev sdk = [h] -> Sdk.eventListeners sdk !! ev = Some [h].
Proof.
  unfold Sdk.handlersFor. destruct (Sdk.eventListeners sdk !! ev); cbn;
    [now intros ->|discriminate].
Qed.





Lemma setSubscriptionObject_twice ref a b st :
  setSubscriptionObject ref b (setSubscriptionObject ref a st)
  = setSubscriptionObject ref b st.
Proof. unfold setSubscriptionObject. cbn. now rewrite insert_insert_eq. Qed.

(** The initial balances only fill in [lastBalances] of the new object. *)
Lemma initialBalances_run eng sdk ref addrs : forall sub st t,
  exists balances t',
    initialBalances eng sdk ref addrs
      (setSubscriptionObject ref sub st) t
    = (Sdk.Ok tt,
       setSubscriptionObject ref
         {| addresses := addresses sub;
            includeTransactions := includeTransactions sub;
            lastBalances := balances;
            eventListener := eventListener sub |} st, t').
Proof.
  induction addrs as [|a addrs IH]; intros sub st t.
  - exists (lastBalances sub), t. destruct sub. reflexivity.
  - cbn [initialBalances]. unfold mbind, Srv_bind. unfold sbind at 1.
    destruct (Sdk.getBalance eng sdk a t) as [r t1].
    cbn [subscriptionObjects setSubscriptionObject].
    rewrite lookup_insert_eq, setSubscriptionObject_twice.
    match goal with |- context [setSubscriptionObject ref ?s st] =>
      destruct (IH s st t1) as (balances & t' & ->) end.
    exists balances, t'. reflexivity.
Qed.

Lemma setOfList_nonempty `{EqDecision A} (xs : list A) :
  xs <> [] -> Sdk.setOfList xs <> [].
Proof.
  unfold Sdk.setOfList.
  assert (forall (l acc : list A), acc <> [] ->
            fold_left (fun acc x => Sdk.setAdd x acc) l acc <> []) as H.
  { induction l as [|x l IH]; intros acc Hacc; cbn [fold_left]; [exact Hacc|].
    apply IH. unfold Sdk.setAdd. destruct (decide (x ∈ acc)); [exact Hacc|].
    now destruct acc. }
  destruct xs as [|x xs]; [congruence|]. intros _. cbn [fold_left].
  apply H. unfold Sdk.setAdd. rewrite decide_False by apply not_elem_of_nil.
  discriminate.
Qed.

Lemma handlersFor_on_same ev h sdk :
  Sdk.handlersFor ev sdk = [] -> Sdk.handlersFor ev (Sdk.on ev h sdk) = [h].
Proof.
  unfold Sdk.handlersFor, Sdk.on. cbn [Sdk.withListeners Sdk.eventListeners].
  intros ->. rewrite lookup_insert_eq. reflexivity.
Qed.

Lemma handlersFor_on_other ev ev' h sdk :
  ev' <> ev -> Sdk.handlersFor ev (Sdk.on ev' h sdk) = Sdk.handlersFor ev sdk.
Proof.
  intros Hne. unfold Sdk.handlersFor, Sdk.on.
  cbn [Sdk.withListeners Sdk.eventListeners].
  now rewrite lookup_insert_ne.
Qed.

(** A subscribe that returns takes an unsubscribed session to the state
    Subscribed, monitoring the addresses it returns. *)
Lemma subscribe_establishes eng args st t session addrs st' t' :
  sessionIdOrDefault (s_sessionId args) = session ->
  Unsubscribed st session ->
  handleSubscribeBalance eng args st t = (Returned addrs, st', t') ->
  addrs <> [] ->
  exists ref sub h,
    Subscribed st' session ref sub h /\
    addresses sub = Sdk.setOfList addrs /\
    includeTransactions sub = default true (s_includeTransactions args).
Proof.
  intros Hsid (sdk & Hsdk & _ & Hnone) Hrun Hne.
  unfold handleSubscribeBalance in Hrun. rewrite Hsid, Hsdk in Hrun.
  unfold catchInternalSrv, mbind, Srv_bind in Hrun. unfold sbind at 1 in Hrun.
  set (m := match s_addresses args with
            | Some (a :: rest) => mret (a :: rest)
            | _ => match walletInstances st !! session with
                   | Some wallet => mret (probeAddresses wallet (seq 0 5))
                   | None => sthrow "No addresses specified and no wallet available"
                   end
            end) in Hrun.
  assert (exists r, m st t = (r, st, t)) as [r Hm].
  { unfold m. destruct (s_addresses args) as [[|a rest]|];
      try (eexists; reflexivity);
      destruct (walletInstances st !! session); eexists; reflexivity. }
  rewrite Hm in Hrun. destruct r as [monitor|e]; [|discriminate].
  unfold sbind at 1 in Hrun.
  set (ref := fresh (dom (subscriptionObjects st))) in Hrun.
  unfold sbind at 1 in Hrun.
  match type of Hrun with context [initialBalances _ _ _ _ (setSubscriptionObject ref ?s st) t] =>
    destruct (initialBalances_run eng sdk ref monitor s st t)
      as (balances & t1 & Hinit) end.
  rewrite Hinit in Hrun. cbn [addresses includeTransactions eventListener] in Hrun.
  unfold sbind at 1 in Hrun. unfold engine at 1 in Hrun.
  destruct (Sdk.subscribeToAddresses eng sdk monitor t1) as [[[]|e] t2];
    [|discriminate].
  unfold sbind, update, mret, Srv_ret, sret in Hrun.
  cbn [sdkInstances subscriptionObjects subscriptionInstances
       setSubscriptionObject setSdk setSubscriptionInstances] in Hrun.
  rewrite Hsdk in Hrun.
  cbn [sdkInstances subscriptionObjects subscriptionInstances
       setSubscriptionObject setSdk setSubscriptionInstances] in Hrun.
  rewrite lookup_insert_eq in Hrun.
  cbn [sdkInstances subscriptionObjects subscriptionInstances walletInstances
       console setSubscriptionObject setSdk setSubscriptionInstances
       addresses includeTransactions lastBalances] in Hrun.
  injection Hrun as <- <- <-.
  set (h := {| Sdk.capturedSession := session; Sdk.capturedSubscription := ref |}).
  exists ref,
    {| addresses := Sdk.setOfList monitor;
       includeTransactions := default true (s_includeTransactions args);
       lastBalances := balances;
       eventListener := Some h |}, h.
  split; [|split; reflexivity].
  eexists. cbn.
  split; [apply lookup_insert_eq|]. split; [apply lookup_insert_eq|].
  split; [apply lookup_insert_eq|]. split; [reflexivity|].
  split; [reflexivity|]. split; [|now apply setOfList_nonempty].
  unfold balanceEvents in *.
  apply Forall_cons in Hnone as [H1 Hnone].
  apply Forall_cons in Hnone as [H2 Hnone].
  apply Forall_cons in Hnone as [H3 _].
  repeat constructor.
  - rewrite !handlersFor_on_other by discriminate.
    now apply handlersFor_on_same.
  - rewrite handlersFor_on_other by discriminate.
    apply handlersFor_on_same. now rewrite handlersFor_on_other by discriminate.
  - apply handlersFor_on_same. now rewrite !handlersFor_on_other by discriminate.
Qed.

End Subscriptions.

(* ===================================================================== *)
(** * The properties at concrete inputs *)
(* ===================================================================== *)

Section Witnesses.
Local Open Scope string_scope.

Lemma selectUTXOs_success_accounting_witness :
  Utxo.selectUTXOs Examples.available 5 (Some 4) = inr Examples.selection /\
  Utxo.totalAmount Examples.selection
    = Utxo.change Examples.selection + 5 + 1 * 4 /\
  0 <= Utxo.change Examples.selection.
Proof.
  assert (Utxo.selectUTXOs Examples.available 5 (Some 4)
          = inr Examples.selection) as H by reflexivity.
  split; [exact H|].
  destruct (selectUTXOs_success_accounting _ _ _ _ H)
    as (_ & _ & _ & _ & Heq & Hch & _).
  split; [exact Heq|exact Hch].
Defined.

Lemma selectUTXOs_insufficient_iff_witness :
  Utxo.selectUTXOs Examples.smallFunds 10 (Some 1)
    = inl (Utxo.InsufficientFunds 12 5) /\
  Utxo.InsufficientFunds 12 5
    = Utxo.InsufficientFunds (10 + 2 * 1) (Utxo.sumAmounts Examples.smallFunds).
Proof.
  assert (Utxo.selectUTXOs Examples.smallFunds 10 (Some 1)
          = inl (Utxo.InsufficientFunds 12 5)) as H by reflexivity.
  split; [exact H|].
  exact (proj2 (selectUTXOs_insufficient_iff Examples.smallFunds 10 (Some 1))
           _ H).
Defined.

Lemma selectUTXOs_input_unchanged_witness :
  Utxo.arrays Examples.callerStore !! 0%nat = Some Examples.available /\
  Utxo.arrays (snd (Utxo.selectUTXOsM 0%nat 5 (Some 4) Examples.callerStore))
    !! 0%nat = Some Examples.available.
Proof.
  assert (Utxo.arrays Examples.callerStore !! 0%nat = Some Examples.available)
    as H by reflexivity.
  split; [exact H|].
  exact (proj1 (selectUTXOs_input_unchanged _ _ _ 5 (Some 4) H)).
Defined.


Lemma custom_total_fee_back_solved_witness :
  Sdk.customTotalFee (Examples.sendConfig (Some 5000)) = Some 5000 /\
  exists res t',
    Sdk.sendTransaction Examples.engine Examples.sdk
      (Examples.sendConfig (Some 5000)) [] = (res, t') /\
    In 3000 (Spec.generatorPriorityFees t') /\
    exists est, 3000 = Z.max 0 (5000 - Sdk.baseFee est).
Proof.
  split; [reflexivity|].
  set (run := Sdk.sendTransaction Examples.engine Examples.sdk
                (Examples.sendConfig (Some 5000)) []).
  exists (fst run), (snd run).
  assert (run = (fst run, snd run)) as Hrun by (vm_compute; reflexivity).
  assert (In 3000 (Spec.generatorPriorityFees (snd run))) as Hin
    by (vm_compute; left; reflexivity).
  split; [exact Hrun|]. split; [exact Hin|].
  destruct (custom_total_fee_back_solved Examples.engine Examples.sdk
              (Examples.sendConfig (Some 5000)) 5000 (fst run) (snd run)
              eq_refl Hrun 3000 Hin)
    as (key & est & t0 & t1 & _ & _ & _ & Hpf & _).
  exists est. exact Hpf.
Defined.

Lemma zero_amount_reaches_engine_witness :
  Server.amount (Examples.sendArgs None (Some "0.0")) = Some "0.0" /\
  Sdk.wasm_kaspaToSompi Examples.engine "0.0" = Some 0 /\
  exists rest,
    snd (Server.handleSendTransaction Examples.engine
           (Examples.connected "default")
           (Examples.sendArgs None (Some "0.0")) [])
    = Sdk.CallGetUTXOs "kaspatest:sender" :: rest.
Proof.
  split; [reflexivity|]. split; [reflexivity|].
  exact (zero_amount_reaches_engine Examples.engine
           (Examples.connected "default")
           (Examples.sendArgs None (Some "0.0"))
           Examples.sdk Examples.wallet "key0"
           eq_refl eq_refl eq_refl eq_refl eq_refl eq_refl eq_refl eq_refl
           eq_refl).
Defined.

Lemma subscribed_example :
  Spec.Subscribed Examples.subscribed "default" 0 Examples.subscription
    Examples.listener.
Proof.
  eexists. split; [vm_compute; reflexivity|].
  split; [vm_compute; reflexivity|]. split; [vm_compute; reflexivity|].
  split; [reflexivity|]. split; [reflexivity|].
  split; [|discriminate].
  repeat constructor.
Defined.



End Witnesses.

(* ===================================================================== *)
(** * Properties of the codec, the configuration, the wallet and the
      handlers *)
(* ===================================================================== *)

Section HexCodec.
Import Hex.
Local Open Scope string_scope.

Lemma byteToHex_shape b :
  exists c1 c2, byteToHex b = String c1 (String c2 EmptyString) /\
    String.prefix "0x" (String c1 (String c2 EmptyString)) = false.
Proof. destruct b; do 2 eexists; split; reflexivity. Qed.

Lemma byteToHex_decode b : toUint8 (parseInt16 (byteToHex b)) = b.
Proof. destruct b; vm_compute; reflexivity. Qed.

Lemma concat_empty_cons s l : String.concat "" (s :: l) = s ++ String.concat "" l.
Proof.
  destruct l as [|x l]; cbn [String.concat].
  - induction s as [|a s IH]; [reflexivity|].
    change (String a s ++ "") with (String a (s ++ "")). congruence.
  - reflexivity.
Qed.

Lemma bytesToHex_cons b bs : bytesToHex (b :: bs) = byteToHex b ++ bytesToHex bs.
Proof. unfold bytesToHex. cbn [map]. apply concat_empty_cons. Qed.

Lemma decodePairs_cons c1 c2 rest :
  decodePairs (String c1 (String c2 rest))
  = toUint8 (parseInt16 (String c1 (String c2 EmptyString))) :: decodePairs rest.
Proof.
  unfold decodePairs.
  change (String.length (String c1 (String c2 rest)))
    with (2 + String.length rest)%nat.
  replace ((2 + String.length rest) / 2)%nat with (S (String.length rest / 2)).
  2:{ rewrite (Nat.div_add_l 1 2) by lia. reflexivity. }
  cbn [seq map]. f_equal.
  - cbn. destruct rest; reflexivity.
  - rewrite <- seq_shift, map_map. apply map_ext. intros i.
    replace (S i * 2)%nat with (S (S (i * 2))) by lia. reflexivity.
Qed.

(** X1. [hexToBytes] undoes [bytesToHex]: every byte array is read back,
    byte for byte, from the text [bytesToHex] wrote for it. *)
Theorem hexToBytes_bytesToHex bytes : hexToBytes (bytesToHex bytes) = bytes.
Proof.
  assert (Hpairs : decodePairs (bytesToHex bytes) = bytes).
  { induction bytes as [|b bs IH]; [reflexivity|].
    rewrite bytesToHex_cons.
    destruct (byteToHex_shape b) as (c1 & c2 & Hb & _).
    pose proof (byteToHex_decode b) as Hd. rewrite Hb in *.
    change (String c1 (String c2 "") ++ bytesToHex bs)
      with (String c1 (String c2 (bytesToHex bs))).
    rewrite decodePairs_cons, Hd, IH. reflexivity. }
  unfold hexToBytes.
  destruct bytes as [|b bs]; [reflexivity|].
  rewrite bytesToHex_cons in *.
  destruct (byteToHex_shape b) as (c1 & c2 & Hb & Hp). rewrite Hb in *.
  change (String c1 (String c2 "") ++ bytesToHex bs)
    with (String c1 (String c2 (bytesToHex bs))) in *.
  replace (String.prefix "0x" (String c1 (String c2 (bytesToHex bs))))
    with (String.prefix "0x" (String c1 (String c2 EmptyString))).
  - rewrite Hp. exact Hpairs.
  - cbn [String.prefix]. destruct (ascii_dec _ c1); [|reflexivity].
    destruct (ascii_dec _ c2); [destruct (bytesToHex bs)|]; reflexivity.
Qed.

Lemma isLowerHex_cases c :
  isLowerHex c = true ->
  In c (list_ascii_of_string "0123456789abcdef").
Proof.
  destruct c as [[] [] [] [] [] [] [] []]; intros H;
    first [discriminate H | cbn; tauto].
Qed.

Lemma byteToHex_encode c1 c2 :
  isLowerHex c1 = true -> isLowerHex c2 = true ->
  byteToHex (toUint8 (parseInt16 (String c1 (String c2 EmptyString))))
  = String c1 (String c2 EmptyString).
Proof.
  intros H1 H2.
  apply isLowerHex_cases in H1. apply isLowerHex_cases in H2.
  cbn in H1, H2.
  repeat (destruct H1 as [<-|H1]; [|]); try contradiction;
    repeat (destruct H2 as [<-|H2]; [|]); try contradiction;
    vm_compute; reflexivity.
Qed.

Lemma lowerHexPairs_no_prefix h :
  lowerHexPairs h = true -> String.prefix "0x" h = false.
Proof.
  destruct h as [|c1 [|c2 rest]]; [reflexivity | discriminate |].
  cbn [lowerHexPairs String.prefix]. intros H.
  destruct (ascii_dec _ c1); [|reflexivity].
  destruct (ascii_dec _ c2) as [<-|]; [|reflexivity].
  rewrite andb_true_iff in H. destruct H as [H _].
  rewrite andb_true_iff in H. destruct H as [_ H]. discriminate H.
Qed.

Lemma decodePairs_encode : forall n h,
  (String.length h <= n)%nat ->
  lowerHexPairs h = true -> bytesToHex (decodePairs h) = h.
Proof.
  induction n as [|n IH]; intros h Hn Hh.
  - destruct h; [reflexivity | cbn in Hn; lia].
  - destruct h as [|c1 [|c2 rest]]; [reflexivity | discriminate |].
    cbn [lowerHexPairs] in Hh.
    apply andb_true_iff in Hh as [Hh Hr]. apply andb_true_iff in Hh as [H1 H2].
    rewrite decodePairs_cons, bytesToHex_cons, (byteToHex_encode _ _ H1 H2).
    rewrite IH; [reflexivity | cbn in Hn; lia | exact Hr].
Qed.

(** X2. On a text made of pairs of lower-case hexadecimal digits,
    [bytesToHex] undoes [hexToBytes], and a leading [0x] before such a text
    is dropped by [hexToBytes]. *)
Theorem bytesToHex_hexToBytes h :
  lowerHexPairs h = true ->
  bytesToHex (hexToBytes h) = h /\ bytesToHex (hexToBytes ("0x" ++ h)) = h.
Proof.
  intros Hh. split.
  - unfold hexToBytes. rewrite (lowerHexPairs_no_prefix _ Hh).
    apply (decodePairs_encode (String.length h)); [lia | exact Hh].
  - unfold hexToBytes.
    change ("0x" ++ h) with (String "0" (String "x" h)).
    replace (String.prefix "0x" (String "0" (String "x" h))) with true
      by (cbn [String.prefix]; destruct h; reflexivity).
    replace (String.substring 2 (String.length (String "0" (String "x" h)) - 2)
               (String "0" (String "x" h))) with h.
    + apply (decodePairs_encode (String.length h)); [lia | exact Hh].
    + cbn [String.length String.substring]. 
      replace (S (S (String.length h)) - 2)%nat with (String.length h) by lia.
      clear Hh. induction h as [|a h IH]; [reflexivity|].
      cbn [String.length String.substring]. congruence.
Qed.

Lemma bytesToHex_hexToBytes_witness :
  lowerHexPairs "00ff1a" = true /\
  bytesToHex (hexToBytes "00ff1a") = "00ff1a" /\
  bytesToHex (hexToBytes ("0x" ++ "00ff1a")) = "00ff1a".
Proof.
  split; [reflexivity|]. apply (bytesToHex_hexToBytes "00ff1a"). reflexivity.
Defined.

End HexCodec.

Section NetworkNames.
Import Network.
Local Open Scope string_scope.

Ltac name_cases n :=
  destruct (String.eqb_spec n "mainnet") as [->|];
  [|destruct (String.eqb_spec n "testnet-10") as [->|];
    [|destruct (String.eqb_spec n "devnet") as [->|];
      [|destruct (String.eqb_spec n "simnet") as [->|]]]].

(** X3. The four network names are translated to the library's network
    type and back without change, and [getWasmNetworkId] returns the name
    itself; for any other name [getWasmNetworkType] and [getWasmNetworkId]
    throw the same error, which quotes the name; and every network type is
    recovered from the name [getStringNetworkType] gives it. *)
Theorem network_names_round_trip n :
  match getWasmNetworkType n with
  | Sdk.Ok w => getStringNetworkType w = n /\ getWasmNetworkId n = Sdk.Ok n
  | Sdk.Err e =>
      e = "Unknown network type: " ++ n /\ getWasmNetworkId n = Sdk.Err e
  end /\
  forall w, getWasmNetworkType (getStringNetworkType w) = Sdk.Ok w.
Proof.
  split; [|intros []; reflexivity].
  unfold getWasmNetworkType, getWasmNetworkId.
  name_cases n; cbn; auto.
Qed.

Lemma getAddressPrefix_known n w :
  getWasmNetworkType n = Sdk.Ok w ->
  getAddressPrefix n = match w with
                       | Mainnet => "kaspa" | Testnet => "kaspatest"
                       | Devnet => "kaspadev" | Simnet => "kaspasim"
                       end /\ n = getStringNetworkType w.
Proof.
  unfold getWasmNetworkType, getAddressPrefix.
  name_cases n; cbn; intros H; inversion H; auto.
Qed.

(** X4. An address that [validateAddress] accepts for one of the four
    networks is accepted for no other of them: the prefixes
    [getAddressPrefix] gives the four names are pairwise different. *)
Theorem validateAddress_single_network Address addr n1 n2 w1 w2 :
  getWasmNetworkType n1 = Sdk.Ok w1 ->
  getWasmNetworkType n2 = Sdk.Ok w2 ->
  validateAddress Address addr (Some n1) = true ->
  validateAddress Address addr (Some n2) = true ->
  n1 = n2.
Proof.
  intros H1 H2.
  destruct (getAddressPrefix_known _ _ H1) as [P1 ->].
  destruct (getAddressPrefix_known _ _ H2) as [P2 ->].
  unfold validateAddress. destruct (Address addr) as [p|]; [|discriminate].
  replace (Js.truthy (Some (getStringNetworkType w1))) with true
    by (destruct w1; reflexivity).
  replace (Js.truthy (Some (getStringNetworkType w2))) with true
    by (destruct w2; reflexivity).
  cbn [default]. change (id ?x) with x. rewrite P1, P2.
  intros E1 E2. apply String.eqb_eq in E1, E2. subst p.
  destruct w1, w2; try discriminate E2; reflexivity.
Qed.

End NetworkNames.

Section Configuration.
Import Config.
Local Open Scope string_scope.

(** X5. After [setNetworkRpcUrl(network, url)], [getNetworkRpcUrl] returns
    [url] for that network, or the built-in address of the network when
    [url] is empty, and what it returned before for every other network. *)
Theorem setNetworkRpcUrl_getNetworkRpcUrl c network url enc other :
  getNetworkRpcUrl (setNetworkRpcUrl network url enc c) other
  = if decide (other = network) then
      (if Js.truthy (Some url) then Some url else DEFAULT_RPC_URLS network)
    else getNetworkRpcUrl c other.
Proof.
  unfold getNetworkRpcUrl, setNetworkRpcUrl, withNetworks. cbn [networks].
  destruct (decide (other = network)) as [->|Hne].
  - rewrite lookup_insert_eq.
    destruct (networks c !! network), enc; reflexivity.
  - rewrite lookup_insert_ne by congruence. reflexivity.
Qed.

Lemma mergeConfig_networks config c k :
  networks (mergeConfig config c) !! k
  = match p_networks config with
    | Some given =>
        match given !! k with
        | Some nc => Some (spreadNetwork (networks c !! k) nc)
        | None => networks c !! k
        end
    | None => networks c !! k
    end.
Proof.
  unfold mergeConfig. cbn [networks].
  destruct (p_networks config) as [given|]; [|reflexivity].
  revert k.
  apply (map_fold_weak_ind
    (fun acc given => forall k,
       acc !! k = match given !! k with
                  | Some nc => Some (spreadNetwork (networks c !! k) nc)
                  | None => networks c !! k
                  end)).
  - intros k. rewrite lookup_empty. reflexivity.
  - intros i x m r Hi IH k.
    destruct (decide (k = i)) as [->|Hne].
    + rewrite !lookup_insert_eq, IH, Hi. reflexivity.
    + rewrite !lookup_insert_ne by congruence. apply IH.
Qed.

Lemma SDKConfig_eq c1 c2 :
  (forall k, networks c1 !! k = networks c2 !! k) ->
  defaultNetwork c1 = defaultNetwork c2 ->
  logLevel c1 = logLevel c2 ->
  autoConnect c1 = autoConnect c2 ->
  walletCredentials c1 = walletCredentials c2 ->
  c1 = c2.
Proof.
  destruct c1, c2; cbn. intros Hn -> -> -> ->.
  f_equal. apply map_eq. exact Hn.
Qed.

(** X6. Merging the same partial configuration twice gives what merging it
    once gives, so a repeated [loadFromEnv] with the same environment
    changes nothing; and with no variable set [loadFromEnv] leaves the
    configuration as it is. *)
Theorem mergeConfig_idempotent config env c :
  mergeConfig config (mergeConfig config c) = mergeConfig config c /\
  loadFromEnv env (loadFromEnv env c) = loadFromEnv env c /\
  loadFromEnv ∅ c = c.
Proof.
  assert (Hidem : forall p, mergeConfig p (mergeConfig p c) = mergeConfig p c).
  { intros p. apply SDKConfig_eq.
    - intros k. rewrite !mergeConfig_networks.
      destruct (p_networks p) as [given|]; [|reflexivity].
      destruct (given !! k) as [nc|] eqn:Hk; [|reflexivity].
      unfold spreadNetwork. destruct (encoding nc); reflexivity.
    - unfold mergeConfig; cbn [defaultNetwork].
      destruct (p_defaultNetwork _); reflexivity.
    - unfold mergeConfig; cbn [logLevel].
      destruct (p_logLevel _); reflexivity.
    - unfold mergeConfig; cbn [autoConnect].
      destruct (p_autoConnect _); reflexivity.
    - unfold mergeConfig; cbn [walletCredentials].
      destruct (p_walletCredentials _); reflexivity. }
  split; [apply Hidem|]. split; [apply Hidem|].
  apply SDKConfig_eq; reflexivity.
Qed.

End Configuration.

Section WalletKeys.
Import Wallet.
Local Open Scope string_scope.

Lemma deriveLoop_Forall2 eng network derive indices : forall l,
  deriveLoop eng network derive indices = Sdk.Ok l <->
  Forall2 (fun i a => exists key,
             derive i = Sdk.Ok key /\ a = Sdk.pk_toAddress eng key network)
    indices l.
Proof.
  induction indices as [|i rest IH]; intros l; cbn [deriveLoop].
  - split.
    + intros H. inversion H. constructor.
    + intros H. inversion H. reflexivity.
  - destruct (derive i) as [key|e] eqn:Hi.
    + destruct (deriveLoop eng network derive rest) as [addrs|e] eqn:Hr.
      * split.
        -- intros H. inversion H; subst. constructor; [eauto|].
           apply IH. reflexivity.
        -- intros H. inversion H as [|? a ? l' (k & Hk & ->) Hl]; subst.
           apply IH in Hl. rewrite Hi in Hk. inversion Hk; subst.
           inversion Hl; subst. reflexivity.
      * split; [discriminate|].
        intros H. inversion H as [|? a ? l' _ Hl]; subst.
        apply IH in Hl. discriminate Hl.
    + split; [discriminate|].
      intros H. inversion H as [|? a ? l' (k & Hk & _) _]; subst.
      rewrite Hi in Hk. discriminate Hk.
Qed.

(** X7. For a wallet with a key generator, [deriveAddresses(start, count,
    change)] returns a list exactly when each of the indices
    [start .. start + count - 1] has an address, and the list then holds, in
    order, the addresses [getReceiveAddress] (or [getChangeAddress], when
    [change] is set) returns for these indices. *)
Theorem deriveAddresses_agrees eng w g startIndex count change l :
  keyGenerator w = Some g ->
  deriveAddresses eng w startIndex count change = Sdk.Ok l <->
  Forall2 (fun i a =>
             (if change then getChangeAddress eng w i
              else getReceiveAddress eng w i) = Sdk.Ok a)
    (seq startIndex count) l.
Proof.
  intros Hg. unfold deriveAddresses. rewrite Hg.
  rewrite deriveLoop_Forall2.
  assert (Hpoint : forall i a,
    (exists key,
       (if change then changeKey g else receiveKey g) i = Sdk.Ok key /\
       a = Sdk.pk_toAddress eng key (networkType w)) <->
    (if change then getChangeAddress eng w i
     else getReceiveAddress eng w i) = Sdk.Ok a).
  { intros i a.
    unfold getChangeAddress, getReceiveAddress, addressAt. rewrite Hg.
    destruct change.
    - destruct (changeKey g i) as [key|e]; split.
      + intros (k & Hk & ->). inversion Hk. reflexivity.
      + intros H. inversion H. eauto.
      + intros (k & Hk & _). discriminate Hk.
      + discriminate.
    - destruct (receiveKey g i) as [key|e]; split.
      + intros (k & Hk & ->). inversion Hk. reflexivity.
      + intros H. inversion H. eauto.
      + intros (k & Hk & _). discriminate Hk.
      + discriminate. }
  split; intros H; eapply Forall2_impl; try exact H;
    intros i a Hi; apply Hpoint; exact Hi.
Qed.

Lemma setAdd_nil `{EqDecision A} (x : A) : Sdk.setAdd x [] = [x].
Proof.
  unfold Sdk.setAdd. destruct (decide (x ∈ [])) as [Hin|]; [|reflexivity].
  inversion Hin.
Qed.

Lemma setAdd_present `{EqDecision A} (x : A) xs :
  x ∈ xs -> Sdk.setAdd x xs = xs.
Proof.
  intros Hin. unfold Sdk.setAdd. destruct (decide (x ∈ xs)); [reflexivity|].
  contradiction.
Qed.

(** X8. A wallet made from a private key alone has one address: every
    receive and change index gives the address of that key, the key itself
    is only returned for index 0, the wallet has no mnemonic,
    [deriveAddresses] throws, and probing the first five receive addresses
    as the subscription handler does yields that single address. *)
Theorem private_key_wallet wasm eng config w :
  Js.truthy (wc_mnemonic config) = false ->
  Js.truthy (wc_privateKey config) = true ->
  new wasm config = Sdk.Ok w ->
  exists key,
    newPrivateKey wasm (default "" (wc_privateKey config)) = Sdk.Ok key /\
    let a := Sdk.pk_toAddress eng key (wc_networkType config) in
    (forall i, getReceiveAddress eng w i = Sdk.Ok a /\
               getChangeAddress eng w i = Sdk.Ok a) /\
    getReceivePrivateKey w 0 = Sdk.Ok key /\
    (forall i, i <> 0%nat ->
       getReceivePrivateKey w i
       = Sdk.Err ("Cannot get private key at index " ++ indexToString i)) /\
    getMnemonic w = None /\
    (forall startIndex count change,
       deriveAddresses eng w startIndex count change
       = Sdk.Err "HD wallet not available") /\
    Sdk.setOfList (Server.probeAddresses (view eng w) (seq 0 5)) = [a].
Proof.
  intros Hm Hk. unfold new. rewrite Hm, Hk.
  destruct (newPrivateKey wasm _) as [key|e]; [|discriminate].
  intros H. inversion H; subst w; clear H.
  exists key. split; [reflexivity|]. cbn zeta.
  repeat split.
  - intros i Hi. unfold getReceivePrivateKey, keyAt. cbn.
    destruct i; [contradiction|reflexivity].
  - cbn. unfold Sdk.setOfList. cbn [fold_left].
    rewrite setAdd_nil. rewrite !(setAdd_present _ [_]) by constructor. reflexivity.
Qed.


End WalletKeys.

Section AddressTracking.
Import Tracking.
Local Open Scope string_scope.

Lemma truthy_Some s : Js.truthy (Some s) = true <-> s <> "".
Proof.
  cbn. destruct (String.eqb_spec s ""); cbn; split; congruence.
Qed.

Lemma emptyArrays_lookup addresses : forall (m0 : gmap string (list Utxo.IUtxoEntry)) a,
  fold_left (fun m address => <[address := []]> m) addresses m0 !! a
  = if decide (a ∈ addresses) then Some [] else m0 !! a.
Proof.
  induction addresses as [|x xs IH]; intros m0 a; cbn [fold_left].
  - destruct (decide (a ∈ [])) as [Hin|]; [inversion Hin|reflexivity].
  - rewrite IH.
    destruct (decide (a ∈ xs)) as [Hin|Hnin].
    + destruct (decide (a ∈ x :: xs)) as [|Hn]; [reflexivity|].
      exfalso. apply Hn. now constructor.
    + destruct (decide (a = x)) as [->|Hne].
      * rewrite lookup_insert_eq.
        destruct (decide (x ∈ x :: xs)) as [|Hn]; [reflexivity|].
        exfalso. apply Hn. constructor.
      * rewrite lookup_insert_ne by congruence.
        destruct (decide (a ∈ x :: xs)) as [Hin|]; [|reflexivity].
        inversion Hin; subst; contradiction.
Qed.

Lemma pushByAddress_lookup utxos : forall (m0 : gmap string (list Utxo.IUtxoEntry)) a,
  fold_left pushByAddress utxos m0 !! a
  = match m0 !! a with
    | Some entries => Some (entries ++ entriesOf a utxos)%list
    | None => None
    end.
Proof.
  induction utxos as [|u l IH]; intros m0 a; cbn [fold_left].
  - unfold entriesOf. cbn. destruct (m0 !! a); [rewrite app_nil_r|]; reflexivity.
  - rewrite IH. unfold pushByAddress, entriesOf. rewrite filter_cons.
    destruct (Utxo.address u) as [addr|] eqn:Hu.
    + destruct (m0 !! addr) as [entries|] eqn:Hm.
      * destruct (Js.truthy (Some addr)) eqn:Ht.
        -- apply truthy_Some in Ht.
           destruct (decide (a = addr)) as [->|Hne].
           ++ rewrite lookup_insert_eq, Hm.
              destruct (decide _) as [_|Hn]; [|exfalso; apply Hn; auto].
              rewrite <- app_assoc. reflexivity.
           ++ rewrite lookup_insert_ne by congruence.
              destruct (decide _) as [[Heq _]|_]; [congruence|reflexivity].
        -- destruct (decide _) as [[Heq Hne]|_]; [|reflexivity].
           inversion Heq; subst addr. apply truthy_Some in Hne. congruence.
      * destruct (decide _) as [[Heq _]|_]; [|reflexivity].
        inversion Heq; subst addr. rewrite Hm. reflexivity.
    + destruct (decide _) as [[Heq _]|_]; [discriminate|reflexivity].
Qed.

(** X9. The map [getUTXOsForAddresses] returns has exactly the requested
    addresses as keys, and under each one the entries of [getAllUTXOs]
    that carry this address, in their order; an empty address has no
    entries. *)
Theorem getUTXOsForAddresses_groups mgr addresses utxoMap :
  getUTXOsForAddresses mgr addresses = Sdk.Ok utxoMap ->
  exists allUtxos,
    getAllUTXOs mgr = Sdk.Ok allUtxos /\
    forall a,
      utxoMap !! a
      = if decide (a ∈ addresses) then Some (entriesOf a allUtxos) else None.
Proof.
  unfold getUTXOsForAddresses.
  destruct (getAllUTXOs mgr) as [allUtxos|e]; [|discriminate].
  intros H. inversion H; subst utxoMap; clear H.
  exists allUtxos. split; [reflexivity|]. intros a.
  rewrite pushByAddress_lookup, emptyArrays_lookup.
  destruct (decide (a ∈ addresses)); [reflexivity|].
  rewrite lookup_empty. reflexivity.
Qed.

Lemma elem_of_untracked (l : list string) : forall t y,
  y ∈ fold_left (fun tracked addr => Sdk.setDelete addr tracked) l t
  <-> y ∈ t /\ y ∉ l.
Proof.
  induction l as [|x xs IH]; intros t y; cbn [fold_left].
  - split; [intros H; split; [exact H|intros Hin; inversion Hin]|tauto].
  - rewrite IH. unfold Sdk.setDelete. rewrite list_elem_of_filter.
    split.
    + intros [[Hne Hin] Hxs]. split; [exact Hin|].
      intros Hc. inversion Hc; subst; contradiction.
    + intros [Hin Hn]. split; [split; [|exact Hin]|].
      * intros ->. apply Hn. constructor.
      * intros Hc. apply Hn. now constructor.
Qed.

Lemma untrack_everything (l : list string) :
  fold_left (fun tracked addr => Sdk.setDelete addr tracked) l l = [].
Proof.
  destruct (fold_left _ l l) as [|y ys] eqn:E; [reflexivity|].
  assert (Hy : y ∈ fold_left
            (fun tracked addr => Sdk.setDelete addr tracked) l l)
    by (rewrite E; constructor).
  apply elem_of_untracked in Hy. tauto.
Qed.

Lemma track_fresh (l : list string) : forall acc,
  NoDup (acc ++ l) ->
  fold_left (fun tracked addr => Sdk.setAdd addr tracked) l acc = (acc ++ l)%list.
Proof.
  induction l as [|x xs IH]; intros acc Hnd; cbn [fold_left].
  - now rewrite app_nil_r.
  - assert (Hx : x ∉ acc).
    { apply NoDup_app in Hnd as (_ & Hdis & _). intros Hin.
      apply (Hdis x Hin). constructor. }
    unfold Sdk.setAdd at 2. destruct (decide (x ∈ acc)); [contradiction|].
    rewrite IH; rewrite <- app_assoc; [reflexivity|exact Hnd].
Qed.

(** X10. [refresh] never changes the context.  When it returns, the set of
    tracked addresses is what it was; when it throws, the set is either
    unchanged or empty, and it is empty only when the addresses were
    unregistered and registering them again failed. *)
Theorem refresh_tracked Address mgr r mgr' :
  NoDup (trackedAddresses mgr) ->
  refresh Address mgr = (r, mgr') ->
  context mgr' = context mgr /\
  match r with
  | Sdk.Ok _ => trackedAddresses mgr' = trackedAddresses mgr
  | Sdk.Err e =>
      trackedAddresses mgr' = trackedAddresses mgr \/
      (trackedAddresses mgr' = [] /\
       exists ctx, context mgr = Some ctx /\
         ctx_unregisterAddresses ctx (trackedAddresses mgr) = Sdk.Ok tt /\
         ctx_trackAddresses ctx (trackedAddresses mgr) = Sdk.Err e)
  end.
Proof.
  intros Hnd. unfold refresh.
  destruct (context mgr) as [ctx|] eqn:Hctx.
  2:{ intros H; inversion H; subst. rewrite Hctx. auto. }
  destruct (0 <? length (trackedAddresses mgr))%nat.
  2:{ intros H; inversion H; subst. rewrite Hctx. auto. }
  unfold untrackAddresses. rewrite Hctx.
  destruct (addressObjects Address (trackedAddresses mgr)) eqn:Ha.
  2:{ intros H; inversion H; subst. rewrite Hctx. auto. }
  destruct (ctx_unregisterAddresses ctx (trackedAddresses mgr)) as [[]|e] eqn:Hu.
  2:{ intros H; inversion H; subst. rewrite Hctx. auto. }
  rewrite untrack_everything.
  unfold trackAddresses, withTracked. cbn [context trackedAddresses].
  rewrite Hctx, Ha.
  destruct (ctx_trackAddresses ctx (trackedAddresses mgr)) as [[]|e] eqn:Ht;
    intros H; inversion H; subst; cbn [context trackedAddresses].
  - split; [reflexivity|]. now rewrite (track_fresh _ []).
  - split; [reflexivity|]. right. split; [reflexivity|]. eauto.
Qed.

End AddressTracking.

Section SdkEvents.
Import Sdk.
Local Open Scope string_scope.

Lemma setDelete_absent `{EqDecision A} (x : A) xs :
  x ∉ xs -> Sdk.setDelete x xs = xs.
Proof.
  intros Hn. unfold setDelete. induction xs as [|y ys IH]; [reflexivity|].
  rewrite filter_cons. destruct (decide (y <> x)) as [_|Heq].
  - f_equal. apply IH. intros Hin. apply Hn. now constructor.
  - exfalso. apply Hn. destruct (decide (y = x)) as [->|]; [constructor|].
    contradiction.
Qed.

Lemma setDelete_app `{EqDecision A} (x : A) xs ys :
  setDelete x (xs ++ ys) = (setDelete x xs ++ setDelete x ys)%list.
Proof. unfold setDelete. apply filter_app. Qed.

Lemma setDelete_setAdd `{EqDecision A} (x : A) xs :
  setDelete x (setAdd x xs) = setDelete x xs.
Proof.
  unfold setAdd. destruct (decide (x ∈ xs)); [reflexivity|].
  rewrite setDelete_app. unfold setDelete at 2. cbn [filter list_filter].
  destruct (decide (x <> x)) as [Hne|_]; [now destruct Hne|].
  apply app_nil_r.
Qed.

Lemma elem_of_setAdd `{EqDecision A} (x : A) xs : x ∈ setAdd x xs.
Proof.
  unfold setAdd. destruct (decide (x ∈ xs)); [assumption|].
  apply elem_of_app. right. constructor.
Qed.

(** X11. Registering the same handler twice for an event is the same as
    registering it once; a registered handler is among the handlers of its
    event; [off] after [on] leaves the handlers of the event as they were
    apart from that handler, and those of other events untouched; and after
    [off] the handler is not among the handlers of the event. *)
Theorem on_off_handlers event handler sdk other :
  on event handler (on event handler sdk) = on event handler sdk /\
  handler ∈ handlersFor event (on event handler sdk) /\
  handlersFor other (off event handler (on event handler sdk))
  = (if decide (other = event)
     then setDelete handler (handlersFor event sdk)
     else handlersFor other sdk) /\
  handler ∉ handlersFor event (off event handler sdk).
Proof.
  repeat split.
  - unfold on, withListeners.
    cbn [eventListeners networkType rpcClient wallet].
    rewrite lookup_insert_eq. cbn [default]. unfold Datatypes.id.
    rewrite (setAdd_present handler (setAdd handler _)) by apply elem_of_setAdd.
    rewrite insert_insert_eq. reflexivity.
  - unfold handlersFor, on, withListeners. cbn [eventListeners].
    rewrite lookup_insert_eq. apply elem_of_setAdd.
  - unfold handlersFor, off, on, withListeners. cbn [eventListeners].
    rewrite lookup_insert_eq. cbn [eventListeners].
    destruct (decide (other = event)) as [->|Hne].
    + rewrite lookup_insert_eq. cbn [default]. unfold Datatypes.id.
      apply setDelete_setAdd.
    + rewrite !lookup_insert_ne by congruence. reflexivity.
  - unfold handlersFor, off.
    destruct (eventListeners sdk !! event) as [handlers|] eqn:E.
    + unfold withListeners. cbn [eventListeners].
      rewrite lookup_insert_eq. cbn [default]. unfold Datatypes.id.
      intros Hin. apply elem_of_setDelete in Hin. tauto.
    + rewrite E. cbn. apply not_elem_of_nil.
Qed.

End SdkEvents.

Section SdkSend.
Import Sdk Observations.
Local Open Scope string_scope.

Variable eng : Engine.
Variable sdk : KaspaSDK.

Ltac run_step :=
  unfold mbind, Eng_bind, bind, call, lift, throw, mret, Eng_ret, ret.

(** [estimateFee] only reads from the node. *)
Lemma estimateFee_queries from to amount t r t' :
  estimateFee eng sdk from to amount t = (r, t') ->
  exists ext, t' = (t ++ ext)%list /\ forallb isQuery ext = true.
Proof.
  unfold estimateFee. destruct (rpcClient sdk); cbn [negb].
  2:{ run_step. intros [= _ <-]. exists []. now rewrite app_nil_r. }
  run_step.
  destruct (rpc_getUTXOs eng from) as [utxos|e].
  2:{ intros [= _ <-]. now exists [CallGetUTXOs from]. }
  destruct (length utxos =? 0)%nat.
  { intros [= _ <-]. now exists [CallGetUTXOs from]. }
  destruct (rpc_getFeeEstimate eng) as [resp|e].
  2:{ intros [= _ <-]. exists [CallGetUTXOs from; CallGetFeeEstimate].
      now rewrite <- app_assoc. }
  destruct (tb_buildTransaction eng utxos _ from 0 None) as [tx|e];
    intros [= _ <-]; eexists [CallGetUTXOs from; CallGetFeeEstimate; _];
    rewrite <- !app_assoc; split; reflexivity.
Qed.

(** The tail of a send: what it adds to the trace. *)
Lemma signSubmitAndReport_trace utxos key pts t r t' :
  signSubmitAndReport eng utxos key pts t = (r, t') ->
  match r with
  | Ok res =>
      exists ptx rest,
        pts = ptx :: rest /\
        t' = (t ++ [CallSubmitTransaction (transaction ptx)])%list /\
        transactionId res = id (transaction ptx)
  | Err e =>
      t' = t \/
      exists ptx rest,
        pts = ptx :: rest /\
        t' = (t ++ [CallSubmitTransaction (transaction ptx)])%list /\
        rpc_submitTransaction eng (transaction ptx) = Err e
  end.
Proof.
  unfold signSubmitAndReport. destruct pts as [|ptx rest].
  { run_step. intros [= <- <-]. now left. }
  run_step.
  destruct (pt_sign eng ptx [key]); [|intros [= <- <-]; now left].
  destruct (rpc_submitTransaction eng (transaction ptx)) eqn:Hs;
    intros [= <- <-].
  - exists ptx, rest. repeat split.
  - right. exists ptx, rest. repeat split. exact Hs.
Qed.

(** X12. A send that returns made, after the calls made before it,
    only calls that read from the node or build the transaction of the
    estimate, then one call of the generator, then one submission; the
    submitted transaction is the first one the generator returned, and the
    reported transaction id is its id. *)
Theorem sendTransaction_success_trace config t res t' :
  sendTransaction eng sdk config t = (Ok res, t') ->
  exists queries utxos outs change priority payload ptx rest,
    t' = (t ++ queries
            ++ [CallBuildWithGenerator utxos outs change priority payload;
                CallSubmitTransaction (transaction ptx)])%list /\
    forallb isQuery queries = true /\
    tb_buildWithGenerator eng utxos outs change priority payload
      = Ok (ptx :: rest) /\
    transactionId res = id (transaction ptx).
Proof.
  unfold sendTransaction, sendTransactionWithCustomFee.
  destruct (customTotalFee config) as [custom|];
    (destruct (rpcClient sdk); cbn [negb]; [|run_step; intros [=]]).
  - unfold mbind, Eng_bind. unfold bind at 1.
    destruct (senderKeyOf sdk config t) as [[key|e] t0] eqn:Hk; [|intros [=]].
    apply senderKeyOf_trace in Hk as Ht0; subst t0.
    unfold bind at 1. unfold call at 1.
    destruct (rpc_getUTXOs eng _) as [utxos|e]; [|intros [=]].
    destruct (length utxos =? 0)%nat; [run_step; intros [=]|].
    unfold bind at 1.
    destruct (estimateFee eng sdk _ _ _ _) as [[est|e] t1] eqn:He; [|intros [=]].
    apply estimateFee_queries in He as (ext & -> & Hq).
    unfold bind at 1. unfold call at 1.
    destruct (tb_buildWithGenerator eng utxos _ _ _ _) as [pts|e] eqn:Hg;
      [|intros [=]].
    intros Hrun. apply signSubmitAndReport_trace in Hrun
      as (ptx & rest & -> & -> & Hid).
    eexists (CallGetUTXOs _ :: ext), utxos, _, _, _, _, ptx, rest.
    split; [|split; [|split; [exact Hg|exact Hid]]].
    + rewrite <- !app_assoc. reflexivity.
    + cbn. exact Hq.
  - unfold mbind, Eng_bind. unfold bind at 1.
    destruct (senderKeyOf sdk config t) as [[key|e] t0] eqn:Hk; [|intros [=]].
    apply senderKeyOf_trace in Hk as Ht0; subst t0.
    unfold bind at 1. unfold call at 1.
    destruct (rpc_getUTXOs eng _) as [utxos|e]; [|intros [=]].
    destruct (length utxos =? 0)%nat; [run_step; intros [=]|].
    unfold bind at 1. unfold call at 1.
    destruct (tb_buildWithGenerator eng utxos _ _ _ _) as [pts|e] eqn:Hg;
      [|intros [=]].
    intros Hrun. apply signSubmitAndReport_trace in Hrun
      as (ptx & rest & -> & -> & Hid).
    eexists [CallGetUTXOs _], utxos, _, _, _, _, ptx, rest.
    split; [|split; [|split; [exact Hg|exact Hid]]].
    + rewrite <- !app_assoc. reflexivity.
    + reflexivity.
Qed.

(** Every run of [sendTransaction]: queries, then at most one generator
    call, then at most one submission. *)
Lemma sendTransaction_shape config t r t' :
  sendTransaction eng sdk config t = (r, t') ->
  exists queries tail,
    t' = (t ++ queries ++ tail)%list /\
    forallb isQuery queries = true /\
    sendTail eng sdk config t r tail.
Proof.
  assert (Hfail : forall q e, forallb isQuery q = true ->
            (@Err SendTransactionResult e, (t ++ q)%list) = (r, t') ->
            exists queries tail,
              t' = (t ++ queries ++ tail)%list /\
              forallb isQuery queries = true /\
              sendTail eng sdk config t r tail).
  { intros q e Hq [= <- <-]. exists q, []. rewrite app_nil_r.
    split; [reflexivity|]. split; [exact Hq|]. left. eauto. }
  assert (Htail : forall key utxos priority q gr,
    fst (senderKeyOf sdk config t) = Ok key ->
    rpc_getUTXOs eng (pk_toAddress eng key (networkType sdk)) = Ok utxos ->
    forallb isQuery q = true ->
    let sender := pk_toAddress eng key (networkType sdk) in
    let outs := [ {| po_address := to config; po_amount := amount config |} ] in
    let change := default sender (changeAddress config) in
    let g := CallBuildWithGenerator utxos outs change priority
               (payloadOf config) in
    match customTotalFee config with
    | Some custom =>
        exists est t0,
          fst (estimateFee eng sdk sender (to config) (amount config) t0)
            = Ok est /\
          priority = customPriorityFee custom (baseFee est)
    | None => priority = priorityFeeOrZero (priorityFee config)
    end ->
    tb_buildWithGenerator eng utxos outs change priority (payloadOf config)
      = gr ->
    match gr with
    | Ok pts => signSubmitAndReport eng utxos key pts ((t ++ q) ++ [g])%list
    | Err e => (Err e, ((t ++ q) ++ [g])%list)
    end = (r, t') ->
    exists queries tail,
      t' = (t ++ queries ++ tail)%list /\
      forallb isQuery queries = true /\
      sendTail eng sdk config t r tail).
  { intros key utxos priority q gr Hk Hu Hq sender outs change g Hp Hg Hrun.
    assert (Hgen : forall e, r = Err e -> t' = ((t ++ q) ++ [g])%list ->
              exists queries tail,
                t' = (t ++ queries ++ tail)%list /\
                forallb isQuery queries = true /\
                sendTail eng sdk config t r tail).
    { intros e -> ->. exists q, [g]. split; [now rewrite <- !app_assoc|].
      split; [exact Hq|]. right. exists key, utxos, priority.
      split; [exact Hk|]. split; [exact Hu|]. split; [exact Hp|].
      left. eauto. }
    destruct gr as [pts|e]; [|injection Hrun as <- <-; now eapply Hgen].
    apply signSubmitAndReport_trace in Hrun.
    destruct r as [res|e].
    - destruct Hrun as (ptx & rest & -> & -> & Hid).
      exists q, [g; CallSubmitTransaction (transaction ptx)].
      split; [now rewrite <- !app_assoc|]. split; [exact Hq|].
      right. exists key, utxos, priority. split; [exact Hk|].
      split; [exact Hu|]. split; [exact Hp|]. right. exists ptx, rest. auto.
    - destruct Hrun as [->|(ptx & rest & -> & -> & Hs)];
        [now eapply Hgen|].
      exists q, [g; CallSubmitTransaction (transaction ptx)].
      split; [now rewrite <- !app_assoc|]. split; [exact Hq|].
      right. exists key, utxos, priority. split; [exact Hk|].
      split; [exact Hu|]. split; [exact Hp|]. right. exists ptx, rest. auto. }
  revert Htail.
  unfold sendTransaction, sendTransactionWithCustomFee.
  destruct (customTotalFee config) as [custom|]; intros Htail;
    (destruct (rpcClient sdk); cbn [negb];
     [|run_step; intros H; apply (Hfail [] notInitialized eq_refl);
       now rewrite app_nil_r]).
  - unfold mbind, Eng_bind. unfold bind at 1.
    destruct (senderKeyOf sdk config t) as [[key|e] t0] eqn:Hk;
      apply senderKeyOf_trace in Hk as Ht0; subst t0.
    2:{ intros H. apply (Hfail [] e eq_refl). now rewrite app_nil_r. }
    unfold bind at 1. unfold call at 1.
    destruct (rpc_getUTXOs eng _) as [utxos|e] eqn:Hu.
    2:{ intros H. refine (Hfail _ _ _ H); reflexivity. }
    destruct (length utxos =? 0)%nat.
    { run_step. intros H. refine (Hfail _ _ _ H); reflexivity. }
    unfold bind at 1.
    destruct (estimateFee eng sdk _ _ _ _) as [[est|e] t1] eqn:He.
    2:{ apply estimateFee_queries in He as (ext & -> & Hq).
        intros H. rewrite <- app_assoc in H.
        refine (Hfail _ _ _ H). exact Hq. }
    pose proof He as He'.
    apply estimateFee_queries in He as (ext & -> & Hq).
    unfold bind at 1. unfold call at 1. intros Hrun.
    rewrite <- (app_assoc t [_] ext) in Hrun.
    refine (Htail key utxos (customPriorityFee custom (baseFee est))
              (CallGetUTXOs (pk_toAddress eng key (networkType sdk)) :: ext)
              _ eq_refl Hu Hq _ eq_refl _).
    + eexists est, _. rewrite He'. split; reflexivity.
    + destruct (tb_buildWithGenerator eng utxos _ _ _ _); exact Hrun.
  - unfold mbind, Eng_bind. unfold bind at 1.
    destruct (senderKeyOf sdk config t) as [[key|e] t0] eqn:Hk;
      apply senderKeyOf_trace in Hk as Ht0; subst t0.
    2:{ intros H. apply (Hfail [] e eq_refl). now rewrite app_nil_r. }
    unfold bind at 1. unfold call at 1.
    destruct (rpc_getUTXOs eng _) as [utxos|e] eqn:Hu.
    2:{ intros H. refine (Hfail _ _ _ H); reflexivity. }
    destruct (length utxos =? 0)%nat.
    { run_step. intros H. refine (Hfail _ _ _ H); reflexivity. }
    unfold bind at 1. unfold call at 1. intros Hrun.
    refine (Htail key utxos (priorityFeeOrZero (priorityFee config))
              [CallGetUTXOs (pk_toAddress eng key (networkType sdk))]
              _ eq_refl Hu eq_refl eq_refl eq_refl _).
    destruct (tb_buildWithGenerator eng utxos _ _ _ _); exact Hrun.
Qed.





Lemma submitted_app t1 t2 :
  submitted (t1 ++ t2) = (submitted t1 ++ submitted t2)%list.
Proof. unfold submitted. apply flat_map_app. Qed.

Lemma submitted_queries q : forallb isQuery q = true -> submitted q = [].
Proof.
  induction q as [|c q IH]; [reflexivity|]. cbn [forallb].
  intros H. apply andb_true_iff in H as [Hc Hq].
  change (c :: q) with ([c] ++ q)%list. rewrite submitted_app, (IH Hq). destruct c; try discriminate Hc; reflexivity.
Qed.

Lemma generatorCalls_app t1 t2 :
  generatorCalls (t1 ++ t2) = (generatorCalls t1 ++ generatorCalls t2)%list.
Proof. unfold generatorCalls. apply List.filter_app. Qed.

Lemma generatorCalls_queries q :
  forallb isQuery q = true -> generatorCalls q = [].
Proof.
  induction q as [|c q IH]; [reflexivity|]. cbn [forallb].
  intros H. apply andb_true_iff in H as [Hc Hq].
  unfold generatorCalls in *. cbn [List.filter]. rewrite (IH Hq).
  destruct c; try discriminate Hc; reflexivity.
Qed.



End SdkSend.

Section SendHandlers.
Import Server Queries Observations.
Local Open Scope string_scope.



(** X17. The search for the sender's key finds a key exactly when some
    index of the range gives a key whose address is the requested one and
    every earlier index gives a key with another address; the key found is
    the one at the first such index, and an index that fails ends the
    search. *)
Theorem findSenderKey_first_match eng sdk wallet from n key : forall start,
  findSenderKey eng sdk wallet from (seq start n) = Some key <->
  exists i,
    (start <= i < start + n)%nat /\
    Sdk.getReceivePrivateKey wallet i = Sdk.Ok key /\
    Sdk.pk_toAddress eng key (Sdk.networkType sdk) = from /\
    forall j, (start <= j < i)%nat ->
      exists other,
        Sdk.getReceivePrivateKey wallet j = Sdk.Ok other /\
        Sdk.pk_toAddress eng other (Sdk.networkType sdk) <> from.
Proof.
  induction n as [|n IH]; intros start; cbn [seq findSenderKey].
  - split; [discriminate|]. intros (i & Hi & _). lia.
  - destruct (Sdk.getReceivePrivateKey wallet start) as [k|e] eqn:Hk.
    + destruct (String.eqb_spec
                  (Sdk.pk_toAddress eng k (Sdk.networkType sdk)) from)
        as [Heq|Hne].
      * split.
        -- intros [= ->]. exists start.
           repeat split; try lia; try assumption; intros j Hj; lia.
        -- intros (i & Hi & Hki & Ha & Hbefore).
           destruct (decide (i = start)) as [->|Hn]; [congruence|].
           destruct (Hbefore start) as (o & Ho & Hno); [lia|]. congruence.
      * rewrite IH. split.
        -- intros (i & Hi & Hki & Ha & Hbefore). exists i.
           repeat split; try lia; try assumption.
           intros j Hj. destruct (decide (j = start)) as [->|Hn]; [eauto|].
           apply Hbefore. lia.
        -- intros (i & Hi & Hki & Ha & Hbefore).
           destruct (decide (i = start)) as [->|Hn]; [congruence|].
           exists i. repeat split; try lia; try assumption.
           intros j Hj. apply Hbefore. lia.
    + split; [discriminate|].
      intros (i & Hi & Hki & Ha & Hbefore).
      destruct (decide (i = start)) as [->|Hn]; [congruence|].
      destruct (Hbefore start) as (o & Ho & _); [lia|]. congruence.
Qed.

Lemma getBalance_trace eng sdk address t r t' :
  Sdk.getBalance eng sdk address t = (r, t') ->
  exists ext,
    t' = (t ++ ext)%list /\ forallb isQuery ext = true /\
    (forall b, r = Sdk.Ok b -> Sdk.rpc_getBalance eng address = Sdk.Ok b).
Proof.
  unfold Sdk.getBalance. destruct (Sdk.rpcClient sdk); cbn [negb].
  - unfold Sdk.call. intros [= <- <-]. exists [Sdk.CallGetBalance address].
    repeat split. intros b ->. reflexivity.
  - unfold Sdk.throw. intros [= <- <-]. exists []. rewrite app_nil_r.
    repeat split. discriminate.
Qed.

(** X18. A send from the wallet either fails without calling the generator
    or submitting anything, or it calls the generator exactly once, with
    the key at the requested index, after the balance of its address
    covered the amount plus the fee; the generator receives all the entries
    of that address and sends the change to it, and its priority fee is the
    fee of the tier, or the custom fee less the base fee. *)
Theorem send_from_wallet_generator_call eng sompiToKas st args sdk wallet
    t out t' :
  sdkInstances st !! normalizeSessionId (w_sessionId args) = Some sdk ->
  walletInstances st !! normalizeSessionId (w_sessionId args) = Some wallet ->
  handleSendFromWallet eng sompiToKas st args t = (out, t') ->
  exists ext,
    t' = (t ++ ext)%list /\
    ((generatorCalls ext = [] /\ submitted ext = [] /\
      exists code m, out = McpError code m) \/
     exists key amountSompi fee bal utxos priority,
       Sdk.getReceivePrivateKey wallet (default 0%nat (w_addressIndex args))
         = Sdk.Ok key /\
       let sender := Sdk.pk_toAddress eng key (Sdk.networkType sdk) in
       Sdk.rpc_getBalance eng sender = Sdk.Ok bal /\
       (amountSompi + fee <= Sdk.balance bal)%Z /\
       Sdk.rpc_getUTXOs eng sender = Sdk.Ok utxos /\
       generatorCalls ext
       = [Sdk.CallBuildWithGenerator utxos
            [ {| Sdk.po_address := w_to args; Sdk.po_amount := amountSompi |} ]
            sender priority
            (if Js.truthy (w_payload args) then w_payload args else None)] /\
       (length (submitted ext) <= 1)%nat /\
       exists est t0,
         fst (Sdk.estimateFee eng sdk sender (w_to args) amountSompi t0)
           = Sdk.Ok est /\
         if Js.truthy (w_customFee args)
         then priority = Sdk.customPriorityFee fee (Sdk.baseFee est)
         else fee = tierPriorityFee (default "normal" (w_feePriority args))
                      (Sdk.baseFee est) /\
              priority = fee).
Proof.
  intros Hsdk Hwal. unfold handleSendFromWallet. rewrite Hsdk, Hwal.
  unfold catchInternal.
  match goal with |- (match ?body t with _ => _ end) = _ -> _ =>
    destruct (body t) as [r t1] eqn:Hbody end.
  intros Hout.
  match goal with |- @ex _ ?F => set (Run := F) end.
  assert (Hstop : forall q e,
            forallb isQuery q = true -> r = Sdk.Err e -> t1 = (t ++ q)%list ->
            ex Run).
  { intros q e Hq -> ->. injection Hout as <- <-. exists q.
    split; [reflexivity|]. left.
    rewrite generatorCalls_queries, submitted_queries by exact Hq. eauto. }
  revert Hbody. unfold mbind, Sdk.Eng_bind. unfold Sdk.bind at 1.
  destruct (amountToSompi eng _ (w_amount args) t) as [[amountSompi|e] ta]
    eqn:Ha; apply amountToSompi_trace in Ha as Hta; subst ta.
  2:{ intros [= <- <-]. apply (Hstop [] e eq_refl eq_refl).
      now rewrite app_nil_r. }
  unfold Sdk.bind at 1. unfold Sdk.lift at 1.
  destruct (Sdk.getReceivePrivateKey wallet _) as [key|e] eqn:Hkey.
  2:{ intros [= <- <-]. apply (Hstop [] e eq_refl eq_refl).
      now rewrite app_nil_r. }
  set (sender := Sdk.pk_toAddress eng key (Sdk.networkType sdk)) in *.
  unfold Sdk.bind at 1.
  match goal with |- (match ?m t with _ => _ end) = _ -> _ =>
    destruct (m t) as [[fee|e] tf] eqn:Hfee end.
  2:{ intros [= <- <-].
      destruct (Js.truthy (w_customFee args)).
      - apply customFeeToSompi_trace in Hfee as ->.
        apply (Hstop [] e eq_refl eq_refl). now rewrite app_nil_r.
      - revert Hfee. unfold mbind, Sdk.Eng_bind, Sdk.bind.
        destruct (Sdk.estimateFee eng sdk sender (w_to args) amountSompi t)
          as [[est|e'] te] eqn:He; [discriminate|].
        apply estimateFee_queries in He as (q & -> & Hq).
        intros [= -> <-]. now apply (Hstop q e). }
  assert (Hfee' : exists qf,
            tf = (t ++ qf)%list /\ forallb isQuery qf = true /\
            (Js.truthy (w_customFee args) = false ->
             exists est t0,
               fst (Sdk.estimateFee eng sdk sender (w_to args) amountSompi t0)
                 = Sdk.Ok est /\
               fee = tierPriorityFee (default "normal" (w_feePriority args))
                       (Sdk.baseFee est))).
  { destruct (Js.truthy (w_customFee args)).
    - apply customFeeToSompi_trace in Hfee as ->. exists [].
      rewrite app_nil_r. repeat split. discriminate.
    - revert Hfee. unfold mbind, Sdk.Eng_bind, Sdk.bind.
      destruct (Sdk.estimateFee eng sdk sender (w_to args) amountSompi t)
        as [[est|e'] te] eqn:He; [|discriminate].
      pose proof He as He'.
      apply estimateFee_queries in He as (q & -> & Hq).
      unfold mret, Sdk.Eng_ret, Sdk.ret. intros [= <- <-].
      exists q. repeat split; [exact Hq|]. intros _.
      exists est, t. rewrite He'. split; reflexivity. }
  destruct Hfee' as (qf & -> & Hqf & Htier). clear Hfee.
  unfold Sdk.bind at 1.
  destruct (Sdk.getBalance eng sdk sender (t ++ qf)%list) as [[bal|e] tb] eqn:Hb;
    apply getBalance_trace in Hb as (qb & -> & Hqb & Hbal).
  2:{ intros [= <- <-]. apply (Hstop (qf ++ qb)%list e);
        [|reflexivity|now rewrite app_assoc].
      now rewrite forallb_app, Hqf, Hqb. }
  specialize (Hbal bal eq_refl).
  destruct (Sdk.balance bal <? amountSompi + fee)%Z eqn:Hlt.
  { unfold Sdk.throw. intros [= <- <-]. eapply (Hstop (qf ++ qb)%list);
      [|reflexivity|now rewrite app_assoc].
    now rewrite forallb_app, Hqf, Hqb. }
  apply Z.ltb_ge in Hlt.
  unfold Sdk.bind at 1.
  match goal with |- context [Sdk.sendTransaction eng sdk ?c ?tt] =>
    destruct (Sdk.sendTransaction eng sdk c tt) as [rs ts] eqn:Hsend;
    set (config := c) in * end.
  apply sendTransaction_shape in Hsend as (qs & tail & -> & Hqs & Htail).
  intros Hr.
  assert (Hrr : match rs with
                | Sdk.Ok _ => exists reply, r = Sdk.Ok reply
                | Sdk.Err e => r = Sdk.Err e
                end /\ t1 = (((t ++ qf) ++ qb) ++ qs ++ tail)%list).
  { destruct rs; unfold mret, Sdk.Eng_ret, Sdk.ret in Hr;
      injection Hr as <- <-; eauto. }
  destruct Hrr as [Hrs ->]. clear Hr.
  destruct Htail as [[-> [e ->]]|(k & utxos & priority & Hk & Hu & Hp & Htail)].
  { eapply (Hstop ((qf ++ qb) ++ qs)%list e);
      [|exact Hrs|now rewrite app_nil_r, !app_assoc].
    now rewrite !forallb_app, Hqf, Hqb, Hqs. }
  cbn in Hk. injection Hk as <-. fold sender in Hu, Hp, Htail.
  cbn [Sdk.customTotalFee Sdk.priorityFee Sdk.to Sdk.amount Sdk.changeAddress
       Sdk.payload config default] in Hp, Htail.
  exists (((qf ++ qb) ++ qs) ++ tail)%list.
  split.
  { destruct rs; [destruct Hrs as [reply ->]|rewrite Hrs in Hout];
      injection Hout as _ <-; now rewrite !app_assoc. }
  right. exists key, amountSompi, fee, bal, utxos, priority.
  split; [reflexivity|]. cbn zeta. fold sender.
  split; [exact Hbal|]. split; [lia|]. split; [exact Hu|].
  assert (Hq3 : forallb isQuery ((qf ++ qb) ++ qs) = true)
    by now rewrite !forallb_app, Hqf, Hqb, Hqs.
  rewrite generatorCalls_app, submitted_app,
    (generatorCalls_queries _ Hq3), (submitted_queries _ Hq3).
  cbn [app].
  assert (Hpay : Sdk.payloadOf config
                 = if Js.truthy (w_payload args) then w_payload args else None)
    by reflexivity.
  rewrite Hpay in Htail.
  split; [|split].
  - destruct Htail as [[-> _]|(ptx & rest & _ & -> & _)]; reflexivity.
  - destruct Htail as [[-> _]|(ptx & rest & _ & -> & _)]; cbn; lia.
  - destruct (Js.truthy (w_customFee args)) eqn:Hc.
    + destruct Hp as (est & t0 & He & ->). exists est, t0. auto.
    + destruct (Htier eq_refl) as (est & t0 & He & ->).
      exists est, t0. split; [exact He|]. split; [reflexivity|exact Hp].
Qed.

End SendHandlers.

Section SubscriptionRuns.
Import Server Queries Observations Spec.
Local Open Scope string_scope.

(** What [handleSubscribeBalance] does on a connected session. *)
Lemma subscribe_run eng args st t session sdk :
  sessionIdOrDefault (s_sessionId args) = session ->
  sdkInstances st !! session = Some sdk ->
  match addressesToMonitor st session args with
  | Sdk.Err e =>
      handleSubscribeBalance eng args st t
      = (McpError InternalError
           ("Failed to subscribe to balance changes: " ++ e), st, t)
  | Sdk.Ok monitor =>
      let ref := fresh (dom (subscriptionObjects st)) in
      let h := {| Sdk.capturedSession := session;
                  Sdk.capturedSubscription := ref |} in
      exists balances t1,
        let sub listener :=
          {| addresses := Sdk.setOfList monitor;
             includeTransactions := default true (s_includeTransactions args);
             lastBalances := balances;
             eventListener := listener |} in
        handleSubscribeBalance eng args st t
        = match Sdk.subscribeToAddresses eng sdk monitor t1 with
          | (Sdk.Err e, t2) =>
              (McpError InternalError
                 ("Failed to subscribe to balance changes: " ++ e),
               setSubscriptionObject ref (sub None) st, t2)
          | (Sdk.Ok _, t2) =>
              (Returned monitor,
               setSubscriptionInstances
                 (<[session := ref]> (subscriptionInstances st))
                 (setSubscriptionObject ref (sub (Some h))
                    (setSdk session
                       (Sdk.on "balance:changed" h
                          (Sdk.on "transaction:spent" h
                             (Sdk.on "transaction:incoming" h sdk))) st)),
               t2)
          end
  end.
Proof.
  intros Hsid Hsdk.
  assert (Hm : forall (k : list string -> Srv (list string)),
    sbind (match s_addresses args with
           | Some (a :: rest) => mret (a :: rest)
           | _ => match walletInstances st !! session with
                  | Some wallet => mret (probeAddresses wallet (seq 0 5))
                  | None =>
                      sthrow "No addresses specified and no wallet available"
                  end
           end) k st t
    = match addressesToMonitor st session args with
      | Sdk.Ok monitor => k monitor st t
      | Sdk.Err e => (Sdk.Err e, st, t)
      end).
  { intros k. unfold sbind, addressesToMonitor.
    destruct (s_addresses args) as [[|a rest]|]; try reflexivity;
      destruct (walletInstances st !! session); reflexivity. }
  destruct (addressesToMonitor st session args) as [monitor|e] eqn:Hmon.
  2:{ unfold handleSubscribeBalance. rewrite Hsid, Hsdk.
      unfold catchInternalSrv, mbind, Srv_bind. rewrite Hm. reflexivity. }
  cbn zeta. set (ref := fresh (dom (subscriptionObjects st))).
  destruct (initialBalances_run eng sdk ref monitor
              {| addresses := Sdk.setOfList monitor;
                 includeTransactions :=
                   default true (s_includeTransactions args);
                 lastBalances := ∅;
                 eventListener := None |} st t)
    as (balances & t1 & Hinit).
  exists balances, t1.
  unfold handleSubscribeBalance. rewrite Hsid, Hsdk.
  unfold catchInternalSrv, mbind, Srv_bind. rewrite Hm.
  unfold sbind at 1. fold ref. unfold sbind at 1. rewrite Hinit.
  cbn [addresses includeTransactions eventListener].
  unfold sbind at 1. unfold engine at 1.
  destruct (Sdk.subscribeToAddresses eng sdk monitor t1) as [[[]|e] t2];
    [|reflexivity].
  unfold sbind, update, mret, Srv_ret, sret.
  cbn [sdkInstances subscriptionObjects subscriptionInstances
       setSubscriptionObject setSdk setSubscriptionInstances].
  rewrite Hsdk.
  cbn [sdkInstances subscriptionObjects subscriptionInstances
       setSubscriptionObject setSdk setSubscriptionInstances].
  rewrite lookup_insert_eq.
  cbn [sdkInstances subscriptionObjects subscriptionInstances walletInstances
       console setSubscriptionObject setSdk setSubscriptionInstances
       addresses includeTransactions lastBalances].
  unfold setSubscriptionInstances, setSubscriptionObject, setSdk.
  cbn [sdkInstances subscriptionObjects subscriptionInstances walletInstances
       console].
  rewrite insert_insert_eq. reflexivity.
Qed.

(** X19. A subscribe request that fails leaves the connections, the
    wallets, the registry of subscriptions and the output as they were, and
    every subscription object that existed is unchanged. *)
Theorem subscribe_failure_keeps_registry eng args st t code message st' t' :
  handleSubscribeBalance eng args st t = (McpError code message, st', t') ->
  sdkInstances st' = sdkInstances st /\
  walletInstances st' = walletInstances st /\
  subscriptionInstances st' = subscriptionInstances st /\
  console st' = console st /\
  forall ref sub,
    subscriptionObjects st !! ref = Some sub ->
    subscriptionObjects st' !! ref = Some sub.
Proof.
  destruct (sdkInstances st !! sessionIdOrDefault (s_sessionId args))
    as [sdk|] eqn:Hsdk.
  2:{ unfold handleSubscribeBalance. rewrite Hsdk. intros [= _ _ <- _].
      repeat split; auto. }
  pose proof (subscribe_run eng args st t _ sdk eq_refl Hsdk) as Hrun.
  destruct (addressesToMonitor st _ args) as [monitor|e].
  2:{ rewrite Hrun. intros [= _ _ <- _]. repeat split; auto. }
  cbn zeta in Hrun. destruct Hrun as (balances & t1 & ->).
  destruct (Sdk.subscribeToAddresses eng sdk monitor t1) as [[[]|e] t2];
    [discriminate|].
  intros [= _ _ <- _]. cbn. repeat split.
  intros ref sub Hobj. rewrite lookup_insert_ne; [exact Hobj|].
  intros <-.
  pose proof (is_fresh (dom (subscriptionObjects st))) as Hfresh.
  apply Hfresh. apply elem_of_dom. eauto.
Qed.

Lemma handlersFor_on_second ev (h h' : Sdk.Listener) sdk :
  h' <> h -> Sdk.handlersFor ev sdk = [h] ->
  Sdk.handlersFor ev (Sdk.on ev h' sdk) = [h; h'].
Proof.
  intros Hne Hh. apply handlersFor_Some in Hh.
  unfold Sdk.handlersFor, Sdk.on. cbn [Sdk.withListeners Sdk.eventListeners].
  rewrite lookup_insert_eq, Hh. cbn [default]. unfold Datatypes.id.
  unfold Sdk.setAdd. destruct (decide (h' ∈ [h])) as [Hin|]; [|reflexivity].
  apply list_elem_of_singleton in Hin. contradiction.
Qed.

(** X20. A second subscribe on a session that is already subscribed
    installs a new subscription object in the registry and a second
    listener beside the first, which stays registered with its own object:
    an event for an address both monitor is notified twice. *)
Theorem resubscribe_adds_a_listener eng args st t session ref sub h
    addrs st' t' :
  sessionIdOrDefault (s_sessionId args) = session ->
  Subscribed st session ref sub h ->
  handleSubscribeBalance eng args st t = (Returned addrs, st', t') ->
  exists ref' sdk' sub',
    ref' <> ref /\
    subscriptionInstances st' !! session = Some ref' /\
    subscriptionObjects st' !! ref' = Some sub' /\
    addresses sub' = Sdk.setOfList addrs /\
    subscriptionObjects st' !! ref = Some sub /\
    sdkInstances st' !! session = Some sdk' /\
    Forall (fun ev =>
              Sdk.handlersFor ev sdk'
              = [h; {| Sdk.capturedSession := session;
                       Sdk.capturedSubscription := ref' |}])
      balanceEvents /\
    forall ev data a,
      In ev balanceEvents -> ev_address data = Some a -> a <> "" ->
      a ∈ addresses sub -> a ∈ addresses sub' ->
      exists n1 n2,
        console (emit session ev data st') = (console st' ++ [n1; n2])%list /\
        n_address n1 = a /\ n_address n2 = a.
Proof.
  intros Hsid (sdk & Hsdk & Hreg & Hobj & Hl & Hh & Hhs & Hne) Hrun.
  pose proof (subscribe_run eng args st t session sdk Hsid Hsdk) as Hshape.
  destruct (addressesToMonitor st session args) as [monitor|e];
    [|rewrite Hshape in Hrun; discriminate].
  cbn zeta in Hshape. destruct Hshape as (balances & t1 & Hshape).
  rewrite Hshape in Hrun. clear Hshape.
  destruct (Sdk.subscribeToAddresses eng sdk monitor t1) as [[[]|e] t2];
    [|discriminate].
  injection Hrun as <- <- <-.
  set (ref' := fresh (dom (subscriptionObjects st))).
  set (h' := {| Sdk.capturedSession := session;
                Sdk.capturedSubscription := ref' |}).
  assert (Hfresh : ref' <> ref).
  { intros E. pose proof (is_fresh (dom (subscriptionObjects st))) as Hf.
    apply Hf. fold ref'. rewrite E. apply elem_of_dom. eauto. }
  assert (Hh' : h' <> h) by (subst h; intros [= E]; contradiction).
  set (sub' := {| addresses := Sdk.setOfList monitor;
                  includeTransactions :=
                    default true (s_includeTransactions args);
                  lastBalances := balances;
                  eventListener := Some h' |}).
  set (sdk' := Sdk.on "balance:changed" h'
                 (Sdk.on "transaction:spent" h'
                    (Sdk.on "transaction:incoming" h' sdk))).
  assert (Hhs' : Forall (fun ev => Sdk.handlersFor ev sdk' = [h; h'])
                   balanceEvents).
  { unfold balanceEvents in *.
    apply Forall_cons in Hhs as [H1 Hhs].
    apply Forall_cons in Hhs as [H2 Hhs].
    apply Forall_cons in Hhs as [H3 _].
    unfold sdk'. repeat constructor.
    - rewrite !handlersFor_on_other by discriminate.
      now apply handlersFor_on_second.
    - rewrite handlersFor_on_other by discriminate.
      apply handlersFor_on_second; [exact Hh'|].
      now rewrite handlersFor_on_other by discriminate.
    - apply handlersFor_on_second; [exact Hh'|].
      now rewrite !handlersFor_on_other by discriminate. }
  exists ref', sdk', sub'.
  split; [exact Hfresh|]. cbn.
  split; [apply lookup_insert_eq|]. split; [apply lookup_insert_eq|].
  split; [reflexivity|].
  split; [rewrite lookup_insert_ne by exact Hfresh; exact Hobj|].
  split; [apply lookup_insert_eq|]. split; [exact Hhs'|].
  intros ev data a Hev Ha Hane Hin Hin'.
  unfold emit. cbn [sdkInstances setSubscriptionInstances
                    setSubscriptionObject setSdk].
  rewrite lookup_insert_eq, (In_balanceEvents ev _ Hhs' Hev).
  cbn [fold_left]. unfold invoke at 2.
  cbn [subscriptionObjects setSubscriptionInstances setSubscriptionObject
       setSdk].
  subst h. cbn [Sdk.capturedSubscription Sdk.capturedSession].
  rewrite lookup_insert_ne by exact Hfresh. rewrite Hobj.
  destruct (handleBalanceChangeEvent_monitored session data sub a Ha Hane Hin)
    as (n1 & -> & Hn1 & _).
  unfold invoke. cbn [print subscriptionObjects Sdk.capturedSubscription
                      Sdk.capturedSession h'].
  unfold setSubscriptionInstances, setSubscriptionObject.
  cbn [subscriptionObjects]. rewrite lookup_insert_eq.
  destruct (handleBalanceChangeEvent_monitored session data sub' a Ha Hane Hin')
    as (n2 & -> & Hn2 & _).
  exists n1, n2. cbn [print console]. rewrite <- app_assoc.
  split; [reflexivity|]. split; assumption.
Qed.

(** X21. When the node's answer makes an unsubscribe request fail, the
    addresses have already been taken out of the monitored set; the
    registry entry and the listener stay, and events for the removed
    addresses are no longer notified. *)
Theorem unsubscribe_engine_failure eng args st t session ref sub h
    code message st' t' :
  sessionIdOrDefault (u_sessionId args) = session ->
  Subscribed st session ref sub h ->
  handleUnsubscribeBalance eng args st t = (McpError code message, st', t') ->
  let targets := unsubscribeTargets args sub in
  let remaining := removeAddresses targets sub in
  targets <> [] /\
  st' = setSubscriptionObject ref remaining st /\
  (forall a, a ∈ addresses remaining <-> a ∈ addresses sub /\ a ∉ targets) /\
  (exists sdk,
     sdkInstances st' !! session = Some sdk /\
     Forall (fun ev => Sdk.handlersFor ev sdk = [h]) balanceEvents) /\
  subscriptionInstances st' !! session = Some ref /\
  forall ev data a,
    In ev balanceEvents -> ev_address data = Some a -> a ∈ targets ->
    emit session ev data st' = st'.
Proof.
  intros Hsid (sdk & Hsdk & Hreg & Hobj & Hl & Hh & Hhs & Hne).
  rewrite (unsubscribe_run eng args st t session sdk ref sub h
             Hsid Hsdk Hreg Hobj Hl).
  cbn zeta.
  destruct (length (unsubscribeTargets args sub) =? 0)%nat eqn:Hlen;
    [discriminate|].
  destruct (Sdk.unsubscribeFromAddresses eng sdk _ t) as [[[]|e] t1].
  { destruct (length (addresses _) =? 0)%nat; discriminate. }
  intros [= _ _ <- _].
  split. { intros E. rewrite E in Hlen. discriminate. }
  split; [reflexivity|].
  split; [apply removeAddresses_addresses|].
  split; [exists sdk; split; assumption|].
  split; [exact Hreg|].
  intros ev data a Hev Ha Hin.
  unfold emit. cbn [sdkInstances setSubscriptionObject]. rewrite Hsdk.
  rewrite (In_balanceEvents ev _ Hhs Hev). cbn [fold_left].
  unfold invoke. subst h. cbn [Sdk.capturedSubscription Sdk.capturedSession].
  cbn [subscriptionObjects setSubscriptionObject]. rewrite lookup_insert_eq.
  rewrite handleBalanceChangeEvent_outside; [apply print_nil|].
  intros a' Ha'. rewrite Ha in Ha'. injection Ha' as <-.
  rewrite removeAddresses_addresses. tauto.
Qed.

(** X22. For a subscribed session with a live connection the status
    reports the number of monitored addresses, the transaction flag and the
    addresses, and asks the node for the balance of each address in order;
    every balance line shows the node's answer and its difference from the
    balance last recorded, with no difference shown when it is zero. *)
Theorem subscription_status_lists_monitored eng st sessionId session
    ref sub h sdk t :
  sessionIdOrDefault sessionId = session ->
  Subscribed st session ref sub h ->
  sdkInstances st !! session = Some sdk ->
  Sdk.rpcClient sdk = true ->
  exists lines,
    handleGetSubscriptionStatus eng st sessionId t
    = (Returned (Status (length (addresses sub)) (includeTransactions sub)
                   (addresses sub) (Some lines)),
       (t ++ map Sdk.CallGetBalance (addresses sub))%list) /\
    map lineAddress lines = addresses sub /\
    forall address balance change,
      In (CurrentBalance address balance change) lines ->
      exists info,
        Sdk.rpc_getBalance eng address = Sdk.Ok info /\
        balance = Sdk.balance info /\
        change = (let d := (balance
                            - default 0 (lastBalances sub !! address))%Z in
                  if (d =? 0)%Z then None else Some d).
Proof.
  intros Hsid (sdk0 & Hsdk0 & Hreg & Hobj & _ & _ & _ & Hne) Hsdk Hrpc.
  unfold handleGetSubscriptionStatus. rewrite Hsid, Hreg.
  cbn [mbind option_bind]. rewrite Hobj.
  destruct (length (addresses sub) =? 0)%nat eqn:Hlen.
  { apply Nat.eqb_eq in Hlen.
    destruct (addresses sub); [congruence|discriminate]. }
  rewrite Hsdk. unfold catchInternal, mbind, Sdk.Eng_bind.
  assert (Hloop : forall addrs t0,
            exists lines,
              currentBalances eng sdk sub addrs t0
              = (Sdk.Ok lines, (t0 ++ map Sdk.CallGetBalance addrs)%list) /\
              map lineAddress lines = addrs /\
              forall address balance change,
                In (CurrentBalance address balance change) lines ->
                exists info,
                  Sdk.rpc_getBalance eng address = Sdk.Ok info /\
                  balance = Sdk.balance info /\
                  change = (let d := (balance
                              - default 0 (lastBalances sub !! address))%Z in
                            if (d =? 0)%Z then None else Some d)).
  { induction addrs as [|a addrs IH]; intros t0.
    - exists []. cbn. rewrite app_nil_r. repeat split. intros ? ? ? [].
    - cbn [currentBalances]. unfold Sdk.getBalance. rewrite Hrpc.
      cbn [negb]. unfold Sdk.call.
      destruct (IH (t0 ++ [Sdk.CallGetBalance a])%list)
        as (lines & -> & Hmap & Hlines).
      eexists. split; [rewrite <- app_assoc; reflexivity|].
      split; [cbn [map]; f_equal; [|exact Hmap];
              destruct (Sdk.rpc_getBalance eng a); reflexivity|].
      intros address balance change [Hin|Hin]; [|eauto].
      destruct (Sdk.rpc_getBalance eng a) as [info|e] eqn:Hb;
        [|discriminate].
      injection Hin as <- <- <-. exists info. auto. }
  destruct (Hloop (addresses sub) t) as (lines & Hrun & Hmap & Hlines).
  exists lines. unfold Sdk.bind. rewrite Hrun.
  split; [reflexivity|]. split; assumption.
Qed.

End SubscriptionRuns.

Section FeeRecommendations.
Import Server Queries.
Local Open Scope string_scope.

(** X23. In the fee recommendations the normal fee is the base fee of the
    estimate, the low fee is half of it rounded up, the high fee is twice
    it, so low, normal and high are in ascending order, and the minimum
    fee is the mass of the transaction, but at least 1. *)
Theorem fee_recommendations_ordered eng st args t r t' :
  handleGetFeeRecommendations eng st args t = (Returned r, t') ->
  (0 <= normalFee r < 2 ^ 53)%Z ->
  (0 <= transactionMass r < 2 ^ 53)%Z ->
  (exists sdk amountSompi est t0,
     sdkInstances st !! sessionIdOrDefault (e_sessionId args) = Some sdk /\
     Sdk.estimateFee eng sdk (e_from args) (e_to args) amountSompi t0
       = (Sdk.Ok est, t') /\
     normalFee r = Sdk.baseFee est /\
     transactionMass r = Sdk.estimatedMass est) /\
  lowFee r = tierPriorityFee "low" (normalFee r) /\
  normalFee r = tierPriorityFee "normal" (normalFee r) /\
  highFee r = tierPriorityFee "high" (normalFee r) /\
  lowFee r = ((normalFee r + 1) / 2)%Z /\
  highFee r = (2 * normalFee r)%Z /\
  (lowFee r <= normalFee r <= highFee r)%Z /\
  minimumFee r = Z.max 1 (transactionMass r).
Proof.
  unfold handleGetFeeRecommendations.
  destruct (sdkInstances st !! _) as [sdk|] eqn:Hsdk; [|discriminate].
  unfold catchInternal, mbind, Sdk.Eng_bind. unfold Sdk.bind at 1.
  destruct (amountToSompi eng _ (e_amount args) t) as [[amountSompi|e] t0]
    eqn:Ha; [|discriminate].
  unfold Sdk.bind.
  destruct (Sdk.estimateFee eng sdk _ _ amountSompi t0) as [[est|e] t1] eqn:He;
    [|discriminate].
  unfold mret, Sdk.Eng_ret, Sdk.ret. intros [= <- <-].
  cbn [recommend normalFee lowFee highFee minimumFee transactionMass].
  intros Hbase Hmass.
  assert (Hlow : Js.ceilToBigInt
                   (inject_Z (Js.NumberOfBigInt (Sdk.baseFee est)) * (1 # 2))
                 = ((Sdk.baseFee est + 1) / 2)%Z).
  { rewrite NumberOfBigInt_exact by lia. apply Qceiling_half. }
  assert (Hhigh : Js.ceilToBigInt
                    (inject_Z (Js.NumberOfBigInt (Sdk.baseFee est)) * 2)
                  = (2 * Sdk.baseFee est)%Z).
  { rewrite NumberOfBigInt_exact by lia. apply Qceiling_double. }
  split; [exists sdk, amountSompi, est, t0; auto|].
  split; [reflexivity|].
  split.
  { unfold tierPriorityFee. change (feeMultiplierOf "normal") with 1%Q.
    rewrite NumberOfBigInt_exact by lia. symmetry. apply Qceiling_one. }
  split; [reflexivity|].
  split; [exact Hlow|]. split; [exact Hhigh|].
  split.
  { rewrite Hlow, Hhigh. split; [|lia].
    pose proof (Z.div_mod (Sdk.baseFee est + 1) 2 ltac:(lia)) as Hd.
    pose proof (Z.mod_pos_bound (Sdk.baseFee est + 1) 2 ltac:(lia)) as Hm.
    lia. }
  rewrite NumberOfBigInt_exact by lia.
  unfold Js.ceilToBigInt. now rewrite Qceiling_one.
Qed.

End FeeRecommendations.

Section SelectionCompleteness.
Import Utxo Spec.

Lemma take_shift l : forall x k,
  StronglySorted amountDesc (x :: l) -> (k <= length l)%nat ->
  sumAmounts (take k l) <= sumAmounts (take k (x :: l)).
Proof.
  induction l as [|y l IH]; intros x k Hs Hk.
  - cbn in Hk. replace k with 0%nat by lia. rewrite !take_0. lia.
  - destruct k as [|k]; [rewrite !take_0; lia|].
    cbn [take firstn]. rewrite !sumAmounts_cons.
    inversion Hs as [|? ? Hs' Hall]; subst.
    assert (amount y <= amount x).
    { apply Forall_cons in Hall as [Hy _]. exact Hy. }
    specialize (IH y k Hs' ltac:(cbn in Hk; lia)).
    change (firstn k (y :: l)) with (take k (y :: l)).
    change (firstn k l) with (take k l). lia.
Qed.

(** Among the sub-lists of a list in descending order, none has a larger
    sum than the prefix of the same length. *)
Lemma prefix_is_largest l : forall s,
  StronglySorted amountDesc l -> sublist s l ->
  sumAmounts s <= sumAmounts (take (length s) l).
Proof.
  induction l as [|x l IH]; intros s Hs Hsub.
  - apply sublist_nil_r in Hsub as ->. cbn. lia.
  - inversion Hs as [|? ? Hs' Hall]; subst.
    inversion Hsub as [|? s' ? Hsub'|? ? ? Hsub']; subst.
    + cbn [length take firstn]. rewrite !sumAmounts_cons.
      specialize (IH s' Hs' Hsub').
      change (firstn (length s') l) with (take (length s') l). lia.
    + specialize (IH s Hs' Hsub').
      pose proof (take_shift l x (length s) Hs
                    (sublist_length _ _ Hsub')). lia.
Qed.

(** X24. If some non-empty choice among the available entries covers the
    target plus one allowance per chosen entry, [selectUTXOs] returns a
    selection: taking the largest entries first never misses a
    sufficient set. *)
Theorem selectUTXOs_complete avail target feeArg chosen :
  chosen ⊆+ avail -> chosen <> [] ->
  target + Z.of_nat (length chosen) * feePerUtxoOf feeArg
    <= sumAmounts chosen ->
  exists sel, selectUTXOs avail target feeArg = inr sel.
Proof.
  intros Hsub Hne Hcover.
  destruct (selectUTXOs_unfold avail target feeArg)
    as (k & Hk & Hpos & _ & Htot & Hneed & Hshort & Hstop & ->).
  cbv zeta in *.
  set (fee := feePerUtxoOf feeArg) in *.
  set (sorted := Array_sort compareFn avail) in *.
  set (st := selectLoop fee sorted _) in *.
  destruct (ls_totalAmount st <? ls_totalNeeded st) eqn:E; [|eauto].
  exfalso. apply Z.ltb_lt in E.
  assert (Hperm : Permutation sorted avail) by apply Array_sort_perm.
  assert (Hsub' : chosen ⊆+ sorted) by (rewrite Hperm; exact Hsub).
  apply submseteq_sublist_r in Hsub' as (s & Hps & Hsl).
  pose proof (prefix_is_largest sorted s (Array_sort_sorted avail) Hsl) as Hmax.
  rewrite <- (sumAmounts_perm _ _ Hps) in Hmax.
  assert (Hlen : length s = length chosen)
    by (symmetry; apply Permutation_length; exact Hps).
  rewrite Hlen in Hmax.
  assert (Hm : (0 < length chosen <= length sorted)%nat).
  { split; [destruct chosen; [congruence|cbn; lia]|].
    rewrite <- Hlen. apply sublist_length. exact Hsl. }
  assert (Hkn : k = length sorted).
  { destruct (decide (k < length sorted)%nat) as [Hlt|]; [|lia].
    specialize (Hstop Hlt). lia. }
  destruct (decide (length chosen < k)%nat) as [Hlt|Hge].
  - specialize (Hshort (length chosen) ltac:(lia)). lia.
  - assert (length chosen = k) as Heq by lia.
    rewrite Heq in *. lia.
Qed.

End SelectionCompleteness.

Section Connections.
Import Lifecycle.
Local Open Scope string_scope.

Variable wasm : Wallet.Wasm.
Variable eng : Sdk.Engine.
Variable node : Node.
Variable env : Config.Env.

(** Every run of [handleConnect] that does not find the session already
    connected to the network. *)
Lemma handleConnect_run args p :
  let network := default "mainnet" (c_network args) in
  let sessionId := Server.sessionIdOrDefault (c_sessionId args) in
  match sdks p !! sessionId with
  | Some sdk => String.eqb (Sdk.networkType sdk) network
  | None => false
  end = false ->
  let cfg := Config.loadFromEnv env (configuration p) in
  let cleared :=
    setConfiguration cfg
      (setWallets (delete sessionId (wallets p))
         (setSdks (delete sessionId (sdks p)) p)) in
  match newKaspaSDK cfg (Some network) with
  | Sdk.Err e =>
      handleConnect wasm eng node env args p
      = (Server.McpError Server.InternalError
           ("Failed to connect to Kaspa network: " ++ e), cleared)
  | Sdk.Ok sdk0 =>
      match initialize node cfg (c_rpcUrl args) sdk0 with
      | Sdk.Err e =>
          handleConnect wasm eng node env args p
          = (Server.McpError Server.InternalError
               ("Failed to connect to Kaspa network: " ++ e), cleared)
      | Sdk.Ok sdk =>
          exists sdk' newWallet,
            handleConnect wasm eng node env args p
            = (Server.Returned
                 (Connected network
                    (if Js.truthy (c_rpcUrl args) then c_rpcUrl args else None)
                    (match wallets p !! sessionId with
                     | Some old =>
                         Some match recreate wasm old (Sdk.networkType sdk) with
                              | Sdk.Ok w => Wallet.getReceiveAddress eng w 0
                              | Sdk.Err e => Sdk.Err e
                              end
                     | None => None
                     end)),
               setWallets
                 (match newWallet with
                  | Some w => <[sessionId := w]> (delete sessionId (wallets p))
                  | None => delete sessionId (wallets p)
                  end)
                 (setSdks (<[sessionId := sdk']> (delete sessionId (sdks p)))
                    cleared)) /\
            Sdk.networkType sdk' = Sdk.networkType sdk /\
            Sdk.rpcClient sdk' = Sdk.rpcClient sdk /\
            Sdk.eventListeners sdk' = Sdk.eventListeners sdk /\
            Sdk.wallet sdk'
            = match newWallet with
              | Some w => Some (Wallet.view eng w)
              | None => Sdk.wallet sdk
              end /\
            newWallet
            = match wallets p !! sessionId with
              | Some old =>
                  match recreate wasm old (Sdk.networkType sdk) with
                  | Sdk.Ok w => Some w
                  | Sdk.Err _ => None
                  end
              | None => None
              end
      end
  end.
Proof.
  intros network sessionId Hnot cfg cleared.
  unfold handleConnect. fold network sessionId. rewrite Hnot.
  cbn zeta. cbn [configuration setConfiguration setWallets setSdks sdks wallets].
  fold cfg cleared.
  destruct (newKaspaSDK cfg (Some network)) as [sdk0|e]; [|reflexivity].
  destruct (initialize node cfg (c_rpcUrl args) sdk0) as [sdk|e];
    [|reflexivity].
  destruct (wallets p !! sessionId) as [old|]; cbn [fmap option_fmap option_map].
  - unfold createWallet, recreate.
    destruct (Wallet.new wasm _) as [w|e].
    + exists {| Sdk.networkType := Sdk.networkType sdk;
                    Sdk.rpcClient := Sdk.rpcClient sdk;
                    Sdk.wallet := Some (Wallet.view eng w);
                    Sdk.eventListeners := Sdk.eventListeners sdk |}, (Some w).
      split; [|repeat split].
      unfold setWallets, setSdks, cleared, setConfiguration. cbn.
      rewrite insert_insert_eq. reflexivity.
    + exists sdk, None. split; [|repeat split].
      unfold setWallets, setSdks, cleared, setConfiguration. cbn. reflexivity.
  - exists sdk, None. split; [|repeat split].
    unfold setWallets, setSdks, cleared, setConfiguration. cbn. reflexivity.
Qed.

Lemma newKaspaSDK_fresh cfg network sdk :
  newKaspaSDK cfg (Some network) = Sdk.Ok sdk ->
  Sdk.rpcClient sdk = false /\ Sdk.eventListeners sdk = ∅ /\
  Sdk.wallet sdk = None /\
  (exists w, Network.getWasmNetworkType (Sdk.networkType sdk) = Sdk.Ok w) /\
  (network <> "" -> Sdk.networkType sdk = network).
Proof.
  unfold newKaspaSDK.
  destruct (Network.getWasmNetworkType _) as [w|e] eqn:Hw; [|discriminate].
  destruct (Network.getWasmNetworkId _); [|discriminate].
  intros [= <-]. cbn. repeat split; eauto.
  intros Hne. destruct (String.eqb_spec network ""); [contradiction|].
  reflexivity.
Qed.

Lemma initialize_fresh cfg rpcUrl sdk0 sdk :
  Sdk.rpcClient sdk0 = false ->
  initialize node cfg rpcUrl sdk0 = Sdk.Ok sdk ->
  Sdk.networkType sdk = Sdk.networkType sdk0 /\
  Sdk.rpcClient sdk = true /\
  Sdk.eventListeners sdk = Sdk.eventListeners sdk0 /\
  node_connect node (Sdk.networkType sdk0)
    (connectUrl cfg (Sdk.networkType sdk0) rpcUrl) = Sdk.Ok tt.
Proof.
  unfold initialize. intros ->.
  destruct (Network.getWasmNetworkType _); [|discriminate].
  destruct (node_connect node _ _) as [[]|e]; [|discriminate].
  intros [= <-]. cbn. repeat split.
Qed.

(** X25. After a connect request that returned, the same request answers
    that the session is already connected and changes nothing. *)
Theorem connect_is_idempotent args p reply p' :
  default "mainnet" (c_network args) <> "" ->
  handleConnect wasm eng node env args p = (Server.Returned reply, p') ->
  handleConnect wasm eng node env args p'
  = (Server.Returned (AlreadyConnected (default "mainnet" (c_network args))),
     p').
Proof.
  intros Hne Hrun.
  set (network := default "mainnet" (c_network args)) in *.
  set (sessionId := Server.sessionIdOrDefault (c_sessionId args)).
  assert (Hdone : forall q,
            match sdks q !! sessionId with
            | Some sdk => String.eqb (Sdk.networkType sdk) network
            | None => false
            end = true ->
            handleConnect wasm eng node env args q
            = (Server.Returned (AlreadyConnected network), q)).
  { intros q Hq. unfold handleConnect. fold network sessionId.
    rewrite Hq. reflexivity. }
  destruct (match sdks p !! sessionId with
            | Some sdk => String.eqb (Sdk.networkType sdk) network
            | None => false
            end) eqn:Hnot.
  { rewrite (Hdone p Hnot) in Hrun. injection Hrun as _ <-.
    apply Hdone. exact Hnot. }
  pose proof (handleConnect_run args p Hnot) as Hshape.
  cbn zeta in Hshape. fold network sessionId in Hshape.
  destruct (newKaspaSDK _ (Some network)) as [sdk0|e] eqn:Hnew;
    [|rewrite Hshape in Hrun; discriminate].
  destruct (initialize node _ (c_rpcUrl args) sdk0) as [sdk|e] eqn:Hinit;
    [|rewrite Hshape in Hrun; discriminate].
  destruct Hshape as (sdk' & newWallet & Heq & Hnet & _).
  rewrite Heq in Hrun. injection Hrun as _ <-.
  apply Hdone. cbn [sdks setWallets setSdks]. rewrite lookup_insert_eq.
  apply newKaspaSDK_fresh in Hnew as (Hrpc & _ & _ & _ & Hn).
  apply (initialize_fresh _ _ _ _ Hrpc) in Hinit as (Hn' & _).
  rewrite Hnet, Hn', (Hn Hne). apply String.eqb_refl.
Qed.

(** X26. A connect request that fails reports an internal error and leaves
    the session with neither connection nor wallet, also when it had both
    before; the subscriptions are untouched and the configuration is the
    one reloaded from the environment. *)
Theorem connect_failure_drops_session args p code message p' :
  handleConnect wasm eng node env args p
    = (Server.McpError code message, p') ->
  let sessionId := Server.sessionIdOrDefault (c_sessionId args) in
  code = Server.InternalError /\
  sdks p' = delete sessionId (sdks p) /\
  wallets p' = delete sessionId (wallets p) /\
  sdks p' !! sessionId = None /\
  wallets p' !! sessionId = None /\
  subscriptions p' = subscriptions p /\
  objects p' = objects p /\
  configuration p' = Config.loadFromEnv env (configuration p).
Proof.
  intros Hrun sessionId.
  set (network := default "mainnet" (c_network args)).
  destruct (match sdks p !! sessionId with
            | Some sdk => String.eqb (Sdk.networkType sdk) network
            | None => false
            end) eqn:Hnot.
  { unfold handleConnect in Hrun. fold network sessionId in Hrun.
    rewrite Hnot in Hrun. discriminate. }
  pose proof (handleConnect_run args p Hnot) as Hshape.
  cbn zeta in Hshape. fold network sessionId in Hshape.
  assert (Hgoal : forall e,
    handleConnect wasm eng node env args p
    = (Server.McpError Server.InternalError
         ("Failed to connect to Kaspa network: " ++ e),
       setConfiguration (Config.loadFromEnv env (configuration p))
         (setWallets (delete sessionId (wallets p))
            (setSdks (delete sessionId (sdks p)) p))) ->
    code = Server.InternalError /\
    sdks p' = delete sessionId (sdks p) /\
    wallets p' = delete sessionId (wallets p) /\
    sdks p' !! sessionId = None /\
    wallets p' !! sessionId = None /\
    subscriptions p' = subscriptions p /\
    objects p' = objects p /\
    configuration p' = Config.loadFromEnv env (configuration p)).
  { intros e He. rewrite He in Hrun. injection Hrun as <- _ <-. cbn.
    repeat split; apply lookup_delete_eq. }
  destruct (newKaspaSDK _ (Some network)) as [sdk0|e]; [|now apply (Hgoal e)].
  destruct (initialize node _ (c_rpcUrl args) sdk0) as [sdk|e];
    [|now apply (Hgoal e)].
  destruct Hshape as (sdk' & newWallet & Heq & _).
  rewrite Heq in Hrun. discriminate.
Qed.

(** A run of [handleConnect] that connects. *)
Lemma handleConnect_connected args p n c note p' :
  handleConnect wasm eng node env args p
    = (Server.Returned (Connected n c note), p') ->
  let network := default "mainnet" (c_network args) in
  let sessionId := Server.sessionIdOrDefault (c_sessionId args) in
  let cfg := Config.loadFromEnv env (configuration p) in
  exists sdk0 sdk sdk',
    newKaspaSDK cfg (Some network) = Sdk.Ok sdk0 /\
    initialize node cfg (c_rpcUrl args) sdk0 = Sdk.Ok sdk /\
    sdks p' = <[sessionId := sdk']> (delete sessionId (sdks p)) /\
    Sdk.networkType sdk' = Sdk.networkType sdk /\
    Sdk.rpcClient sdk' = Sdk.rpcClient sdk /\
    Sdk.eventListeners sdk' = Sdk.eventListeners sdk /\
    Sdk.wallet sdk'
    = match wallets p' !! sessionId with
      | Some w => Some (Wallet.view eng w)
      | None => None
      end /\
    wallets p'
    = match wallets p !! sessionId with
      | Some old =>
          match recreate wasm old (Sdk.networkType sdk) with
          | Sdk.Ok w => <[sessionId := w]> (delete sessionId (wallets p))
          | Sdk.Err _ => delete sessionId (wallets p)
          end
      | None => delete sessionId (wallets p)
      end /\
    note
    = match wallets p !! sessionId with
      | Some old =>
          Some match recreate wasm old (Sdk.networkType sdk) with
               | Sdk.Ok w => Wallet.getReceiveAddress eng w 0
               | Sdk.Err e => Sdk.Err e
               end
      | None => None
      end /\
    subscriptions p' = subscriptions p /\
    objects p' = objects p /\
    output p' = output p /\
    configuration p' = cfg.
Proof.
  intros Hrun network sessionId cfg.
  destruct (match sdks p !! sessionId with
            | Some sdk => String.eqb (Sdk.networkType sdk) network
            | None => false
            end) eqn:Hnot.
  { unfold handleConnect in Hrun. fold network sessionId in Hrun.
    rewrite Hnot in Hrun. discriminate. }
  pose proof (handleConnect_run args p Hnot) as Hshape.
  cbn zeta in Hshape. fold network sessionId cfg in Hshape.
  destruct (newKaspaSDK cfg (Some network)) as [sdk0|e] eqn:Hnew;
    [|rewrite Hshape in Hrun; discriminate].
  destruct (initialize node cfg (c_rpcUrl args) sdk0) as [sdk|e] eqn:Hinit;
    [|rewrite Hshape in Hrun; discriminate].
  destruct Hshape as (sdk' & newWallet & Heq & Hn & Hr & Hl & Hsw & Hw).
  rewrite Heq in Hrun. injection Hrun as _ _ Hnote <-.
  exists sdk0, sdk, sdk'. cbn.
  apply newKaspaSDK_fresh in Hnew as Hfresh.
  destruct Hfresh as (Hrpc & _ & Hnone & _).
  assert (Hsdk : Sdk.wallet sdk = None).
  { revert Hinit. unfold initialize. rewrite Hrpc.
    destruct (Network.getWasmNetworkType _); [|discriminate].
    destruct (node_connect node _ _); [|discriminate].
    intros [= <-]. exact Hnone. }
  rewrite Hsdk in Hsw. subst newWallet.
  repeat split; try assumption; try (symmetry; assumption).
  - rewrite Hsw. destruct (wallets p !! sessionId) as [old|].
    + destruct (recreate wasm old _).
      * rewrite lookup_insert_eq. reflexivity.
      * rewrite lookup_delete_eq. reflexivity.
    + rewrite lookup_delete_eq. reflexivity.
  - destruct (wallets p !! sessionId) as [old|]; [|reflexivity].
    destruct (recreate wasm old _); reflexivity.
Qed.

(** X27. When a session with a wallet connects to another network, the
    wallet is made again from the mnemonic of the old one alone: a wallet
    with a mnemonic keeps it, a wallet made from a private key is replaced
    by a wallet with a newly drawn mnemonic and no private key, and when
    the new wallet cannot be made the session has no wallet and the reply
    carries the error. *)
Theorem reconnect_recreates_wallet args p n c note p' old :
  handleConnect wasm eng node env args p
    = (Server.Returned (Connected n c note), p') ->
  let sessionId := Server.sessionIdOrDefault (c_sessionId args) in
  wallets p !! sessionId = Some old ->
  let phrase :=
    if Js.truthy (Wallet.mnemonic old) then default "" (Wallet.mnemonic old)
    else Wallet.randomMnemonic wasm in
  match wallets p' !! sessionId with
  | Some w =>
      Wallet.mnemonic w = Some phrase /\
      Wallet.privateKey w = None /\
      (exists sdk, sdks p' !! sessionId = Some sdk /\
                   Wallet.networkType w = Sdk.networkType sdk /\
                   Sdk.wallet sdk = Some (Wallet.view eng w)) /\
      note = Some (Wallet.getReceiveAddress eng w 0)
  | None => exists e, note = Some (Sdk.Err e)
  end.
Proof.
  intros Hrun sessionId Hold phrase.
  destruct (handleConnect_connected _ _ _ _ _ _ Hrun)
    as (sdk0 & sdk & sdk' & _ & _ & Hsdks & Hn & _ & _ & Hsw & Hw & Hnote & _).
  fold sessionId in Hsdks, Hsw, Hw, Hnote.
  rewrite Hold in Hw, Hnote.
  assert (Hfrom : forall config ph w,
            Wallet.fromPhrase wasm config ph = Sdk.Ok w ->
            Wallet.mnemonic w = Some ph /\ Wallet.privateKey w = None /\
            Wallet.networkType w = Wallet.wc_networkType config).
  { intros config ph w. unfold Wallet.fromPhrase.
    destruct (Wallet.newKeyGenerator wasm _ _ _); [|discriminate].
    intros [= <-]. repeat split. }
  assert (Hdone : forall w,
            recreate wasm old (Sdk.networkType sdk) = Sdk.Ok w ->
            Wallet.mnemonic w = Some phrase /\ Wallet.privateKey w = None /\
            Wallet.networkType w = Sdk.networkType sdk).
  { intros w. unfold recreate, Wallet.new, Wallet.getMnemonic, phrase.
    cbn [Wallet.wc_mnemonic Wallet.wc_privateKey].
    destruct (Js.truthy (Wallet.mnemonic old)).
    - destruct (negb _); [discriminate|]. apply Hfrom.
    - cbn [Js.truthy]. apply Hfrom. }
  destruct (recreate wasm old (Sdk.networkType sdk)) as [w|e] eqn:Hnew.
  - rewrite Hw in Hsw |- *. rewrite lookup_insert_eq in Hsw |- *.
    destruct (Hdone w eq_refl) as (Hm & Hk & Hnet).
    repeat split; try assumption.
    exists sdk'. rewrite Hsdks, lookup_insert_eq.
    repeat split; [congruence | exact Hsw].
  - rewrite Hw, lookup_delete_eq. eauto.
Qed.

(** X28. A connect request that makes a new connection keeps the registry
    of subscriptions, but the new connection has no listener: no event of
    the session is notified after it. *)
Theorem reconnect_silences_subscription args p n c note p' :
  handleConnect wasm eng node env args p
    = (Server.Returned (Connected n c note), p') ->
  let sessionId := Server.sessionIdOrDefault (c_sessionId args) in
  subscriptions p' = subscriptions p /\
  objects p' = objects p /\
  forall event data,
    Server.emit sessionId event data (serverState eng p') = serverState eng p'.
Proof.
  intros Hrun sessionId.
  destruct (handleConnect_connected _ _ _ _ _ _ Hrun)
    as (sdk0 & sdk & sdk' & Hnew & Hinit & Hsdks & _ & _ & Hl & _ & _ & _
        & Hs & Ho & _).
  fold sessionId in Hsdks.
  split; [exact Hs|]. split; [exact Ho|].
  intros event data. unfold Server.emit, serverState.
  cbn [Server.sdkInstances]. rewrite Hsdks, lookup_insert_eq.
  unfold Sdk.handlersFor. rewrite Hl.
  apply newKaspaSDK_fresh in Hnew as (Hrpc & Hempty & _).
  apply (initialize_fresh _ _ _ _ Hrpc) in Hinit as (_ & _ & Hl' & _).
  rewrite Hl', Hempty, lookup_empty. reflexivity.
Qed.

Lemma loadFromEnv_getNetworkConfig c network :
  Config.getNetworkConfig (Config.loadFromEnv env c) network
  = match rpcUrlVariable network ≫= Config.envVar env with
    | Some url => (Some url, Some Config.Borsh)
    | None => Config.getNetworkConfig c network
    end.
Proof.
  unfold Config.getNetworkConfig, Config.loadFromEnv.
  rewrite mergeConfig_networks.
  unfold Config.configFromEnv, rpcUrlVariable. cbn [Config.p_networks].
  destruct (String.eqb_spec network "mainnet") as [->|Hm].
  { cbn [mbind option_bind].
    destruct (Config.envVar env "KASPA_DEVNET_RPC_URL");
      destruct (Config.envVar env "KASPA_TESTNET_RPC_URL");
      destruct (Config.envVar env "KASPA_MAINNET_RPC_URL");
      repeat (rewrite lookup_insert_ne by discriminate);
      rewrite ?lookup_insert_eq, ?lookup_empty; reflexivity. }
  destruct (String.eqb_spec network "testnet-10") as [->|Ht].
  { cbn [mbind option_bind].
    destruct (Config.envVar env "KASPA_DEVNET_RPC_URL");
      destruct (Config.envVar env "KASPA_TESTNET_RPC_URL");
      destruct (Config.envVar env "KASPA_MAINNET_RPC_URL");
      repeat (rewrite lookup_insert_ne by discriminate);
      rewrite ?lookup_insert_eq, ?lookup_empty; reflexivity. }
  destruct (String.eqb_spec network "devnet") as [->|Hd].
  { cbn [mbind option_bind].
    destruct (Config.envVar env "KASPA_DEVNET_RPC_URL");
      destruct (Config.envVar env "KASPA_TESTNET_RPC_URL");
      destruct (Config.envVar env "KASPA_MAINNET_RPC_URL");
      repeat (rewrite lookup_insert_ne by discriminate);
      rewrite ?lookup_insert_eq, ?lookup_empty; reflexivity. }
  cbn [mbind option_bind].
  destruct (Config.envVar env "KASPA_DEVNET_RPC_URL");
    destruct (Config.envVar env "KASPA_TESTNET_RPC_URL");
    destruct (Config.envVar env "KASPA_MAINNET_RPC_URL");
    repeat (rewrite lookup_insert_ne by congruence);
    rewrite ?lookup_empty; reflexivity.
Qed.

(** X29. A connect request that connected has reached the node at the
    address given in the request; without one, at the address in the
    environment variable of the network; without that, at the configured
    address of the network, or the built-in one. *)
Theorem connect_url_precedence args p n c note p' :
  let network := default "mainnet" (c_network args) in
  network <> "" ->
  handleConnect wasm eng node env args p
    = (Server.Returned (Connected n c note), p') ->
  node_connect node network
    (if Js.truthy (c_rpcUrl args) then c_rpcUrl args
     else match rpcUrlVariable network ≫= Config.envVar env with
          | Some url => Some url
          | None => fst (Config.getNetworkConfig (configuration p) network)
          end)
  = Sdk.Ok tt.
Proof.
  intros network Hne Hrun.
  destruct (handleConnect_connected _ _ _ _ _ _ Hrun)
    as (sdk0 & sdk & sdk' & Hnew & Hinit & _).
  fold network in Hnew.
  apply newKaspaSDK_fresh in Hnew as (Hrpc & _ & _ & _ & Hn).
  apply (initialize_fresh _ _ _ _ Hrpc) in Hinit as (_ & _ & _ & Hc).
  rewrite (Hn Hne) in Hc. rewrite <- Hc. f_equal.
  unfold connectUrl. destruct (Js.truthy (c_rpcUrl args)); [reflexivity|].
  rewrite loadFromEnv_getNetworkConfig.
  destruct (rpcUrlVariable network ≫= Config.envVar env); reflexivity.
Qed.

Lemma new_networkType config w :
  Wallet.new wasm config = Sdk.Ok w ->
  Wallet.networkType w = Wallet.wc_networkType config.
Proof.
  assert (Hfrom : forall ph,
            Wallet.fromPhrase wasm config ph = Sdk.Ok w ->
            Wallet.networkType w = Wallet.wc_networkType config).
  { intros ph. unfold Wallet.fromPhrase.
    destruct (Wallet.newKeyGenerator wasm _ _ _); [|discriminate].
    intros [= <-]. reflexivity. }
  unfold Wallet.new.
  destruct (Js.truthy (Wallet.wc_mnemonic config)).
  - destruct (negb _); [discriminate|]. apply Hfrom.
  - destruct (Js.truthy (Wallet.wc_privateKey config)); [|apply Hfrom].
    destruct (Wallet.newPrivateKey wasm _); [|discriminate].
    intros [= <-]. reflexivity.
Qed.

Lemma createAndStore_returned sessionId args sdk p reply p' :
  createAndStore wasm eng sessionId args sdk p = (Server.Returned reply, p') ->
  exists sdk' w,
    sdks p' !! sessionId = Some sdk' /\
    wallets p' !! sessionId = Some w /\
    Sdk.wallet sdk' = Some (Wallet.view eng w) /\
    Sdk.networkType sdk' = Sdk.networkType sdk /\
    Wallet.networkType w = Sdk.networkType sdk /\
    Wallet.getReceiveAddress eng w 0 = Sdk.Ok (receiveAddress reply) /\
    Wallet.getChangeAddress eng w 0 = Sdk.Ok (changeAddress reply) /\
    shownMnemonic reply
    = (if negb (Js.truthy (cw_mnemonic args))
          && negb (Js.truthy (cw_privateKey args))
       then Some (Wallet.mnemonic w) else None).
Proof.
  unfold createAndStore, createWallet.
  destruct (Wallet.new wasm _) as [w|e] eqn:Hnew; [|discriminate].
  apply new_networkType in Hnew. cbn [Wallet.wc_networkType] in Hnew.
  destruct (Wallet.getReceiveAddress eng w 0) as [receive|e] eqn:Hr;
    [|discriminate].
  destruct (Wallet.getChangeAddress eng w 0) as [change|e] eqn:Hc;
    [|discriminate].
  intros [= <- <-]. eexists _, w. cbn [sdks wallets setSdks setWallets].
  rewrite !lookup_insert_eq. repeat split; try assumption.
Qed.

(** X30. When a create-wallet request returns, the wallet and its
    connection are stored under the normalized session id and belong to
    the same network, which is the network of the connection the session
    had, or [testnet-10] when it had none; the reply shows the first
    receive and change addresses of the wallet, and its mnemonic exactly
    when the request gave neither a mnemonic nor a private key. *)
Theorem create_wallet_stores args p reply p' :
  handleCreateWallet wasm eng node env args p = (Server.Returned reply, p') ->
  let sessionId := Server.normalizeSessionId (cw_sessionId args) in
  exists sdk w,
    sdks p' !! sessionId = Some sdk /\
    wallets p' !! sessionId = Some w /\
    Sdk.wallet sdk = Some (Wallet.view eng w) /\
    Wallet.networkType w = Sdk.networkType sdk /\
    Sdk.networkType sdk
    = match sdks p !! sessionId with
      | Some connected => Sdk.networkType connected
      | None => "testnet-10"
      end /\
    Wallet.getReceiveAddress eng w 0 = Sdk.Ok (receiveAddress reply) /\
    Wallet.getChangeAddress eng w 0 = Sdk.Ok (changeAddress reply) /\
    shownMnemonic reply
    = (if negb (Js.truthy (cw_mnemonic args))
          && negb (Js.truthy (cw_privateKey args))
       then Some (Wallet.mnemonic w) else None).
Proof.
  intros Hrun sessionId. revert Hrun.
  unfold handleCreateWallet. fold sessionId.
  destruct (sdks p !! sessionId) as [connected|] eqn:Hsdk.
  - intros Hrun.
    destruct (createAndStore_returned _ _ _ _ _ _ Hrun)
      as (sdk & w & H1 & H2 & H3 & H4 & H5 & H6 & H7 & H8).
    exists sdk, w. repeat split; try assumption. congruence.
  - destruct (handleConnect wasm eng node env _ p) as [[r|code m] p1] eqn:Hc;
      [|discriminate].
    destruct (sdks p1 !! sessionId) as [sdk1|] eqn:Hsdk1; [|discriminate].
    intros Hrun.
    destruct (createAndStore_returned _ _ _ _ _ _ Hrun)
      as (sdk & w & H1 & H2 & H3 & H4 & H5 & H6 & H7 & H8).
    exists sdk, w. repeat split; try assumption; try congruence.
    rewrite H4.
    destruct r as [n|n c note].
    + unfold handleConnect in Hc. cbn [c_sessionId c_network] in Hc.
      change (Server.sessionIdOrDefault (Some sessionId)) with sessionId in Hc.
      rewrite Hsdk in Hc. revert Hc.
      cbn zeta. destruct (newKaspaSDK _ _); [|discriminate].
      destruct (initialize node _ _ _); [|discriminate].
      destruct (Wallet.getMnemonic <$> _); [|discriminate].
      destruct (createWallet _ _ _ _ _) as [[]|]; discriminate.
    + destruct (handleConnect_connected _ _ _ _ _ _ Hc)
        as (sdk0 & sdk2 & sdk' & Hnew & Hinit & Hsdks & Hn & _).
      cbn [c_sessionId c_network c_rpcUrl] in Hnew, Hinit, Hsdks.
      change (Server.sessionIdOrDefault (Some sessionId)) with sessionId
        in Hsdks.
      rewrite Hsdks, lookup_insert_eq in Hsdk1. injection Hsdk1 as <-.
      apply newKaspaSDK_fresh in Hnew as (Hrpc & _ & _ & _ & Hnet).
      apply (initialize_fresh _ _ _ _ Hrpc) in Hinit as (Hn' & _).
      rewrite Hn, Hn'. apply Hnet. discriminate.
Qed.

End Connections.

Section FurtherWitnesses.
Local Open Scope string_scope.

Lemma validateAddress_single_network_witness :
  Network.getWasmNetworkType "testnet-10" = Sdk.Ok Network.Testnet /\
  Network.validateAddress Scenarios.address "kaspatest:sender"
    (Some "testnet-10") = true /\
  "testnet-10" = "testnet-10".
Proof.
  split; [reflexivity|]. split; [reflexivity|].
  exact (validateAddress_single_network Scenarios.address "kaspatest:sender"
           "testnet-10" "testnet-10" Network.Testnet Network.Testnet
           eq_refl eq_refl eq_refl eq_refl).
Defined.

Lemma deriveAddresses_agrees_witness :
  Wallet.keyGenerator Scenarios.hdWallet = Some Scenarios.derivation /\
  Wallet.deriveAddresses Examples.engine Scenarios.hdWallet 3 2 false
    = Sdk.Ok ["kaspatest:sender"; "kaspatest:sender"] /\
  Forall2 (fun i a =>
             Wallet.getReceiveAddress Examples.engine Scenarios.hdWallet i
             = Sdk.Ok a)
    (seq 3 2) ["kaspatest:sender"; "kaspatest:sender"].
Proof.
  split; [reflexivity|]. split; [reflexivity|].
  exact (proj1 (deriveAddresses_agrees Examples.engine Scenarios.hdWallet
                  Scenarios.derivation 3 2 false
                  ["kaspatest:sender"; "kaspatest:sender"] eq_refl) eq_refl).
Defined.

Lemma private_key_wallet_witness :
  Js.truthy (Wallet.wc_mnemonic Scenarios.keyConfig) = false /\
  Js.truthy (Wallet.wc_privateKey Scenarios.keyConfig) = true /\
  Wallet.new Scenarios.wasm Scenarios.keyConfig = Sdk.Ok Scenarios.keyWallet /\
  Wallet.getMnemonic Scenarios.keyWallet = None /\
  Wallet.deriveAddresses Examples.engine Scenarios.keyWallet 0 3 false
    = Sdk.Err "HD wallet not available".
Proof.
  split; [reflexivity|]. split; [reflexivity|]. split; [reflexivity|].
  destruct (private_key_wallet Scenarios.wasm Examples.engine
              Scenarios.keyConfig Scenarios.keyWallet eq_refl eq_refl eq_refl)
    as (key & _ & _ & _ & _ & Hm & Hd & _).
  split; [exact Hm | exact (Hd 0%nat 3%nat false)].
Defined.

Lemma getUTXOsForAddresses_groups_witness :
  exists utxoMap,
    Tracking.getUTXOsForAddresses Scenarios.manager ["kaspatest:sender"; "other"]
      = Sdk.Ok utxoMap /\
    utxoMap !! "other" = Some [] /\
    utxoMap !! "absent" = None.
Proof.
  destruct (Tracking.getUTXOsForAddresses Scenarios.manager
              ["kaspatest:sender"; "other"]) as [utxoMap|e] eqn:Hrun;
    [|vm_compute in Hrun; discriminate Hrun].
  exists utxoMap. split; [reflexivity|].
  destruct (getUTXOsForAddresses_groups _ _ _ Hrun) as (allUtxos & Hall & Hmap).
  assert (Hvalue : allUtxos = [Examples.entry "a" 5; Examples.entry "b" 10]).
  { vm_compute in Hall. injection Hall as <-. reflexivity. }
  split.
  - rewrite (Hmap "other"), Hvalue. reflexivity.
  - rewrite (Hmap "absent"). reflexivity.
Defined.

Lemma refresh_tracked_witness :
  NoDup (Tracking.trackedAddresses Scenarios.manager) /\
  exists r mgr',
    Tracking.refresh Scenarios.address Scenarios.manager = (r, mgr') /\
    Tracking.context mgr' = Tracking.context Scenarios.manager.
Proof.
  assert (Hnodup : NoDup (Tracking.trackedAddresses Scenarios.manager)).
  { apply NoDup_singleton. }
  split; [exact Hnodup|].
  destruct (Tracking.refresh Scenarios.address Scenarios.manager)
    as [r mgr'] eqn:Hrun.
  exists r, mgr'. split; [reflexivity|].
  exact (proj1 (refresh_tracked Scenarios.address Scenarios.manager r mgr'
                  Hnodup Hrun)).
Defined.

Lemma sendTransaction_success_trace_witness :
  exists res t',
    Sdk.sendTransaction Examples.engine Examples.sdk (Examples.sendConfig None)
      [] = (Sdk.Ok res, t') /\
    exists queries utxos outs change priority payload ptx,
      t' = (queries
              ++ [Sdk.CallBuildWithGenerator utxos outs change priority payload;
                  Sdk.CallSubmitTransaction (Sdk.transaction ptx)])%list /\
      Sdk.transactionId res = Sdk.id (Sdk.transaction ptx).
Proof.
  destruct (Sdk.sendTransaction Examples.engine Examples.sdk
              (Examples.sendConfig None) []) as [[res|e] t'] eqn:Hrun;
    [|vm_compute in Hrun; discriminate Hrun].
  exists res, t'. split; [reflexivity|].
  destruct (sendTransaction_success_trace _ _ _ _ _ _ Hrun)
    as (queries & utxos & outs & change & priority & payload & ptx & rest
        & Ht & _ & _ & Hid).
  exists queries, utxos, outs, change, priority, payload, ptx.
  split; [exact Ht | exact Hid].
Defined.





Lemma send_from_wallet_generator_call_witness :
  Server.sdkInstances (Examples.connected "default") !! "default"
    = Some Examples.sdk /\
  Server.walletInstances (Examples.connected "default") !! "default"
    = Some Examples.wallet /\
  exists out t' ext,
    Server.handleSendFromWallet Examples.engine Scenarios.sompiToKas
      (Examples.connected "default") (Scenarios.walletArgs (Some "0.001")) []
    = (out, t') /\
    t' = ([] ++ ext)%list.
Proof.
  split; [reflexivity|]. split; [reflexivity|].
  destruct (Server.handleSendFromWallet Examples.engine Scenarios.sompiToKas
              (Examples.connected "default")
              (Scenarios.walletArgs (Some "0.001")) []) as [out t'] eqn:Hrun.
  destruct (send_from_wallet_generator_call Examples.engine
              Scenarios.sompiToKas (Examples.connected "default")
              (Scenarios.walletArgs (Some "0.001")) Examples.sdk
              Examples.wallet [] out t' eq_refl eq_refl Hrun) as (ext & Ht & _).
  exists out, t', ext. split; [reflexivity | exact Ht].
Defined.

Lemma subscribe_failure_keeps_registry_witness :
  let eng := Scenarios.engineWith (Sdk.Ok tt) (Sdk.Err "refused") (Sdk.Ok tt) in
  exists code message st' t',
    Server.handleSubscribeBalance eng Examples.subscribeArgs
      Examples.subscribed [] = (Server.McpError code message, st', t') /\
    Server.subscriptionInstances st'
      = Server.subscriptionInstances Examples.subscribed /\
    Server.subscriptionObjects st' !! 0%nat = Some Examples.subscription.
Proof.
  intros eng.
  destruct (Server.handleSubscribeBalance eng Examples.subscribeArgs
              Examples.subscribed []) as [[[addrs|code message] st'] t'] eqn:Hrun;
    [vm_compute in Hrun; discriminate Hrun|].
  exists code, message, st', t'. split; [reflexivity|].
  destruct (subscribe_failure_keeps_registry _ _ _ _ _ _ _ _ Hrun)
    as (_ & _ & Hreg & _ & Hobj).
  split; [exact Hreg|].
  apply Hobj. vm_compute. reflexivity.
Defined.

Lemma resubscribe_adds_a_listener_witness :
  Spec.Subscribed Examples.subscribed "default" 0 Examples.subscription
    Examples.listener /\
  exists addrs st' t' ref',
    Server.handleSubscribeBalance Examples.engine Examples.subscribeArgs
      Examples.subscribed [] = (Server.Returned addrs, st', t') /\
    ref' <> 0%nat /\
    Server.subscriptionInstances st' !! "default" = Some ref' /\
    Server.subscriptionObjects st' !! 0%nat = Some Examples.subscription.
Proof.
  split; [exact subscribed_example|].
  destruct (Server.handleSubscribeBalance Examples.engine Examples.subscribeArgs
              Examples.subscribed []) as [[[addrs|code message] st'] t'] eqn:Hrun;
    [|vm_compute in Hrun; discriminate Hrun].
  destruct (resubscribe_adds_a_listener Examples.engine Examples.subscribeArgs
              Examples.subscribed [] "default" 0%nat Examples.subscription
              Examples.listener addrs st' t' eq_refl subscribed_example Hrun)
    as (ref' & sdk' & sub' & Hne & Hreg & _ & _ & Hold & _).
  exists addrs, st', t', ref'. split; [reflexivity|].
  split; [exact Hne|]. split; [exact Hreg | exact Hold].
Defined.

Lemma unsubscribe_engine_failure_witness :
  let eng := Scenarios.engineWith (Sdk.Ok tt) (Sdk.Ok tt) (Sdk.Err "refused") in
  Spec.Subscribed Examples.subscribed "default" 0 Examples.subscription
    Examples.listener /\
  exists code message st' t',
    Server.handleUnsubscribeBalance eng Examples.unsubscribeAll
      Examples.subscribed [] = (Server.McpError code message, st', t') /\
    Server.subscriptionInstances st' !! "default" = Some 0%nat /\
    Server.emit "default" "balance:changed" (Examples.incoming "addrA") st'
    = st'.
Proof.
  intros eng. split; [exact subscribed_example|].
  destruct (Server.handleUnsubscribeBalance eng Examples.unsubscribeAll
              Examples.subscribed []) as [[[reply|code message] st'] t'] eqn:Hrun;
    [vm_compute in Hrun; discriminate Hrun|].
  destruct (unsubscribe_engine_failure eng Examples.unsubscribeAll
              Examples.subscribed [] "default" 0%nat Examples.subscription
              Examples.listener code message st' t' eq_refl subscribed_example
              Hrun) as (_ & _ & _ & _ & Hreg & Hsilent).
  exists code, message, st', t'. split; [reflexivity|].
  split; [exact Hreg|].
  apply (Hsilent "balance:changed" (Examples.incoming "addrA") "addrA").
  - right. right. left. reflexivity.
  - reflexivity.
  - apply list_elem_of_here.
Defined.

Lemma subscription_status_lists_monitored_witness :
  Spec.Subscribed Examples.subscribed "default" 0 Examples.subscription
    Examples.listener /\
  exists lines,
    Queries.handleGetSubscriptionStatus Examples.engine Examples.subscribed
      None []
    = (Server.Returned (Queries.Status 2 true ["addrA"; "addrB"] (Some lines)),
       [Sdk.CallGetBalance "addrA"; Sdk.CallGetBalance "addrB"]) /\
    map Queries.lineAddress lines = ["addrA"; "addrB"].
Proof.
  split; [exact subscribed_example|].
  destruct (Server.sdkInstances Examples.subscribed !! "default")
    as [sdk|] eqn:Hsdk; [|vm_compute in Hsdk; discriminate Hsdk].
  assert (Hrpc : Sdk.rpcClient sdk = true).
  { vm_compute in Hsdk. injection Hsdk as <-. reflexivity. }
  destruct (subscription_status_lists_monitored Examples.engine
              Examples.subscribed None "default" 0%nat Examples.subscription
              Examples.listener sdk [] eq_refl subscribed_example Hsdk Hrpc)
    as (lines & Hrun & Haddr & _).
  exists lines. split; [exact Hrun | exact Haddr].
Defined.

Lemma fee_recommendations_ordered_witness :
  exists r t',
    Queries.handleGetFeeRecommendations Examples.engine
      (Examples.connected "default") (Scenarios.estimateArgs (Some "0.001")) []
    = (Server.Returned r, t') /\
    (0 <= Queries.normalFee r < 2 ^ 53)%Z /\
    (0 <= Queries.transactionMass r < 2 ^ 53)%Z /\
    (Queries.lowFee r <= Queries.normalFee r <= Queries.highFee r)%Z.
Proof.
  destruct (Queries.handleGetFeeRecommendations Examples.engine
              (Examples.connected "default")
              (Scenarios.estimateArgs (Some "0.001")) [])
    as [[r|code message] t'] eqn:Hrun;
    [|vm_compute in Hrun; discriminate Hrun].
  assert (Hbounds : (0 <= Queries.normalFee r < 2 ^ 53)%Z /\
                    (0 <= Queries.transactionMass r < 2 ^ 53)%Z).
  { pose proof Hrun as Hvalue. vm_compute in Hvalue.
    injection Hvalue as <- _. repeat split; discriminate. }
  destruct Hbounds as (Hfee & Hmass).
  exists r, t'. split; [reflexivity|]. split; [exact Hfee|].
  split; [exact Hmass|].
  destruct (fee_recommendations_ordered _ _ _ _ _ _ Hrun Hfee Hmass)
    as (_ & _ & _ & _ & _ & _ & Horder & _).
  exact Horder.
Defined.

Lemma selectUTXOs_complete_witness :
  [Examples.entry "b" 10] ⊆+ Examples.available /\
  (5 + Z.of_nat (length [Examples.entry "b" 10]) * Utxo.feePerUtxoOf (Some 4)
   <= Utxo.sumAmounts [Examples.entry "b" 10])%Z /\
  exists sel, Utxo.selectUTXOs Examples.available 5 (Some 4) = inr sel.
Proof.
  assert (Hsub : [Examples.entry "b" 10] ⊆+ Examples.available).
  { apply submseteq_cons, submseteq_skip, submseteq_nil_l. }
  assert (Hsum : (5 + Z.of_nat (length [Examples.entry "b" 10])
                      * Utxo.feePerUtxoOf (Some 4)
                  <= Utxo.sumAmounts [Examples.entry "b" 10])%Z).
  { vm_compute. discriminate. }
  split; [exact Hsub|]. split; [exact Hsum|].
  apply (selectUTXOs_complete Examples.available 5 (Some 4)
           [Examples.entry "b" 10] Hsub); [discriminate | exact Hsum].
Defined.

Lemma connect_is_idempotent_witness :
  default "mainnet" (Lifecycle.c_network (Scenarios.connectTo "testnet-10"))
    <> "" /\
  exists reply p',
    Lifecycle.handleConnect Scenarios.wasm Examples.engine Scenarios.node ∅
      (Scenarios.connectTo "testnet-10") Scenarios.fresh
    = (Server.Returned reply, p') /\
    Lifecycle.handleConnect Scenarios.wasm Examples.engine Scenarios.node ∅
      (Scenarios.connectTo "testnet-10") p'
    = (Server.Returned (Lifecycle.AlreadyConnected "testnet-10"), p').
Proof.
  assert (Hne : default "mainnet"
                  (Lifecycle.c_network (Scenarios.connectTo "testnet-10"))
                <> "") by discriminate.
  split; [exact Hne|].
  destruct (Lifecycle.handleConnect Scenarios.wasm Examples.engine
              Scenarios.node ∅ (Scenarios.connectTo "testnet-10")
              Scenarios.fresh) as [[reply|code message] p'] eqn:Hrun;
    [|vm_compute in Hrun; discriminate Hrun].
  exists reply, p'. split; [reflexivity|].
  exact (connect_is_idempotent Scenarios.wasm Examples.engine Scenarios.node ∅
           (Scenarios.connectTo "testnet-10") Scenarios.fresh reply p' Hne Hrun).
Defined.

Lemma connect_failure_drops_session_witness :
  exists code message p',
    Lifecycle.handleConnect Scenarios.wasm Examples.engine Scenarios.node ∅
      (Scenarios.connectTo "testnet") Scenarios.withKeyWallet
    = (Server.McpError code message, p') /\
    Lifecycle.sdks p' !! "default" = None /\
    Lifecycle.wallets p' !! "default" = None.
Proof.
  destruct (Lifecycle.handleConnect Scenarios.wasm Examples.engine
              Scenarios.node ∅ (Scenarios.connectTo "testnet")
              Scenarios.withKeyWallet) as [[reply|code message] p'] eqn:Hrun;
    [vm_compute in Hrun; discriminate Hrun|].
  exists code, message, p'. split; [reflexivity|].
  destruct (connect_failure_drops_session Scenarios.wasm Examples.engine
              Scenarios.node ∅ (Scenarios.connectTo "testnet")
              Scenarios.withKeyWallet code message p' Hrun)
    as (_ & _ & _ & Hsdk & Hwallet & _).
  split; [exact Hsdk | exact Hwallet].
Defined.

Lemma reconnect_recreates_wallet_witness :
  Lifecycle.wallets Scenarios.withKeyWallet !! "default"
    = Some Scenarios.keyWallet /\
  exists n c note p' w,
    Lifecycle.handleConnect Scenarios.wasm Examples.engine Scenarios.node ∅
      (Scenarios.connectTo "mainnet") Scenarios.withKeyWallet
    = (Server.Returned (Lifecycle.Connected n c note), p') /\
    Lifecycle.wallets p' !! "default" = Some w /\
    Wallet.mnemonic w = Some (Wallet.randomMnemonic Scenarios.wasm) /\
    Wallet.privateKey w = None.
Proof.
  split; [reflexivity|].
  destruct (Lifecycle.handleConnect Scenarios.wasm Examples.engine
              Scenarios.node ∅ (Scenarios.connectTo "mainnet")
              Scenarios.withKeyWallet) as [[[n|n c note]|code message] p'] eqn:Hrun;
    [vm_compute in Hrun; discriminate Hrun | |
     vm_compute in Hrun; discriminate Hrun].
  pose proof (reconnect_recreates_wallet Scenarios.wasm Examples.engine
                Scenarios.node ∅ (Scenarios.connectTo "mainnet")
                Scenarios.withKeyWallet n c note p' Scenarios.keyWallet
                Hrun eq_refl) as Hwallet.
  cbn zeta in Hwallet.
  change (Server.sessionIdOrDefault
            (Lifecycle.c_sessionId (Scenarios.connectTo "mainnet")))
    with "default" in Hwallet.
  destruct (Lifecycle.wallets p' !! "default") as [w|] eqn:Hw.
  - destruct Hwallet as (Hm & Hk & _).
    exists n, c, note, p', w. repeat split; assumption.
  - exfalso. vm_compute in Hrun. injection Hrun as _ _ _ <-.
    vm_compute in Hw. discriminate Hw.
Defined.

Lemma reconnect_silences_subscription_witness :
  exists n c note p',
    Lifecycle.handleConnect Scenarios.wasm Examples.engine Scenarios.node ∅
      (Scenarios.connectTo "mainnet") Scenarios.withKeyWallet
    = (Server.Returned (Lifecycle.Connected n c note), p') /\
    Lifecycle.subscriptions p'
      = Lifecycle.subscriptions Scenarios.withKeyWallet /\
    Server.emit "default" "balance:changed" (Examples.incoming "addrA")
      (Lifecycle.serverState Examples.engine p')
    = Lifecycle.serverState Examples.engine p'.
Proof.
  destruct (Lifecycle.handleConnect Scenarios.wasm Examples.engine
              Scenarios.node ∅ (Scenarios.connectTo "mainnet")
              Scenarios.withKeyWallet) as [[[n|n c note]|code message] p'] eqn:Hrun;
    [vm_compute in Hrun; discriminate Hrun | |
     vm_compute in Hrun; discriminate Hrun].
  destruct (reconnect_silences_subscription Scenarios.wasm Examples.engine
              Scenarios.node ∅ (Scenarios.connectTo "mainnet")
              Scenarios.withKeyWallet n c note p' Hrun) as (Hs & _ & Hsilent).
  exists n, c, note, p'. split; [reflexivity|]. split; [exact Hs|].
  exact (Hsilent "balance:changed" (Examples.incoming "addrA")).
Defined.

Lemma connect_url_precedence_witness :
  let env : Config.Env := {[ "KASPA_TESTNET_RPC_URL" := "ws://10.0.0.7:17210" ]} in
  let node := Scenarios.nodeAt "ws://10.0.0.7:17210" in
  default "mainnet" (Lifecycle.c_network (Scenarios.connectTo "testnet-10"))
    <> "" /\
  exists n c note p',
    Lifecycle.handleConnect Scenarios.wasm Examples.engine node env
      (Scenarios.connectTo "testnet-10") Scenarios.fresh
    = (Server.Returned (Lifecycle.Connected n c note), p') /\
    Lifecycle.node_connect node "testnet-10" (Some "ws://10.0.0.7:17210")
    = Sdk.Ok tt.
Proof.
  intros env node.
  assert (Hne : default "mainnet"
                  (Lifecycle.c_network (Scenarios.connectTo "testnet-10"))
                <> "") by discriminate.
  split; [exact Hne|].
  destruct (Lifecycle.handleConnect Scenarios.wasm Examples.engine node env
              (Scenarios.connectTo "testnet-10") Scenarios.fresh)
    as [[[n|n c note]|code message] p'] eqn:Hrun;
    [vm_compute in Hrun; discriminate Hrun | |
     vm_compute in Hrun; discriminate Hrun].
  exists n, c, note, p'. split; [reflexivity|].
  exact (connect_url_precedence Scenarios.wasm Examples.engine node env
           (Scenarios.connectTo "testnet-10") Scenarios.fresh n c note p'
           Hne Hrun).
Defined.

Lemma create_wallet_stores_witness :
  exists reply p' sdk w,
    Lifecycle.handleCreateWallet Scenarios.wasm Examples.engine Scenarios.node ∅
      Scenarios.createArgs Scenarios.fresh = (Server.Returned reply, p') /\
    Lifecycle.sdks p' !! "alice" = Some sdk /\
    Lifecycle.wallets p' !! "alice" = Some w /\
    Sdk.networkType sdk = "testnet-10" /\
    Lifecycle.shownMnemonic reply = Some (Wallet.mnemonic w).
Proof.
  destruct (Lifecycle.handleCreateWallet Scenarios.wasm Examples.engine
              Scenarios.node ∅ Scenarios.createArgs Scenarios.fresh)
    as [[reply|code message] p'] eqn:Hrun;
    [|vm_compute in Hrun; discriminate Hrun].
  destruct (create_wallet_stores Scenarios.wasm Examples.engine Scenarios.node
              ∅ Scenarios.createArgs Scenarios.fresh reply p' Hrun)
    as (sdk & w & Hsdk & Hw & _ & _ & Hnet & _ & _ & Hshown).
  exists reply, p', sdk, w. split; [reflexivity|].
  split; [exact Hsdk|]. split; [exact Hw|].
  split; [exact Hnet | exact Hshown].
Defined.

End FurtherWitnesses.
